(** * Optimization problem set-up and solve (mpcpy/optimization.py)

    A shallow embedding of the module [mpcpy.optimization]: the
    orchestrator class [Optimization], the three problem types
    ([EnergyMin], [EnergyCostMin], [_ParameterEstimate]) and the two solver
    packages ([JModelica], [Python]).

    Python objects that the module shares and mutates live in typed
    stores and are named by locations: the model, the solver package
    objects, the option dictionaries handed out by
    [get_optimization_options], and the result objects placed in them.
    A method becomes a state transformer that returns the new state
    together with either a value or the exception it raised; a raised
    exception keeps every mutation made before it, as in Python.

    Method [m] of class [C] is the definition [C_m], so [JModelica._solve]
    is [JModelica__solve]. *)

From Stdlib Require Import ZArith QArith Qminmax String Ascii List Bool.
From stdpp Require Import base option list strings pretty gmap.

#[local] Open Scope string_scope.
#[local] Open Scope list_scope.

(** ** Python values and dictionaries *)

Definition loc := nat.

(** A dictionary with string keys, in iteration order. *)
Abbreviation dict V := (list (string * V)).

Fixpoint dict_get {V} (k : string) (d : dict V) : option V :=
  match d with
  | [] => None
  | (k', v) :: d' => if String.eqb k' k then Some v else dict_get k d'
  end.

(** [d[k] = v]: an existing key keeps its place, a new one goes last. *)
Fixpoint dict_set {V} (k : string) (v : V) (d : dict V) : dict V :=
  match d with
  | [] => [(k, v)]
  | (k', v') :: d' =>
      if String.eqb k' k then (k, v) :: d' else (k', v') :: dict_set k v d'
  end.

Definition dict_keys {V} (d : dict V) : list string := map fst d.

Definition dict_has {V} (k : string) (d : dict V) : bool :=
  match dict_get k d with Some _ => true | None => false end.

(** The values an option dictionary holds: [None], integers, strings,
    nested dictionaries (such as ['IPOPT_options']) and references to
    objects (a simulation result, an [ExternalData] structure), which
    Python compares by identity. *)
#[warnings="-register-all"]
Inductive pyval :=
| PyNone
| PyInt (z : Z)
| PyStr (s : string)
| PyObj (id : loc)
| PyDict (items : dict pyval).

(** Python's [==]. *)
Fixpoint py_eq (a b : pyval) : bool :=
  match a, b with
  | PyNone, PyNone => true
  | PyInt x, PyInt y => Z.eqb x y
  | PyStr x, PyStr y => String.eqb x y
  | PyObj x, PyObj y => Nat.eqb x y
  | PyDict l1, PyDict l2 =>
      Nat.eqb (length l1) (length l2) &&
      forallb (fun kv => match kv with
                 | (k, v) => match dict_get k l2 with
                             | Some v' => py_eq v v'
                             | None => false
                             end
                 end) l1
  | _, _ => false
  end.

(** Python's [!=]. *)
Definition py_ne (a b : pyval) : bool := negb (py_eq a b).

(** ** Strings *)

(** [s.split(c)] *)
Fixpoint split_on (c : ascii) (s : string) : list string :=
  match s with
  | EmptyString => [EmptyString]
  | String a s' =>
      if Ascii.eqb a c then EmptyString :: split_on c s'
      else match split_on c s' with
           | [] => [String a EmptyString]
           | w :: ws => String a w :: ws
           end
  end.

(** [sep.join(l)] *)
Fixpoint join (sep : string) (l : list string) : string :=
  match l with
  | [] => EmptyString
  | [w] => w
  | w :: ws => w +:+ sep +:+ join sep ws
  end.

(** [s.replace(c, d)] for single characters. *)
Fixpoint replace_char (c d : ascii) (s : string) : string :=
  match s with
  | EmptyString => EmptyString
  | String a s' => String (if Ascii.eqb a c then d else a) (replace_char c d s')
  end.

(** [needle in hay] *)
Fixpoint contains (needle hay : string) : bool :=
  String.prefix needle hay ||
  match hay with
  | EmptyString => false
  | String _ hay' => contains needle hay'
  end.

(** [l[0]] and [l[-1]] of the result of a [split], which is never empty. *)
Definition first_of (l : list string) : string := hd EmptyString l.
Definition last_of (l : list string) : string := List.last l EmptyString.

(** ** Exceptions and outcomes *)

Inductive exn :=
| KeyError (arg : string)
| AttributeError (attr : string)
| TypeError (what : string)
| ValueError (what : string)
| IndexError (what : string)
| IOError (path : string)
| VariableNotFoundError (name : string)
| ExternalError (what : string).

Inductive outcome (A : Type) :=
| Ok (a : A)
| Raise (e : exn).
Arguments Ok {A} a.
Arguments Raise {A} e.

(** ** Unit-aware variables ([mpcpy.variables]) *)

(** Data in base units: a number, a boolean, or a series (index and
    values). *)
Inductive base_data :=
| Num (x : Q)
| Flag (b : bool)
| Series (index values : list Q).

Record mpcpy_var := MkVar {
  var_name : string;
  var_data : base_data;
  var_unit : string }.

Definition Static (name : string) (data : base_data) (unit : string) : mpcpy_var :=
  MkVar name data unit.

Definition Timeseries (name : string) (index values : list Q) (unit : string) : mpcpy_var :=
  MkVar name (Series index values) unit.

Definition get_base_data (v : mpcpy_var) : base_data := var_data v.

(** [unit1] of [mpcpy.units]. *)
Definition unit1 : string := "1".

(** Truth value of a [get_base_data()] result; a series has none. *)
Definition truthy (d : base_data) : outcome bool :=
  match d with
  | Flag b => Ok b
  | Num x => Ok (negb (Qeq_bool x 0))
  | Series _ _ => Raise (ValueError "The truth value of a Series is ambiguous")
  end.

(** An entry of [other_inputs]: the empty list that [_setup_jmodelica]
    registers for an extra input, or a variable. *)
Inductive input_val :=
| EmptyList
| InputVar (v : mpcpy_var).

(** A two-row array: time stamps and values. *)
Definition traj : Type := list Q * list Q.

(** [ExternalData(Q=np.diag(np.ones(N)), quad_pen=..., eliminated=...)]:
    the weight matrix is the identity of size [Q_size]. *)
Record ExternalData := MkExternalData {
  Q_size : nat;
  quad_pen : dict traj;
  eliminated : dict traj }.

(** What the store of referenced objects holds. *)
Inductive object :=
| ObjSimRes (res : dict (list Q))
| ObjExternalData (ed : ExternalData).

(** The result of [opt_problem.optimize]. *)
Record opt_result := MkOptResult {
  res_get : dict (list Q);
  res_initial : dict Q;
  res_statistics : pyval }.

(** The transferred optimization problem: where it came from, the option
    set [optimize_options()] returns, and the values [set] has given it. *)
Record opt_problem_obj := MkOptProblem {
  prob_class : string;
  prob_file : string;
  prob_defaults : dict pyval;
  prob_values : dict base_data }.

(** [self._input_object]: the input names and the columns of the input
    matrix, column 0 being time. *)
Definition input_object : Type := list string * list (list Q).

Inductive problem_kind := EnergyMin | EnergyCostMin | _ParameterEstimate.
Inductive package_kind := JModelica | Python.

(** A list attribute that is either the package's own list or the very
    list object [Model.input_names] of the model at [m]. *)
Inductive names_ref :=
| OwnNames (l : list string)
| ModelInputNames (m : loc).

(** ** The objects of the module *)

(** The model the optimization works on ([mpcpy.models]); only the
    attributes this module reads or writes. Times are seconds. *)
Module Model.
Record t := Mk {
  mopath : string;
  modelpath : string;
  libraries : list string;
  parameter_data : dict (dict mpcpy_var);
  input_names : list string;
  other_inputs : dict input_val;
  control_data : dict mpcpy_var;
  measurements : dict (dict mpcpy_var);
  weather_data : dict mpcpy_var;
  internal_data : dict mpcpy_var;
  start_time : Q;
  final_time : Q;
  start_time_utc : Q;
  final_time_utc : Q;
  elapsed_seconds : Q }.

Definition set_parameter_data (v : dict (dict mpcpy_var)) (x : t) : t :=
  Mk (mopath x) (modelpath x) (libraries x) v (input_names x)
    (other_inputs x) (control_data x) (measurements x) (weather_data x)
    (internal_data x) (start_time x) (final_time x) (start_time_utc x)
    (final_time_utc x) (elapsed_seconds x).
Definition set_input_names (v : list string) (x : t) : t :=
  Mk (mopath x) (modelpath x) (libraries x) (parameter_data x) v
    (other_inputs x) (control_data x) (measurements x) (weather_data x)
    (internal_data x) (start_time x) (final_time x) (start_time_utc x)
    (final_time_utc x) (elapsed_seconds x).
Definition set_other_inputs (v : dict input_val) (x : t) : t :=
  Mk (mopath x) (modelpath x) (libraries x) (parameter_data x)
    (input_names x) v (control_data x) (measurements x) (weather_data x)
    (internal_data x) (start_time x) (final_time x) (start_time_utc x)
    (final_time_utc x) (elapsed_seconds x).
Definition set_control_data (v : dict mpcpy_var) (x : t) : t :=
  Mk (mopath x) (modelpath x) (libraries x) (parameter_data x)
    (input_names x) (other_inputs x) v (measurements x) (weather_data x)
    (internal_data x) (start_time x) (final_time x) (start_time_utc x)
    (final_time_utc x) (elapsed_seconds x).
Definition set_measurements (v : dict (dict mpcpy_var)) (x : t) : t :=
  Mk (mopath x) (modelpath x) (libraries x) (parameter_data x)
    (input_names x) (other_inputs x) (control_data x) v (weather_data x)
    (internal_data x) (start_time x) (final_time x) (start_time_utc x)
    (final_time_utc x) (elapsed_seconds x).
Definition set_start_time (v : Q) (x : t) : t :=
  Mk (mopath x) (modelpath x) (libraries x) (parameter_data x)
    (input_names x) (other_inputs x) (control_data x) (measurements x)
    (weather_data x) (internal_data x) v (final_time x) (start_time_utc x)
    (final_time_utc x) (elapsed_seconds x).
Definition set_final_time (v : Q) (x : t) : t :=
  Mk (mopath x) (modelpath x) (libraries x) (parameter_data x)
    (input_names x) (other_inputs x) (control_data x) (measurements x)
    (weather_data x) (internal_data x) (start_time x) v (start_time_utc x)
    (final_time_utc x) (elapsed_seconds x).
Definition set_start_time_utc (v : Q) (x : t) : t :=
  Mk (mopath x) (modelpath x) (libraries x) (parameter_data x)
    (input_names x) (other_inputs x) (control_data x) (measurements x)
    (weather_data x) (internal_data x) (start_time x) (final_time x) v
    (final_time_utc x) (elapsed_seconds x).
Definition set_final_time_utc (v : Q) (x : t) : t :=
  Mk (mopath x) (modelpath x) (libraries x) (parameter_data x)
    (input_names x) (other_inputs x) (control_data x) (measurements x)
    (weather_data x) (internal_data x) (start_time x) (final_time x)
    (start_time_utc x) v (elapsed_seconds x).
Definition set_elapsed_seconds (v : Q) (x : t) : t :=
  Mk (mopath x) (modelpath x) (libraries x) (parameter_data x)
    (input_names x) (other_inputs x) (control_data x) (measurements x)
    (weather_data x) (internal_data x) (start_time x) (final_time x)
    (start_time_utc x) (final_time_utc x) v.
End Model.

(** The attributes [_simulate_initial] assigns before it simulates. The
    exogenous data and the control data are the model's own dictionaries,
    named by the model's location; [measurements] maps each prefixed name
    to the model's inner dictionary for that measurement. *)
Record sim_setup := MkSimSetup {
  weather_data : loc;
  internal_data : loc;
  control_data : loc;
  input_names : names_ref;
  measurements : dict (loc * string);
  start_time_utc : Q;
  final_time_utc : Q;
  elapsed_seconds : Q }.

(** A solver package object ([JModelica] or [Python]). An attribute that
    has not been assigned yet is [None]. [other_inputs] names the model
    whose [other_inputs] dictionary the package shares; [mopfile] is the
    path of the file being written. *)
Module Package.
Record t := Mk {
  cls : package_kind;
  Model : option loc;
  objective : option string;
  extra_inputs : option (dict input_val);
  moppath : option string;
  mopfile : option string;
  _init_input_names : option names_ref;
  other_inputs : option loc;
  mopmodelpath : option string;
  opt_input_names : option names_ref;
  fmupath : option string;
  opt_problem : option opt_problem_obj;
  opt_options : option loc;
  sim : option sim_setup;
  _res : option loc;
  _sim_opts : option (dict pyval);
  res_init : option loc;
  _input_object : option input_object;
  external_data : option loc;
  res_opt : option opt_result;
  measurement_variable_list : option (list string);
  parameter_data : option (dict (dict mpcpy_var)) }.

Definition set_Model (v : option loc) (x : t) : t :=
  Mk (cls x) v (objective x) (extra_inputs x) (moppath x) (mopfile x)
    (_init_input_names x) (other_inputs x) (mopmodelpath x)
    (opt_input_names x) (fmupath x) (opt_problem x) (opt_options x)
    (sim x) (_res x) (_sim_opts x) (res_init x) (_input_object x)
    (external_data x) (res_opt x) (measurement_variable_list x)
    (parameter_data x).
Definition set_objective (v : option string) (x : t) : t :=
  Mk (cls x) (Model x) v (extra_inputs x) (moppath x) (mopfile x)
    (_init_input_names x) (other_inputs x) (mopmodelpath x)
    (opt_input_names x) (fmupath x) (opt_problem x) (opt_options x)
    (sim x) (_res x) (_sim_opts x) (res_init x) (_input_object x)
    (external_data x) (res_opt x) (measurement_variable_list x)
    (parameter_data x).
Definition set_extra_inputs (v : option (dict input_val)) (x : t) : t :=
  Mk (cls x) (Model x) (objective x) v (moppath x) (mopfile x)
    (_init_input_names x) (other_inputs x) (mopmodelpath x)
    (opt_input_names x) (fmupath x) (opt_problem x) (opt_options x)
    (sim x) (_res x) (_sim_opts x) (res_init x) (_input_object x)
    (external_data x) (res_opt x) (measurement_variable_list x)
    (parameter_data x).
Definition set_moppath (v : option string) (x : t) : t :=
  Mk (cls x) (Model x) (objective x) (extra_inputs x) v (mopfile x)
    (_init_input_names x) (other_inputs x) (mopmodelpath x)
    (opt_input_names x) (fmupath x) (opt_problem x) (opt_options x)
    (sim x) (_res x) (_sim_opts x) (res_init x) (_input_object x)
    (external_data x) (res_opt x) (measurement_variable_list x)
    (parameter_data x).
Definition set_mopfile (v : option string) (x : t) : t :=
  Mk (cls x) (Model x) (objective x) (extra_inputs x) (moppath x) v
    (_init_input_names x) (other_inputs x) (mopmodelpath x)
    (opt_input_names x) (fmupath x) (opt_problem x) (opt_options x)
    (sim x) (_res x) (_sim_opts x) (res_init x) (_input_object x)
    (external_data x) (res_opt x) (measurement_variable_list x)
    (parameter_data x).
Definition set__init_input_names (v : option names_ref) (x : t) : t :=
  Mk (cls x) (Model x) (objective x) (extra_inputs x) (moppath x)
    (mopfile x) v (other_inputs x) (mopmodelpath x) (opt_input_names x)
    (fmupath x) (opt_problem x) (opt_options x) (sim x) (_res x)
    (_sim_opts x) (res_init x) (_input_object x) (external_data x)
    (res_opt x) (measurement_variable_list x) (parameter_data x).
Definition set_other_inputs (v : option loc) (x : t) : t :=
  Mk (cls x) (Model x) (objective x) (extra_inputs x) (moppath x)
    (mopfile x) (_init_input_names x) v (mopmodelpath x)
    (opt_input_names x) (fmupath x) (opt_problem x) (opt_options x)
    (sim x) (_res x) (_sim_opts x) (res_init x) (_input_object x)
    (external_data x) (res_opt x) (measurement_variable_list x)
    (parameter_data x).
Definition set_mopmodelpath (v : option string) (x : t) : t :=
  Mk (cls x) (Model x) (objective x) (extra_inputs x) (moppath x)
    (mopfile x) (_init_input_names x) (other_inputs x) v
    (opt_input_names x) (fmupath x) (opt_problem x) (opt_options x)
    (sim x) (_res x) (_sim_opts x) (res_init x) (_input_object x)
    (external_data x) (res_opt x) (measurement_variable_list x)
    (parameter_data x).
Definition set_opt_input_names (v : option names_ref) (x : t) : t :=
  Mk (cls x) (Model x) (objective x) (extra_inputs x) (moppath x)
    (mopfile x) (_init_input_names x) (other_inputs x) (mopmodelpath x) v
    (fmupath x) (opt_problem x) (opt_options x) (sim x) (_res x)
    (_sim_opts x) (res_init x) (_input_object x) (external_data x)
    (res_opt x) (measurement_variable_list x) (parameter_data x).
Definition set_fmupath (v : option string) (x : t) : t :=
  Mk (cls x) (Model x) (objective x) (extra_inputs x) (moppath x)
    (mopfile x) (_init_input_names x) (other_inputs x) (mopmodelpath x)
    (opt_input_names x) v (opt_problem x) (opt_options x) (sim x) (_res x)
    (_sim_opts x) (res_init x) (_input_object x) (external_data x)
    (res_opt x) (measurement_variable_list x) (parameter_data x).
Definition set_opt_problem (v : option opt_problem_obj) (x : t) : t :=
  Mk (cls x) (Model x) (objective x) (extra_inputs x) (moppath x)
    (mopfile x) (_init_input_names x) (other_inputs x) (mopmodelpath x)
    (opt_input_names x) (fmupath x) v (opt_options x) (sim x) (_res x)
    (_sim_opts x) (res_init x) (_input_object x) (external_data x)
    (res_opt x) (measurement_variable_list x) (parameter_data x).
Definition set_opt_options (v : option loc) (x : t) : t :=
  Mk (cls x) (Model x) (objective x) (extra_inputs x) (moppath x)
    (mopfile x) (_init_input_names x) (other_inputs x) (mopmodelpath x)
    (opt_input_names x) (fmupath x) (opt_problem x) v (sim x) (_res x)
    (_sim_opts x) (res_init x) (_input_object x) (external_data x)
    (res_opt x) (measurement_variable_list x) (parameter_data x).
Definition set_sim (v : option sim_setup) (x : t) : t :=
  Mk (cls x) (Model x) (objective x) (extra_inputs x) (moppath x)
    (mopfile x) (_init_input_names x) (other_inputs x) (mopmodelpath x)
    (opt_input_names x) (fmupath x) (opt_problem x) (opt_options x) v
    (_res x) (_sim_opts x) (res_init x) (_input_object x)
    (external_data x) (res_opt x) (measurement_variable_list x)
    (parameter_data x).
Definition set__res (v : option loc) (x : t) : t :=
  Mk (cls x) (Model x) (objective x) (extra_inputs x) (moppath x)
    (mopfile x) (_init_input_names x) (other_inputs x) (mopmodelpath x)
    (opt_input_names x) (fmupath x) (opt_problem x) (opt_options x)
    (sim x) v (_sim_opts x) (res_init x) (_input_object x)
    (external_data x) (res_opt x) (measurement_variable_list x)
    (parameter_data x).
Definition set__sim_opts (v : option (dict pyval)) (x : t) : t :=
  Mk (cls x) (Model x) (objective x) (extra_inputs x) (moppath x)
    (mopfile x) (_init_input_names x) (other_inputs x) (mopmodelpath x)
    (opt_input_names x) (fmupath x) (opt_problem x) (opt_options x)
    (sim x) (_res x) v (res_init x) (_input_object x) (external_data x)
    (res_opt x) (measurement_variable_list x) (parameter_data x).
Definition set_res_init (v : option loc) (x : t) : t :=
  Mk (cls x) (Model x) (objective x) (extra_inputs x) (moppath x)
    (mopfile x) (_init_input_names x) (other_inputs x) (mopmodelpath x)
    (opt_input_names x) (fmupath x) (opt_problem x) (opt_options x)
    (sim x) (_res x) (_sim_opts x) v (_input_object x) (external_data x)
    (res_opt x) (measurement_variable_list x) (parameter_data x).
Definition set__input_object (v : option input_object) (x : t) : t :=
  Mk (cls x) (Model x) (objective x) (extra_inputs x) (moppath x)
    (mopfile x) (_init_input_names x) (other_inputs x) (mopmodelpath x)
    (opt_input_names x) (fmupath x) (opt_problem x) (opt_options x)
    (sim x) (_res x) (_sim_opts x) (res_init x) v (external_data x)
    (res_opt x) (measurement_variable_list x) (parameter_data x).
Definition set_external_data (v : option loc) (x : t) : t :=
  Mk (cls x) (Model x) (objective x) (extra_inputs x) (moppath x)
    (mopfile x) (_init_input_names x) (other_inputs x) (mopmodelpath x)
    (opt_input_names x) (fmupath x) (opt_problem x) (opt_options x)
    (sim x) (_res x) (_sim_opts x) (res_init x) (_input_object x) v
    (res_opt x) (measurement_variable_list x) (parameter_data x).
Definition set_res_opt (v : option opt_result) (x : t) : t :=
  Mk (cls x) (Model x) (objective x) (extra_inputs x) (moppath x)
    (mopfile x) (_init_input_names x) (other_inputs x) (mopmodelpath x)
    (opt_input_names x) (fmupath x) (opt_problem x) (opt_options x)
    (sim x) (_res x) (_sim_opts x) (res_init x) (_input_object x)
    (external_data x) v (measurement_variable_list x) (parameter_data x).
Definition set_measurement_variable_list (v : option (list string)) (x : t) : t :=
  Mk (cls x) (Model x) (objective x) (extra_inputs x) (moppath x)
    (mopfile x) (_init_input_names x) (other_inputs x) (mopmodelpath x)
    (opt_input_names x) (fmupath x) (opt_problem x) (opt_options x)
    (sim x) (_res x) (_sim_opts x) (res_init x) (_input_object x)
    (external_data x) (res_opt x) v (parameter_data x).

(** A new instance: nothing assigned yet. *)
Definition new (c : package_kind) : t :=
  Mk c None None None None None None None None None None None None None
    None None None None None None None None.
End Package.

(** The [Optimization] object. *)
Module Optim.
Record t := Mk {
  Model : loc;
  constraint_data : dict (dict mpcpy_var);
  objective_variable : string;
  _problem_type : option problem_kind;
  _package_type : option loc;
  solver_package : option string;
  algorithm : option string }.

Definition set_Model (v : loc) (x : t) : t :=
  Mk v (constraint_data x) (objective_variable x) (_problem_type x)
    (_package_type x) (solver_package x) (algorithm x).
Definition set_constraint_data (v : dict (dict mpcpy_var)) (x : t) : t :=
  Mk (Model x) v (objective_variable x) (_problem_type x)
    (_package_type x) (solver_package x) (algorithm x).
Definition set_objective_variable (v : string) (x : t) : t :=
  Mk (Model x) (constraint_data x) v (_problem_type x) (_package_type x)
    (solver_package x) (algorithm x).
Definition set__problem_type (v : option problem_kind) (x : t) : t :=
  Mk (Model x) (constraint_data x) (objective_variable x) v
    (_package_type x) (solver_package x) (algorithm x).
Definition set__package_type (v : option loc) (x : t) : t :=
  Mk (Model x) (constraint_data x) (objective_variable x)
    (_problem_type x) v (solver_package x) (algorithm x).
Definition set_solver_package (v : option string) (x : t) : t :=
  Mk (Model x) (constraint_data x) (objective_variable x)
    (_problem_type x) (_package_type x) v (algorithm x).
Definition set_algorithm (v : option string) (x : t) : t :=
  Mk (Model x) (constraint_data x) (objective_variable x)
    (_problem_type x) (_package_type x) (solver_package x) v.
End Optim.

(** What the module asks of its collaborators, in call order. *)
Inductive event :=
| EvCompileFmu (class_name file_name : string)
| EvCreateFmu (fmupath : string)
| EvTransfer (class_name file_name : string)
| EvSimulate (self : loc)
| EvProblemSet (name : string) (value : base_data)
| EvOptimize (options : dict pyval)
| EvSolved (res : opt_result).

(** ** State *)

Record state := MkState {
  models : gmap loc Model.t;
  packages : gmap loc Package.t;
  dicts : gmap loc (dict pyval);
  objects : gmap loc object;
  fs : gmap string (list string);
  trace : list event;
  optimization : Optim.t }.

Definition set_models (v : gmap loc Model.t) (s : state) : state :=
  MkState v (packages s) (dicts s) (objects s) (fs s) (trace s) (optimization s).
Definition set_packages (v : gmap loc Package.t) (s : state) : state :=
  MkState (models s) v (dicts s) (objects s) (fs s) (trace s) (optimization s).
Definition set_dicts (v : gmap loc (dict pyval)) (s : state) : state :=
  MkState (models s) (packages s) v (objects s) (fs s) (trace s) (optimization s).
Definition set_objects (v : gmap loc object) (s : state) : state :=
  MkState (models s) (packages s) (dicts s) v (fs s) (trace s) (optimization s).
Definition set_fs (v : gmap string (list string)) (s : state) : state :=
  MkState (models s) (packages s) (dicts s) (objects s) v (trace s) (optimization s).
Definition set_trace (v : list event) (s : state) : state :=
  MkState (models s) (packages s) (dicts s) (objects s) (fs s) v (optimization s).
Definition set_optimization (v : Optim.t) (s : state) : state :=
  MkState (models s) (packages s) (dicts s) (objects s) (fs s) (trace s) v.

(** ** Computations that change the state and may raise *)

Definition M (A : Type) : Type := state -> state * outcome A.

Definition ret {A} (a : A) : M A := fun st => (st, Ok a).

Definition raise {A} (e : exn) : M A := fun st => (st, Raise e).

Definition bind {A B} (m : M A) (f : A -> M B) : M B :=
  fun st =>
    match m st with
    | (st', Ok a) => f a st'
    | (st', Raise e) => (st', Raise e)
    end.

Notation "'let*' x := m 'in' k" := (bind m (fun x => k))
  (at level 10, x name, m at level 100, k at level 200, only parsing).
Notation "m ;; k" := (bind m (fun _ => k))
  (at level 100, k at level 200, right associativity, only parsing).

Definition get : M state := fun st => (st, Ok st).

Definition modify (f : state -> state) : M unit := fun st => (f st, Ok tt).

Definition lift {A} (o : outcome A) : M A := fun st => (st, o).

(** The value of an option, or the exception its absence raises. *)
Definition or_raise {A} (o : option A) (e : exn) : M A :=
  match o with
  | Some a => ret a
  | None => raise e
  end.

(** [for x in l: body(x)] *)
Fixpoint for_each {A} (l : list A) (body : A -> M unit) : M unit :=
  match l with
  | [] => ret tt
  | x :: l' => body x ;; for_each l' body
  end.

Definition emit (e : event) : M unit :=
  modify (fun st => set_trace (trace st ++ [e]) st).

(** ** Collaborators

    Code this module calls but does not contain: Python's [str], the
    Modelica compiler ([pymodelica.compile_fmu]), the transfer of the
    optimization class ([pyjmi.transfer_optimization_problem], of which
    the option set that [optimize_options()] returns is kept), the
    numerical solve ([opt_problem.optimize]), and the helpers of
    [mpcpy.utility._FMU]: running the simulation, building the input
    object, the measured series cut to the horizon with its simulation
    time column, and the unit look-up. Each sees the whole state and the
    package it is called on, and changes nothing by itself: the
    attributes the callers read back afterwards are assigned by the
    wrappers below. *)
Class Collaborators := {
  py_str : base_data -> string;
  compile_fmu : string -> string -> list string -> list string -> outcome string;
  transfer_optimization_problem :
    string -> string -> list string -> list string -> outcome (dict pyval);
  opt_problem_optimize : state -> loc -> dict pyval -> outcome opt_result;
  _simulate_fmu : state -> loc -> outcome (dict (list Q) * dict pyval);
  _create_input_object_from_input_mpcpy_ts_list :
    state -> loc -> outcome (option input_object);
  _add_simtime_column : base_data -> Q -> Q -> traj;
  _get_fmu_variable_units : state -> loc -> dict string;
  _get_unit_class_from_fmu_variable_units : string -> dict string -> option string }.

(** ** Access to the stores *)

Definition nl : string := String (ascii_of_nat 10) EmptyString.
Definition dquote : string := String (ascii_of_nat 34) EmptyString.

(** The package object [self], which is always live. *)
Definition get_package (self : loc) : M Package.t :=
  let* st := get in
  or_raise (packages st !! self) (ExternalError "dangling package reference").

Definition set_package (self : loc) (f : Package.t -> Package.t) : M unit :=
  let* p := get_package self in
  modify (fun st => set_packages (<[self := f p]> (packages st)) st).

(** [self.attr], which raises when the attribute was never assigned. *)
Definition get_attr {A} (self : loc) (proj : Package.t -> option A) (name : string) : M A :=
  let* p := get_package self in
  or_raise (proj p) (AttributeError name).

Definition get_model (m : loc) : M Model.t :=
  let* st := get in
  or_raise (models st !! m) (ExternalError "dangling model reference").

Definition set_model (m : loc) (f : Model.t -> Model.t) : M unit :=
  let* x := get_model m in
  modify (fun st => set_models (<[m := f x]> (models st)) st).

(** The [Optimization] object. *)
Definition get_optimization : M Optim.t :=
  let* st := get in ret (optimization st).

Definition set_optimization_attr (f : Optim.t -> Optim.t) : M unit :=
  modify (fun st => set_optimization (f (optimization st)) st).

(** The list a [names_ref] denotes. *)
Definition read_names (r : names_ref) : M (list string) :=
  match r with
  | OwnNames l => ret l
  | ModelInputNames m => let* x := get_model m in ret (Model.input_names x)
  end.

(** A new dictionary object. *)
Definition new_dict (d : dict pyval) : M loc :=
  let* st := get in
  let l := fresh (dom (dicts st)) in
  modify (fun st => set_dicts (<[l := d]> (dicts st)) st) ;;
  ret l.

Definition get_dict (l : loc) : M (dict pyval) :=
  let* st := get in
  or_raise (dicts st !! l) (ExternalError "dangling dictionary reference").

(** [d[key] = v] on the dictionary object at [l]. *)
Definition dict_setitem (l : loc) (key : string) (v : pyval) : M unit :=
  let* d := get_dict l in
  modify (fun st => set_dicts (<[l := dict_set key v d]> (dicts st)) st).

(** A new result or external-data object. *)
Definition new_object (o : object) : M loc :=
  let* st := get in
  let l := fresh (dom (objects st)) in
  modify (fun st => set_objects (<[l := o]> (objects st)) st) ;;
  ret l.

(** [open(path, 'r')], read to the end. *)
Definition read_file (path : string) : M (list string) :=
  let* st := get in
  or_raise (fs st !! path) (IOError path).

(** [open(path, 'w')] *)
Definition create_file (path : string) : M unit :=
  modify (fun st => set_fs (<[path := []]> (fs st)) st).

(** [self.mopfile.write(s)] *)
Definition mopfile_write (self : loc) (s : string) : M unit :=
  let* path := get_attr self Package.mopfile "mopfile" in
  let* st := get in
  let old := default [] (fs st !! path) in
  modify (fun st => set_fs (<[path := old ++ [s]]> (fs st)) st).

Section Methods.

Context {X : Collaborators}.

(** ** [JModelica]: writing the [.mop] file *)

(** The lines of the [.mo] file that are copied: up to the line that
    ends the package, without the [within], [uses] and [version] lines. *)
Fixpoint copy_mo (stop : string) (lines : list string) : list string :=
  match lines with
  | [] => []
  | line :: rest =>
      if contains stop line then []
      else if negb (contains "within ;" line)
              && negb (contains "annotation (uses" line)
              && negb (contains ("(version=" +:+ dquote) line)
           then line :: copy_mo stop rest
           else copy_mo stop rest
  end.

(** [parameter_data[key][field]] *)
Definition param_field (pd : dict (dict mpcpy_var)) (key field : string) : M mpcpy_var :=
  let* entry := or_raise (dict_get key pd) (KeyError key) in
  or_raise (dict_get field entry) (KeyError field).

(** [r.append(key)] for the list held in a package attribute. *)
Definition append_name (self : loc) (r : names_ref)
    (upd : option names_ref -> Package.t -> Package.t) (key : string) : M unit :=
  match r with
  | OwnNames l => set_package self (upd (Some (OwnNames (l ++ [key]))))
  | ModelInputNames m =>
      set_model m (fun x => Model.set_input_names (Model.input_names x ++ [key]) x)
  end.

(** [self.other_inputs[key] = v] *)
Definition other_inputs_setitem (self : loc) (key : string) (v : input_val) : M unit :=
  let* m := get_attr self Package.other_inputs "other_inputs" in
  set_model m (fun x => Model.set_other_inputs (dict_set key v (Model.other_inputs x)) x).

Definition JModelica__initalize_mop (self : loc) : M unit :=
  let* m := get_attr self Package.Model "Model" in
  let* model := get_model m in
  (* Open .mo *)
  let* mofile := read_file (Model.mopath model) in
  (* Initiate .mop *)
  let moppath := Model.mopath model +:+ "p" in
  set_package self (Package.set_moppath (Some moppath)) ;;
  create_file moppath ;;
  set_package self (Package.set_mopfile (Some moppath)) ;;
  let path := split_on "." (Model.modelpath model) in
  (* Copy .mo *)
  for_each (copy_mo ("end " +:+ first_of path) mofile) (mopfile_write self) ;;
  (* Add initialization model to package.mop *)
  mopfile_write self nl ;;
  mopfile_write self ("  model " +:+ last_of path +:+ "_initialize" +:+ nl) ;;
  let package := tl path in
  mopfile_write self ("    " +:+ join "." package +:+ " mpc_model(" +:+ nl) ;;
  (* Add parameters if they exist *)
  let pd := Model.parameter_data model in
  match pd with
  | [] => mopfile_write self (");" +:+ nl)
  | _ :: _ =>
      for_each (removelast (dict_keys pd)) (fun key =>
        let* v := param_field pd key "Value" in
        mopfile_write self
          ("     " +:+ key +:+ "=" +:+ py_str (get_base_data v) +:+ "," +:+ nl)) ;;
      let key := last_of (dict_keys pd) in
      let* v := param_field pd key "Value" in
      mopfile_write self
        ("     " +:+ key +:+ "=" +:+ py_str (get_base_data v) +:+ ");" +:+ nl)
  end ;;
  (* Instantiate optimization model inputs *)
  for_each (Model.input_names model) (fun key =>
    mopfile_write self ("    input Real " +:+ key +:+ "= mpc_model." +:+ key +:+ ";" +:+ nl)) ;;
  (* Add extra inputs required for optimization problem *)
  set_package self (Package.set__init_input_names (Some (ModelInputNames m))) ;;
  set_package self (Package.set_other_inputs (Some m)) ;;
  let* extra_inputs := get_attr self Package.extra_inputs "extra_inputs" in
  for_each extra_inputs (fun '(key, v) =>
    append_name self (ModelInputNames m) Package.set__init_input_names key ;;
    other_inputs_setitem self key v ;;
    mopfile_write self ("    input Real " +:+ key +:+ ";" +:+ nl)) ;;
  (* Instantiate cost function *)
  mopfile_write self ("    Real J(start = 0, fixed=true);" +:+ nl) ;;
  (* Define cost function *)
  mopfile_write self ("  equation" +:+ nl) ;;
  let* objective := get_attr self Package.objective "objective" in
  mopfile_write self ("    der(J) = " +:+ objective +:+ ";" +:+ nl) ;;
  (* End initalization model *)
  mopfile_write self ("  end " +:+ last_of path +:+ "_initialize;" +:+ nl) ;;
  (* Save the model path of the initialization and optimziation models *)
  set_package self
    (Package.set_mopmodelpath (Some (first_of path +:+ "." +:+ last_of path))).

(** [key.replace('.', '_') + '_' + field] *)
Definition key_new (key field : string) : string :=
  replace_char "." "_" key +:+ "_" +:+ field.

(** The test that makes a constraint an input of the optimization. *)
Definition is_input_field (field : string) : bool :=
  negb (String.eqb field "Cyclic") && negb (String.eqb field "Final")
  && negb (String.eqb field "Initial").

(** The line the [if]/[elif] chain writes for a constraint, if any. *)
Definition constraint_line (key field : string) (v : mpcpy_var) : option string :=
  if String.eqb field "GTE" then
    Some ("    mpc_model." +:+ key +:+ " >= " +:+ key_new key field +:+ ";" +:+ nl)
  else if String.eqb field "dGTE" then
    Some ("    der(mpc_model." +:+ key +:+ ") >= " +:+ key_new key field +:+ ";" +:+ nl)
  else if String.eqb field "LTE" then
    Some ("    mpc_model." +:+ key +:+ " <= " +:+ key_new key field +:+ ";" +:+ nl)
  else if String.eqb field "dLTE" then
    Some ("    der(mpc_model." +:+ key +:+ ") <= " +:+ key_new key field +:+ ";" +:+ nl)
  else if String.eqb field "Initial" then
    Some ("    mpc_model." +:+ key +:+ "(startTime)=" +:+ py_str (get_base_data v) +:+ ";" +:+ nl)
  else if String.eqb field "Final" then
    Some ("    mpc_model." +:+ key +:+ "(finalTime)=" +:+ py_str (get_base_data v) +:+ ";" +:+ nl)
  else if String.eqb field "Cyclic" then
    Some ("    mpc_model." +:+ key +:+ "(startTime)=mpc_model." +:+ key +:+ "(finalTime);" +:+ nl)
  else None.

(** The two loops over [Optimization.constraint_data] visit the entries
    of the dictionary and, for each, the entries of its inner dictionary. *)
Definition JModelica__write_control_mop (self : loc) : M unit :=
  let* Optimization := get_optimization in
  let* m := get_attr self Package.Model "Model" in
  let* model := get_model m in
  let path := split_on "." (Model.modelpath model) in
  mopfile_write self nl ;;
  mopfile_write self
    ("  optimization " +:+ last_of path +:+
     "_optimize (objective = (J(finalTime)), startTime=start_time, finalTime=final_time)"
     +:+ nl) ;;
  (* Instantiate optimization model *)
  mopfile_write self ("    extends " +:+ last_of path +:+ "_initialize;" +:+ nl) ;;
  (* Add start time and final time parameter *)
  mopfile_write self ("    parameter Real start_time = 0;" +:+ nl) ;;
  mopfile_write self ("    parameter Real final_time = 86400;" +:+ nl) ;;
  (* Remove control variables from input_names for optimization *)
  set_package self (Package.set_opt_input_names (Some (OwnNames []))) ;;
  let* r := get_attr self Package._init_input_names "_init_input_names" in
  let* init_input_names := read_names r in
  for_each init_input_names (fun key =>
    if dict_has key (Model.control_data model) then ret tt
    else
      let* o := get_attr self Package.opt_input_names "opt_input_names" in
      append_name self o Package.set_opt_input_names key) ;;
  (* Instantiate constraint variables as inputs *)
  for_each (Optim.constraint_data Optimization) (fun '(key, fields) =>
    for_each fields (fun '(field, v) =>
      if is_input_field field then
        let* o := get_attr self Package.opt_input_names "opt_input_names" in
        append_name self o Package.set_opt_input_names (key_new key field) ;;
        other_inputs_setitem self (key_new key field) (InputVar v) ;;
        mopfile_write self ("    input Real " +:+ key_new key field +:+ ";" +:+ nl)
      else ret tt)) ;;
  (* Define constraint_data *)
  mopfile_write self ("  constraint" +:+ nl) ;;
  for_each (Optim.constraint_data Optimization) (fun '(key, fields) =>
    for_each fields (fun '(field, v) =>
      match constraint_line key field v with
      | Some line => mopfile_write self line
      | None => ret tt
      end)) ;;
  (* End optimization portion of package.mop *)
  mopfile_write self ("  end " +:+ last_of path +:+ "_optimize;" +:+ nl) ;;
  (* End package.mop and save *)
  mopfile_write self ("end " +:+ first_of path +:+ ";" +:+ nl).

(** The text that declares one free parameter. *)
Definition free_parameter_text (pd : dict (dict mpcpy_var)) (key : string) : M string :=
  let* value := param_field pd key "Value" in
  let* minimum := param_field pd key "Minimum" in
  let* maximum := param_field pd key "Maximum" in
  ret ("mpc_model." +:+ key +:+ "(free=true, initialGuess=" +:+ py_str (get_base_data value)
       +:+ ", min=" +:+ py_str (get_base_data minimum)
       +:+ ", max=" +:+ py_str (get_base_data maximum) +:+ ")").

(** The keys whose ['Free'] entry is true. *)
Fixpoint free_parameters (pd : dict (dict mpcpy_var)) (keys : list string) : M (list string) :=
  match keys with
  | [] => ret []
  | key :: rest =>
      let* free := param_field pd key "Free" in
      let* b := lift (truthy (get_base_data free)) in
      let* l := free_parameters pd rest in
      ret (if b then key :: l else l)
  end.

(** The loop over the free parameters; [i] counts from 1. *)
Fixpoint write_free_parameters (self : loc) (pd : dict (dict mpcpy_var))
    (last : string) (I i : nat) (keys : list string) : M unit :=
  match keys with
  | [] => ret tt
  | key :: rest =>
      let* text := free_parameter_text pd key in
      let line :=
        if Nat.eqb i 1 then "    extends " +:+ last +:+ "_initialize (" +:+ text +:+ "," +:+ nl
        else if Nat.eqb i I then "      " +:+ text +:+ ");" +:+ nl
        else "      " +:+ text +:+ "," +:+ nl in
      mopfile_write self line ;;
      write_free_parameters self pd last I (S i) rest
  end.

Definition JModelica__write_parameter_estimate_mop (self : loc) : M unit :=
  let* m := get_attr self Package.Model "Model" in
  let* model := get_model m in
  let path := split_on "." (Model.modelpath model) in
  mopfile_write self nl ;;
  mopfile_write self
    ("optimization " +:+ last_of path +:+
     "_optimize (startTime=start_time, finalTime=final_time)" +:+ nl) ;;
  (* Add start time and final time parameter *)
  mopfile_write self ("    parameter Real start_time = 0;" +:+ nl) ;;
  mopfile_write self ("    parameter Real final_time = 86400;" +:+ nl) ;;
  (* Instantiate MPC model with free parameters *)
  let pd := Model.parameter_data model in
  let* free := free_parameters pd (dict_keys pd) in
  write_free_parameters self pd (last_of path) (length free) 1 free ;;
  (* End optimization portion of package.mop *)
  mopfile_write self ("end " +:+ last_of path +:+ "_optimize;" +:+ nl) ;;
  (* End package.mop and save *)
  mopfile_write self ("end " +:+ first_of path +:+ ";" +:+ nl).

(** ** [JModelica]: compiling, options *)

(** [self._create_fmu(kwargs)] of [utility._FMU]: loads the compiled
    unit. *)
Definition FMU__create_fmu (self : loc) (fmupath : string) : M unit :=
  emit (EvCreateFmu fmupath).

Definition JModelica__compile_transfer_problem (self : loc) : M unit :=
  let* m := get_attr self Package.Model "Model" in
  let* model := get_model m in
  let* mopmodelpath := get_attr self Package.mopmodelpath "mopmodelpath" in
  let* moppath := get_attr self Package.moppath "moppath" in
  let* st := get in
  let text := default [] (fs st !! moppath) in
  (* Compile the optimization initializaiton model *)
  emit (EvCompileFmu (mopmodelpath +:+ "_initialize") moppath) ;;
  let* fmupath :=
    lift (compile_fmu (mopmodelpath +:+ "_initialize") moppath text (Model.libraries model)) in
  set_package self (Package.set_fmupath (Some fmupath)) ;;
  FMU__create_fmu self fmupath ;;
  (* Transfer optimization problem to casADi *)
  emit (EvTransfer (mopmodelpath +:+ "_optimize") moppath) ;;
  let* defaults :=
    lift (transfer_optimization_problem (mopmodelpath +:+ "_optimize") moppath text
            (Model.libraries model)) in
  set_package self
    (Package.set_opt_problem
       (Some (MkOptProblem (mopmodelpath +:+ "_optimize") moppath defaults []))).

(** [self.opt_problem.optimize_options()]: a new dictionary holding the
    problem's default options. *)
Definition optimize_options (self : loc) : M loc :=
  let* prob := get_attr self Package.opt_problem "opt_problem" in
  new_dict (prob_defaults prob).

Definition auto_keys : list string :=
  ["external_data"; "init_traj"; "nominal_traj"; "n_e"].

Definition is_auto_key (key : string) : bool :=
  existsb (String.eqb key) auto_keys.

(** The loop that checks that automatically set options are not being
    changed; [opt_options] and [stored] are the contents of the two
    dictionaries. *)
Fixpoint check_auto_keys (keys : list string) (opt_options stored : dict pyval) : M unit :=
  match keys with
  | [] => ret tt
  | key :: rest =>
      (if is_auto_key key then
         let* new := or_raise (dict_get key opt_options) (KeyError key) in
         let* old := or_raise (dict_get key stored) (KeyError key) in
         if py_ne new old
         then raise (KeyError ("Key " +:+ key +:+ " is set automatically upon solve."))
         else ret tt
       else ret tt) ;;
      check_auto_keys rest opt_options stored
  end.

(** [_set_optimization_options(self, opt_options, init)]; the operand
    [opt_options] is a reference to the caller's dictionary. *)
Definition JModelica__set_optimization_options (self : loc) (opt_options : loc)
    (init : bool) : M unit :=
  (* Check that automatically set options are not being changed *)
  (if init then ret tt
   else
     let* d := get_dict opt_options in
     let* stored_ref := get_attr self Package.opt_options "opt_options" in
     let* stored := get_dict stored_ref in
     check_auto_keys (dict_keys d) d stored) ;;
  (* Set options *)
  set_package self (Package.set_opt_options (Some opt_options)).

Definition JModelica__get_optimization_options (self : loc) : M loc :=
  get_attr self Package.opt_options "opt_options".

Definition JModelica__get_optimization_statistics (self : loc) : M pyval :=
  let* res_opt := get_attr self Package.res_opt "res_opt" in
  ret (res_statistics res_opt).

(** ** [JModelica]: simulating, solving, reading results *)

(** Modelled from the spec: [_simulate_fmu] of [utility._FMU], which is
    not among the sources. The initial-guess simulator "runs the
    unmodified, non-optimizing dynamic system forward over the same
    horizon" and "produces a single feasible trajectory". What the
    simulation computes is left to the collaborator [_simulate_fmu]; the
    callers in [optimization.py] read the trajectory back from
    [self._res] and the options of the simulation from
    [self._sim_opts]. *)
Definition FMU__simulate_fmu (self : loc) : M unit :=
  emit (EvSimulate self) ;;
  let* st := get in
  let* r := lift (_simulate_fmu st self) in
  let* id := new_object (ObjSimRes (fst r)) in
  set_package self (Package.set__res (Some id)) ;;
  set_package self (Package.set__sim_opts (Some (snd r))).

Definition JModelica__simulate_initial (self : loc) : M unit :=
  let* Optimization := get_optimization in
  (* Set Exogenous *)
  let* m := get_attr self Package.Model "Model" in
  let* model := get_model m in
  let* problem_type := or_raise (Optim._problem_type Optimization) (AttributeError "_problem_type") in
  match problem_type with
  | _ParameterEstimate =>
      set_package self (Package.set_other_inputs (Some m)) ;;
      let* r := get_attr self Package._init_input_names "_init_input_names" in
      set_package self (Package.set_opt_input_names (Some r))
  | _ => ret tt (* Otherwise inputs set by write control mop *)
  end ;;
  (* Set input_names *)
  let* r := get_attr self Package._init_input_names "_init_input_names" in
  (* Set measurements *)
  let measurements :=
    map (fun key => ("mpc_model." +:+ key, (m, key))) (dict_keys (Model.measurements model)) in
  (* Set timing *)
  set_package self
    (Package.set_sim
       (Some (MkSimSetup m m m r measurements (Model.start_time_utc model)
                (Model.final_time_utc model) (Model.elapsed_seconds model)))) ;;
  (* Simulate fmu *)
  FMU__simulate_fmu self ;;
  (* Store initial simulation *)
  let* res := get_attr self Package._res "_res" in
  set_package self (Package.set_res_init (Some res)).

(** The loop over [self.measurement_variable_list]. *)
Fixpoint quad_pen_loop (model : Model.t) (keys : list string) (quad_pen : dict traj)
    : M (dict traj) :=
  match keys with
  | [] => ret quad_pen
  | key :: rest =>
      let* entry := or_raise (dict_get key (Model.measurements model)) (KeyError key) in
      let* measured := or_raise (dict_get "Measured" entry) (KeyError "Measured") in
      let mea_traj :=
        _add_simtime_column (get_base_data measured)
          (Model.start_time model) (Model.final_time model) in
      quad_pen_loop model rest (dict_set ("mpc_model." +:+ key) mea_traj quad_pen)
  end.

(** The loop over [self._input_object[0]]; [i] is the column index. *)
Fixpoint eliminated_loop (columns : list (list Q)) (i : nat) (keys : list string)
    (eliminated : dict traj) : M (dict traj) :=
  match keys with
  | [] => ret eliminated
  | key :: rest =>
      let* time := or_raise (nth_error columns 0) (IndexError "column 0") in
      let* values := or_raise (nth_error columns i) (IndexError "column i") in
      eliminated_loop columns (S i) rest (dict_set key (time, values) eliminated)
  end.

Definition JModelica__create_external_data (self : loc) : M unit :=
  let* p := get_package self in
  let* quad_pen :=
    match Package.measurement_variable_list p with
    | Some l =>
        let* m := get_attr self Package.Model "Model" in
        let* model := get_model m in
        quad_pen_loop model l []
    | None => ret []
    end in
  let N_mea := length (default [] (Package.measurement_variable_list p)) in
  (* Eliminate inputs from optimization problem *)
  let* eliminated :=
    match Package._input_object p with
    | Some (names, columns) => eliminated_loop columns 1 names []
    | None => ret []
    end in
  (* Create ExternalData structure *)
  let* id := new_object (ObjExternalData (MkExternalData N_mea quad_pen eliminated)) in
  set_package self (Package.set_external_data (Some id)).

(** [self.opt_problem.set(name, value)] *)
Definition opt_problem_set (self : loc) (name : string) (value : base_data) : M unit :=
  let* prob := get_attr self Package.opt_problem "opt_problem" in
  emit (EvProblemSet name value) ;;
  set_package self
    (Package.set_opt_problem
       (Some (MkOptProblem (prob_class prob) (prob_file prob) (prob_defaults prob)
                (dict_set name value (prob_values prob))))).

(** [self.opt_options[key] = v], on the dictionary object itself. *)
Definition opt_options_setitem (self : loc) (key : string) (v : pyval) : M unit :=
  let* opts := get_attr self Package.opt_options "opt_options" in
  dict_setitem opts key v.

Definition JModelica__solve (self : loc) : M unit :=
  (* Set start and final time *)
  let* m := get_attr self Package.Model "Model" in
  (* Create input_mpcpy_ts_list, set inputs *)
  let* st := get in
  let* input_object := lift (_create_input_object_from_input_mpcpy_ts_list st self) in
  set_package self (Package.set__input_object input_object) ;;
  (* Create ExternalData structure *)
  JModelica__create_external_data self ;;
  (* Set optimization options *)
  let* external_data := get_attr self Package.external_data "external_data" in
  opt_options_setitem self "external_data" (PyObj external_data) ;;
  let* res_init := get_attr self Package.res_init "res_init" in
  opt_options_setitem self "init_traj" (PyObj res_init) ;;
  let* res_init := get_attr self Package.res_init "res_init" in
  opt_options_setitem self "nominal_traj" (PyObj res_init) ;;
  let* sim_opts := get_attr self Package._sim_opts "_sim_opts" in
  let* ncp := or_raise (dict_get "ncp" sim_opts) (KeyError "ncp") in
  opt_options_setitem self "n_e" ncp ;;
  (* Set parameters if they exist *)
  let* p := get_package self in
  match Package.parameter_data p with
  | Some pd =>
      for_each (dict_keys pd) (fun key =>
        let* v := param_field pd key "Value" in
        opt_problem_set self key (get_base_data v))
  | None => ret tt
  end ;;
  (* Set start and final time *)
  opt_problem_set self "start_time" (Num 0) ;;
  let* model := get_model m in
  opt_problem_set self "final_time" (Num (Model.elapsed_seconds model)) ;;
  (* Optimize *)
  let* opts := get_attr self Package.opt_options "opt_options" in
  let* options := get_dict opts in
  emit (EvOptimize options) ;;
  let* st := get in
  let* res := lift (opt_problem_optimize st self options) in
  set_package self (Package.set_res_opt (Some res)) ;;
  emit (EvSolved res).

(** The series built from the solved trajectory of [key]. *)
Definition result_series (self : loc) (fmu_variable_units : dict string) (key : string)
    : M mpcpy_var :=
  let* res_opt := get_attr self Package.res_opt "res_opt" in
  let* data :=
    or_raise (dict_get ("mpc_model." +:+ key) (res_get res_opt))
      (VariableNotFoundError ("mpc_model." +:+ key)) in
  let* time := or_raise (dict_get "time" (res_get res_opt)) (VariableNotFoundError "time") in
  let* sim := get_attr self Package.sim "start_time_utc" in
  let timeindex := map (Qplus (start_time_utc sim)) time in
  let unit :=
    default unit1
      (_get_unit_class_from_fmu_variable_units ("mpc_model." +:+ key) fmu_variable_units) in
  ret (Timeseries key timeindex data unit).

Definition JModelica__get_control_results (self : loc) : M unit :=
  let* Optimization := get_optimization in
  let* st := get in
  let fmu_variable_units := _get_fmu_variable_units st self in
  let* m := get_attr self Package.Model "Model" in
  let* model := get_model m in
  for_each (dict_keys (Model.control_data model)) (fun key =>
    let* ts := result_series self fmu_variable_units key in
    set_model (Optim.Model Optimization)
      (fun x => Model.set_control_data (dict_set key ts (Model.control_data x)) x)) ;;
  let* model := get_model (Optim.Model Optimization) in
  for_each (dict_keys (Model.measurements model)) (fun key =>
    let* ts := result_series self fmu_variable_units key in
    let* x := get_model (Optim.Model Optimization) in
    let* entry := or_raise (dict_get key (Model.measurements x)) (KeyError key) in
    set_model (Optim.Model Optimization)
      (Model.set_measurements
         (dict_set key (dict_set "Simulated" ts entry) (Model.measurements x)))).

Definition JModelica__get_parameter_results (self : loc) : M unit :=
  let* Optimization := get_optimization in
  let* model := get_model (Optim.Model Optimization) in
  for_each (dict_keys (Model.parameter_data model)) (fun key =>
    let* x := get_model (Optim.Model Optimization) in
    let* free := param_field (Model.parameter_data x) key "Free" in
    let* b := lift (truthy (get_base_data free)) in
    if b then
      let* st := get in
      let fmu_variable_units := _get_fmu_variable_units st self in
      let unit :=
        default unit1
          (_get_unit_class_from_fmu_variable_units ("mpc_model." +:+ key) fmu_variable_units) in
      let* res_opt := get_attr self Package.res_opt "res_opt" in
      let* data :=
        or_raise (dict_get ("mpc_model." +:+ key) (res_initial res_opt))
          (VariableNotFoundError ("mpc_model." +:+ key)) in
      let* entry := or_raise (dict_get key (Model.parameter_data x)) (KeyError key) in
      let* value := or_raise (dict_get "Value" entry) (KeyError "Value") in
      set_model (Optim.Model Optimization)
        (Model.set_parameter_data
           (dict_set key (dict_set "Value" (MkVar (var_name value) (Num data) unit) entry)
              (Model.parameter_data x)))
    else ret tt).

Definition JModelica__energymin (self : loc) : M unit :=
  JModelica__simulate_initial self ;;
  JModelica__solve self ;;
  JModelica__get_control_results self.

(** A keyword argument of [optimize]: a data dictionary (such as
    [price_data]) or a list of names. *)
Inductive kwarg :=
| KwDict (d : dict mpcpy_var)
| KwList (l : list string).

(** [for key in a] *)
Definition kwarg_iter (a : kwarg) : list string :=
  match a with
  | KwDict d => dict_keys d
  | KwList l => l
  end.

(** [a[key]] *)
Definition kwarg_getitem (a : kwarg) (key : string) : M mpcpy_var :=
  match a with
  | KwDict d => or_raise (dict_get key d) (KeyError key)
  | KwList _ => raise (TypeError "list indices must be integers, not str")
  end.

Definition JModelica__energycostmin (self : loc) (price_data : kwarg) : M unit :=
  let* pi_e := kwarg_getitem price_data "pi_e" in
  other_inputs_setitem self "pi_e" (InputVar pi_e) ;;
  JModelica__simulate_initial self ;;
  JModelica__solve self ;;
  JModelica__get_control_results self.

Definition JModelica__parameterestimate (self : loc) (measurement_variable_list : kwarg)
    : M unit :=
  set_package self
    (Package.set_measurement_variable_list (Some (kwarg_iter measurement_variable_list))) ;;
  JModelica__simulate_initial self ;;
  JModelica__solve self ;;
  JModelica__get_parameter_results self.

(** ** [Python]

    The class defines [__init__], [_energymin], [_energycostmin],
    [_parameterestimate], the three option and statistics methods and
    [_solve]. It inherits from [_Package], which only declares abstract
    methods, and from [utility._FMU]; the methods [_simulate_initial],
    [_get_control_results] and the [.mop] writers belong to class
    [JModelica], so looking them up on a [Python] object raises
    [AttributeError]. *)

Definition Python__set_optimization_options (self : loc) (opt_options : loc)
    (init : bool) : M unit :=
  (* Check that automatically set options are not being changed *)
  (if init then ret tt
   else
     let* d := get_dict opt_options in
     let* stored_ref := get_attr self Package.opt_options "opt_options" in
     let* stored := get_dict stored_ref in
     check_auto_keys (dict_keys d) d stored) ;;
  (* Set options *)
  set_package self (Package.set_opt_options (Some opt_options)).

Definition Python__get_optimization_options (self : loc) : M loc :=
  get_attr self Package.opt_options "opt_options".

Definition Python__get_optimization_statistics (self : loc) : M pyval :=
  let* res_opt := get_attr self Package.res_opt "res_opt" in
  ret (res_statistics res_opt).

(** [Python._solve] repeats [JModelica._solve] statement for statement,
    except that [_create_external_data] is looked up on the [Python]
    object, which does not have it. *)
Definition Python__solve (self : loc) : M unit :=
  let* m := get_attr self Package.Model "Model" in
  let* st := get in
  let* input_object := lift (_create_input_object_from_input_mpcpy_ts_list st self) in
  set_package self (Package.set__input_object input_object) ;;
  raise (AttributeError "_create_external_data").

Definition Python__energymin (self : loc) : M unit :=
  (raise (AttributeError "_simulate_initial") : M unit) ;;
  Python__solve self ;;
  raise (AttributeError "_get_control_results").

Definition Python__energycostmin (self : loc) (price_data : kwarg) : M unit :=
  ret tt.

Definition Python__parameterestimate (self : loc) (measurement_variable_list : kwarg)
    : M unit :=
  ret tt.

(** ** Method look-up on a package object *)

Definition class_of (self : loc) : M package_kind :=
  let* p := get_package self in ret (Package.cls p).

Definition call__initalize_mop (self : loc) : M unit :=
  let* c := class_of self in
  match c with
  | JModelica => JModelica__initalize_mop self
  | Python => raise (AttributeError "_initalize_mop")
  end.

Definition call__write_control_mop (self : loc) : M unit :=
  let* c := class_of self in
  match c with
  | JModelica => JModelica__write_control_mop self
  | Python => raise (AttributeError "_write_control_mop")
  end.

Definition call__write_parameter_estimate_mop (self : loc) : M unit :=
  let* c := class_of self in
  match c with
  | JModelica => JModelica__write_parameter_estimate_mop self
  | Python => raise (AttributeError "_write_parameter_estimate_mop")
  end.

Definition call__compile_transfer_problem (self : loc) : M unit :=
  let* c := class_of self in
  match c with
  | JModelica => JModelica__compile_transfer_problem self
  | Python => raise (AttributeError "_compile_transfer_problem")
  end.

Definition call__energymin (self : loc) : M unit :=
  let* c := class_of self in
  match c with
  | JModelica => JModelica__energymin self
  | Python => Python__energymin self
  end.

Definition call__energycostmin (self : loc) (price_data : kwarg) : M unit :=
  let* c := class_of self in
  match c with
  | JModelica => JModelica__energycostmin self price_data
  | Python => Python__energycostmin self price_data
  end.

Definition call__parameterestimate (self : loc) (measurement_variable_list : kwarg)
    : M unit :=
  let* c := class_of self in
  match c with
  | JModelica => JModelica__parameterestimate self measurement_variable_list
  | Python => Python__parameterestimate self measurement_variable_list
  end.

Definition call__get_optimization_options (self : loc) : M loc :=
  let* c := class_of self in
  match c with
  | JModelica => JModelica__get_optimization_options self
  | Python => Python__get_optimization_options self
  end.

Definition call__set_optimization_options (self : loc) (opt_options : loc) : M unit :=
  let* c := class_of self in
  match c with
  | JModelica => JModelica__set_optimization_options self opt_options false
  | Python => Python__set_optimization_options self opt_options false
  end.

Definition call__get_optimization_statistics (self : loc) : M pyval :=
  let* c := class_of self in
  match c with
  | JModelica => JModelica__get_optimization_statistics self
  | Python => Python__get_optimization_statistics self
  end.

(** ** Problem types *)

(** [Optimization._package_type] *)
Definition get_package_type : M loc :=
  let* Optimization := get_optimization in
  or_raise (Optim._package_type Optimization) (AttributeError "_package_type").

Definition EnergyMin__optimize (kwargs : dict kwarg) : M unit :=
  let* package := get_package_type in
  call__energymin package.

Definition EnergyMin__setup_jmodelica (JModelica : loc) : M unit :=
  let* Optimization := get_optimization in
  set_package JModelica (Package.set_Model (Some (Optim.Model Optimization))) ;;
  set_package JModelica
    (Package.set_objective (Some ("mpc_model." +:+ Optim.objective_variable Optimization))) ;;
  set_package JModelica (Package.set_extra_inputs (Some [])) ;;
  call__initalize_mop JModelica ;;
  call__write_control_mop JModelica ;;
  call__compile_transfer_problem JModelica.

Definition EnergyCostMin__optimize (kwargs : dict kwarg) : M unit :=
  let* price_data := or_raise (dict_get "price_data" kwargs) (KeyError "price_data") in
  let* package := get_package_type in
  call__energycostmin package price_data.

Definition EnergyCostMin__setup_jmodelica (JModelica : loc) : M unit :=
  let* Optimization := get_optimization in
  set_package JModelica (Package.set_Model (Some (Optim.Model Optimization))) ;;
  set_package JModelica
    (Package.set_objective
       (Some ("mpc_model." +:+ Optim.objective_variable Optimization +:+ "*pi_e"))) ;;
  set_package JModelica (Package.set_extra_inputs (Some [])) ;;
  set_package JModelica (Package.set_extra_inputs (Some [("pi_e", EmptyList)])) ;;
  call__initalize_mop JModelica ;;
  call__write_control_mop JModelica ;;
  call__compile_transfer_problem JModelica.

Definition _ParameterEstimate__optimize (kwargs : dict kwarg) : M unit :=
  let* package := get_package_type in
  let* measurement_variable_list :=
    or_raise (dict_get "measurement_variable_list" kwargs)
      (KeyError "measurement_variable_list") in
  call__parameterestimate package measurement_variable_list.

Definition _ParameterEstimate__setup_jmodelica (JModelica : loc) : M unit :=
  let* Optimization := get_optimization in
  set_package JModelica (Package.set_Model (Some (Optim.Model Optimization))) ;;
  set_package JModelica (Package.set_objective (Some "0")) ;;
  set_package JModelica (Package.set_extra_inputs (Some [])) ;;
  call__initalize_mop JModelica ;;
  call__write_parameter_estimate_mop JModelica ;;
  call__compile_transfer_problem JModelica.

(** [Optimization._problem_type._optimize(Optimization, **kwargs)] *)
Definition call__optimize (kwargs : dict kwarg) : M unit :=
  let* Optimization := get_optimization in
  let* problem_type :=
    or_raise (Optim._problem_type Optimization) (AttributeError "_problem_type") in
  match problem_type with
  | EnergyMin => EnergyMin__optimize kwargs
  | EnergyCostMin => EnergyCostMin__optimize kwargs
  | _ParameterEstimate => _ParameterEstimate__optimize kwargs
  end.

(** [Optimization._problem_type._setup_jmodelica(self, Optimization)] *)
Definition call__setup_jmodelica (self : loc) : M unit :=
  let* Optimization := get_optimization in
  let* problem_type :=
    or_raise (Optim._problem_type Optimization) (AttributeError "_problem_type") in
  match problem_type with
  | EnergyMin => EnergyMin__setup_jmodelica self
  | EnergyCostMin => EnergyCostMin__setup_jmodelica self
  | _ParameterEstimate => _ParameterEstimate__setup_jmodelica self
  end.

(** ** Constructors of the packages *)

(** A new, empty instance of class [c]. *)
Definition new_package (c : package_kind) : M loc :=
  let* st := get in
  let l := fresh (dom (packages st)) in
  modify (fun st => set_packages (<[l := Package.new c]> (packages st)) st) ;;
  ret l.

Definition JModelica___init__ : M loc :=
  let* self := new_package JModelica in
  (* Setup JModelica optimization problem *)
  call__setup_jmodelica self ;;
  (* Set default optimization options *)
  let* defaults := optimize_options self in
  JModelica__set_optimization_options self defaults true ;;
  ret self.

Definition Python___init__ : M loc :=
  let* self := new_package Python in
  (* Setup JModelica optimization problem *)
  call__setup_jmodelica self ;;
  (* Set default optimization options *)
  let* defaults := optimize_options self in
  Python__set_optimization_options self defaults true ;;
  ret self.

(** [package_type(Optimization)] *)
Definition construct (package_type : package_kind) : M loc :=
  match package_type with
  | JModelica => JModelica___init__
  | Python => Python___init__
  end.

(** ** [Optimization] *)

(** Modelled from the spec: [Model._set_time_interval] of [mpcpy.models],
    which is not part of the sources at hand. It sets the model's active
    time window; times are given in seconds. *)
Definition Model__set_time_interval (m : loc) (start_time final_time : Q) : M unit :=
  set_model m (fun x =>
    Model.set_start_time start_time
      (Model.set_final_time final_time
         (Model.set_start_time_utc start_time
            (Model.set_final_time_utc final_time
               (Model.set_elapsed_seconds (final_time - start_time) x))))).

(** The keyword arguments of the constructor. *)
Record init_kwargs := MkInitKwargs {
  kw_constraint_data : option (dict (dict mpcpy_var));
  kw_opt_package : option string;
  kw_algorithm : option string }.

Definition Optimization___init__ (Model : loc) (problem_type : problem_kind)
    (package_type : package_kind) (objective_variable : string) (kwargs : init_kwargs)
    : M unit :=
  modify (set_optimization
            (Optim.Mk Model (default [] (kw_constraint_data kwargs)) objective_variable
               None None None None)) ;;
  set_optimization_attr (Optim.set__problem_type (Some problem_type)) ;;
  let* package := construct package_type in
  set_optimization_attr (Optim.set__package_type (Some package)) ;;
  match kw_opt_package kwargs with
  | Some v => set_optimization_attr (Optim.set_solver_package (Some v))
  | None => ret tt
  end ;;
  match kw_algorithm kwargs with
  | Some v => set_optimization_attr (Optim.set_algorithm (Some v))
  | None => ret tt
  end.

Definition Optimization_optimize (start_time final_time : Q) (kwargs : dict kwarg)
    : M unit :=
  let* self := get_optimization in
  Model__set_time_interval (Optim.Model self) start_time final_time ;;
  call__optimize kwargs.

Definition Optimization_set_problem_type (problem_type : problem_kind) : M unit :=
  set_optimization_attr (Optim.set__problem_type (Some problem_type)) ;;
  let* old := get_package_type in
  let* package_type := class_of old in
  let* package := construct package_type in
  set_optimization_attr (Optim.set__package_type (Some package)).

Definition Optimization_set_package_type (package_type : package_kind) : M unit :=
  let* package := construct package_type in
  set_optimization_attr (Optim.set__package_type (Some package)).

Definition Optimization_get_optimization_options : M loc :=
  let* package := get_package_type in
  call__get_optimization_options package.

Definition Optimization_set_optimization_options (opt_options : loc) : M unit :=
  let* package := get_package_type in
  call__set_optimization_options package opt_options.

Definition Optimization_get_optimization_statistics : M pyval :=
  let* package := get_package_type in
  call__get_optimization_statistics package.

End Methods.

(** ** The cost of the derivative-free search

    [cost_function] is nested in [Python.wrapper_sim_opt]. Its free
    names [Optimization] and [optimization] are read as the optimization
    object. Numbers are exact rationals. *)

Section Cost.

#[local] Open Scope Q_scope.








(** ** The specification's reading of two definitions *)




End Cost.

(** ** A small world to run the definitions in *)

Module Demo.

Definition render (d : base_data) : string :=
  match d with
  | Num x => pretty (Qnum x) +:+ "/" +:+ pretty (Zpos (Qden x))
  | Flag true => "True"
  | Flag false => "False"
  | Series _ _ => "<series>"
  end.

Definition default_options : dict pyval :=
  [("n_e", PyInt 50); ("external_data", PyNone); ("init_traj", PyNone);
   ("nominal_traj", PyNone); ("IPOPT_options", PyDict [("max_iter", PyInt 3000)])].

Definition seed : dict (list Q) :=
  [("time", [0; 43200; 86400]%Q); ("mpc_model.q_flow", [100; 100; 100]%Q);
   ("mpc_model.T_db", [293; 294; 295]%Q)].

Definition solved : opt_result :=
  MkOptResult
    [("time", [0; 43200; 86400]%Q); ("mpc_model.q_flow", [0; 50; 0]%Q);
     ("mpc_model.T_db", [293; 293; 293]%Q)]
    [("mpc_model.heatCapacitor.C", 2000000%Q)]
    (PyStr "Solve_Succeeded").

#[export] Instance world : Collaborators := {|
  py_str := render;
  compile_fmu := fun class_name _ _ _ => Ok (class_name +:+ ".fmu");
  transfer_optimization_problem := fun _ _ _ _ => Ok default_options;
  opt_problem_optimize := fun _ _ _ => Ok solved;
  _simulate_fmu := fun _ _ => Ok (seed, [("ncp", PyInt 2)]);
  _create_input_object_from_input_mpcpy_ts_list := fun _ _ => Ok None;
  _add_simtime_column := fun d _ _ =>
    match d with Series index values => (index, values) | _ => ([], []) end;
  _get_fmu_variable_units := fun _ _ => [("mpc_model.T_db", "K")];
  _get_unit_class_from_fmu_variable_units := fun name units => dict_get name units |}.

Definition mo_file : list string :=
  ["within ;" +:+ nl; "package Simple" +:+ nl; "  model RC" +:+ nl;
   "    input Real q_flow;" +:+ nl; "  end RC;" +:+ nl; "end Simple;" +:+ nl].

Definition q_flow : mpcpy_var := Timeseries "q_flow" [0; 43200; 86400]%Q [100; 100; 100]%Q "W".

Definition model : Model.t :=
  Model.Mk "Simple.mo" "Simple.RC" []
    [("heatCapacitor.C",
      [("Free", Static "C_free" (Flag true) "boolean");
       ("Value", Static "C_value" (Num 3000000) "J/K");
       ("Minimum", Static "C_min" (Num 100000) "J/K");
       ("Maximum", Static "C_max" (Num 10000000) "J/K")])]
    ["q_flow"] []
    [("q_flow", q_flow)]
    [("T_db", [("Sample", Static "T_db_sample" (Num 1800) "s");
               ("Measured", Timeseries "T_db" [0; 43200; 86400]%Q [293; 294; 295]%Q "K")])]
    [] [] 0 0 0 0 0.

Definition constraints : dict (dict mpcpy_var) :=
  [("q_flow", [("GTE", Static "q_flow_min" (Num 0) "W")]);
   ("T_db", [("GTE", Static "T_db_min" (Num 283) "K");
             ("LTE", Static "T_db_max" (Num 303) "K")])].

(** Before the [Optimization] object exists: the model and its file. *)
Definition st0 : state :=
  MkState {[ 0%nat := model ]} ∅ ∅ ∅ {[ "Simple.mo" := mo_file ]} []
    (Optim.Mk 0%nat [] EmptyString None None None None).

Definition run {A} (m : M A) (st : state) : state := fst (m st).

(** After [Optimization(model, EnergyMin, JModelica, 'q_flow',
    constraint_data = constraints)]. *)
Definition st1 : state :=
  run (Optimization___init__ 0%nat EnergyMin JModelica "q_flow"
         (MkInitKwargs (Some constraints) None None)) st0.

(** The caller's [opt_options = get_optimization_options()]. *)
Definition opt_options : loc :=
  match snd (Optimization_get_optimization_options st1) with
  | Ok l => l
  | Raise _ => 0%nat
  end.

(** After the caller's [opt_options['IPOPT_options']['max_iter'] = 2],
    [set_optimization_options(opt_options)] and then
    [set_problem_type(EnergyCostMin)]. *)
Definition st_override : state :=
  run (dict_setitem opt_options "IPOPT_options" (PyDict [("max_iter", PyInt 2)])) st1.
Definition st_options_set : state :=
  run (Optimization_set_optimization_options opt_options) st_override.
Definition st_cost_min : state :=
  run (Optimization_set_problem_type EnergyCostMin) st_options_set.

(** After [Optimization(model, _ParameterEstimate, JModelica, 'q_flow')]. *)
Definition st_estimate : state :=
  run (Optimization___init__ 0%nat _ParameterEstimate JModelica "q_flow"
         (MkInitKwargs None None None)) st0.

(** A price series without samples. *)
Definition no_prices : dict mpcpy_var := [("pi_e", Timeseries "pi_e" [] [] "1")].







(** The package object of [st1]. *)
Definition package : loc :=
  match Optim._package_type (optimization st1) with
  | Some l => l
  | None => 0%nat
  end.

(** After [package._energymin(Optimization)] on [st1]. *)
Definition st_energymin : state := run (JModelica__energymin package) st1.

(** After [optimize('1/1/2017', '1/2/2017')] on [st1]. *)
Definition st_optimized : state := run (Optimization_optimize 0 86400 []) st1.

End Demo.

(** * Relations between states used in the statements *)

(** [preserves R m]: every run of [m] relates the state it starts in to
    the state it ends in, whether it returns or raises. *)
Definition preserves {A} (R : state -> state -> Prop) (m : M A) : Prop :=
  forall st st' o, m st = (st', o) -> R st st'.

(** The optimization object is what it was. *)
Definition same_optimization : relation state :=
  fun st st' => optimization st' = optimization st.

(** The attributes of the optimization object other than its problem
    type and its package are what they were. *)
Definition same_configuration : relation state :=
  fun st st' =>
    Optim.Model (optimization st') = Optim.Model (optimization st) /\
    Optim.objective_variable (optimization st') = Optim.objective_variable (optimization st) /\
    Optim.constraint_data (optimization st') = Optim.constraint_data (optimization st) /\
    Optim.solver_package (optimization st') = Optim.solver_package (optimization st) /\
    Optim.algorithm (optimization st') = Optim.algorithm (optimization st).

(** The dictionary objects are what they were. *)
Definition same_dicts : relation state :=
  fun st st' => dicts st' = dicts st.

(** Every package object that was there is still there, with its class. *)
Definition keeps_classes : relation state :=
  fun st st' =>
    forall l c, Package.cls <$> packages st !! l = Some c ->
                Package.cls <$> packages st' !! l = Some c.

(** The key whose absence makes [optimize] raise [KeyError]: the keyword
    argument the problem type reads and, on the [JModelica] package, the
    ['pi_e'] entry of [price_data]. *)
Definition missing_signal (problem_type : problem_kind) (package_class : package_kind)
    (kwargs : dict kwarg) : option string :=
  match problem_type with
  | EnergyMin => None
  | EnergyCostMin =>
      match dict_get "price_data" kwargs with
      | None => Some "price_data"
      | Some (KwDict d) =>
          match package_class with
          | JModelica => if dict_has "pi_e" d then None else Some "pi_e"
          | Python => None
          end
      | Some (KwList _) => None
      end
  | _ParameterEstimate =>
      match dict_get "measurement_variable_list" kwargs with
      | None => Some "measurement_variable_list"
      | Some _ => None
      end
  end.

(** ** The optimization stage of the [.mop] file *)


(** The package [self] is writing the file [path] for the model [m]:
    what its [opt_input_names] attribute holds, what the model's
    [other_inputs] holds and what has been written so far. *)
Definition writing (st : state) (self : loc) (path : string) (m : loc)
    (names : option names_ref) (inputs : dict input_val) (content : list string) : Prop :=
  exists p x,
    packages st !! self = Some p /\
    Package.mopfile p = Some path /\
    Package.Model p = Some m /\
    Package.other_inputs p = Some m /\
    Package._init_input_names p = Some (ModelInputNames m) /\
    Package.opt_input_names p = names /\
    models st !! m = Some x /\
    Model.other_inputs x = inputs /\
    fs st !! path = Some content.






Section Clauses.

Context {X : Collaborators}.
















End Clauses.

(** ** The model's data and the solver's return *)

(** The data of a model that the result extraction writes. *)
Definition model_data (x : Model.t)
    : dict mpcpy_var * dict (dict mpcpy_var) * dict (dict mpcpy_var) :=
  (Model.control_data x, Model.measurements x, Model.parameter_data x).

(** Every model has the control data, measurements and parameter data it
    had. *)
Definition same_model_data : relation state :=
  fun st st' => forall l, model_data <$> models st' !! l = model_data <$> models st !! l.

(** The event is not the return of the solver. *)
Definition not_solved (e : event) : Prop := forall res, e <> EvSolved res.

(** Between the two states the solver has not returned, and the models'
    data are what they were. *)
Definition quiet : relation state :=
  fun st st' =>
    same_model_data st st' /\
    exists evs, trace st' = trace st ++ evs /\ Forall not_solved evs.

Section AfterSolve.

Context {X : Collaborators}.


End AfterSolve.

(** ** The collocation solve *)

(** The conjunction of two relations. *)
Definition rel_and (R1 R2 : relation state) : relation state :=
  fun st st' => R1 st st' /\ R2 st st'.

Definition same_trace : relation state :=
  fun st st' => trace st' = trace st.

(** Kinds of events. *)
Definition not_optimize (e : event) : Prop := forall options, e <> EvOptimize options.
Definition is_set (e : event) : Prop := exists name value, e = EvProblemSet name value.
Definition is_solved (e : event) : Prop := exists res, e = EvSolved res.

(** The solver has not been called between the two states. *)
Definition solver_not_called : relation state :=
  fun st st' => exists evs, trace st' = trace st ++ evs /\ Forall not_optimize evs.

(** Only values of the problem have been set between the two states. *)
Definition only_sets : relation state :=
  fun st st' => exists evs, trace st' = trace st ++ evs /\ Forall is_set evs.

(** Only the solver has returned between the two states. *)
Definition only_solved : relation state :=
  fun st st' => exists evs, trace st' = trace st ++ evs /\ Forall is_solved evs.

(** The objects that were there are still there. *)
Definition objects_grow : relation state :=
  fun st st' => forall id o, objects st !! id = Some o -> objects st' !! id = Some o.

(** Every model has the horizon length it had. *)
Definition same_horizon : relation state :=
  fun st st' =>
    forall l, Model.elapsed_seconds <$> models st' !! l
              = Model.elapsed_seconds <$> models st !! l.

(** The attributes of a package that [_solve] reads back. *)
Definition solve_attrs (p : Package.t)
    : option loc * option loc * option (dict pyval) * option loc :=
  (Package.Model p, Package.res_init p, Package._sim_opts p, Package.opt_options p).

Definition keeps_attrs (self : loc) : relation state :=
  fun st st' => solve_attrs <$> packages st' !! self = solve_attrs <$> packages st !! self.

(** Nothing that matters to the solve has changed, and nothing has been
    asked of the collaborators. *)
Definition calm (self : loc) : relation state :=
  rel_and same_trace (rel_and same_horizon (rel_and (keeps_attrs self) objects_grow)).

(** As [calm], except that values of the problem may have been set;
    and no dictionary has changed. *)
Definition steady (self : loc) : relation state :=
  rel_and only_sets
    (rel_and same_horizon (rel_and (keeps_attrs self) (rel_and objects_grow same_dicts))).

(** The trace, the horizons and the objects are what they were. *)
Definition still : relation state :=
  rel_and same_trace (rel_and same_horizon objects_grow).

Section AfterSeed.

Context {X : Collaborators}.



End AfterSeed.

(** * Further statements about the module *)

From Stdlib Require Import Lqa.

(** A package that has no result of a solve still has none. *)
Definition stays_unsolved : relation state :=
  fun st st' =>
    forall l, Package.res_opt <$> packages st !! l = Some None ->
              Package.res_opt <$> packages st' !! l = Some None.

Section Reconfiguring.

Context {X : Collaborators}.

(** The two methods that replace the package of the optimization
    object. *)
Inductive reconfiguration :=
| SetProblemType (problem_type : problem_kind)
| SetPackageType (package_type : package_kind).

Definition reconfigure (r : reconfiguration) : M unit :=
  match r with
  | SetProblemType problem_type => Optimization_set_problem_type problem_type
  | SetPackageType package_type => Optimization_set_package_type package_type
  end.

End Reconfiguring.

(** ** Writing the [.mop] file *)

(** The test of [_initalize_mop] on a line of the [.mo] file that comes
    before the end of the package. *)
Definition kept_line (line : string) : bool :=
  negb (contains "within ;" line)
  && negb (contains "annotation (uses" line)
  && negb (contains ("(version=" +:+ dquote) line).



(** Every model has the input names it had. *)
Definition same_input_names : relation state :=
  fun st st' =>
    forall l, Model.input_names <$> models st' !! l = Model.input_names <$> models st !! l.

(** The [opt_input_names] of the package [self] is a list of its own,
    not the list of a model. *)
Definition own_names (self : loc) (st : state) : Prop :=
  exists p l, packages st !! self = Some p /\ Package.opt_input_names p = Some (OwnNames l).

(** When it is, it stays so and every model has the input names it
    had. *)
Definition input_names_kept (self : loc) : relation state :=
  fun st st' => own_names self st -> own_names self st' /\ same_input_names st st'.

(** The extra inputs that [_setup_jmodelica] of each problem type
    registers. *)
Definition extra_input_names (problem_type : problem_kind) : list string :=
  match problem_type with
  | EnergyCostMin => ["pi_e"]
  | EnergyMin | _ParameterEstimate => []
  end.

(** The package [self] has the extra inputs it had. *)
Definition same_extra_inputs (self : loc) : relation state :=
  fun st st' =>
    Package.extra_inputs <$> packages st' !! self
    = Package.extra_inputs <$> packages st !! self.

(** ** Reading the results *)

(** [d[key][field]], when both are there. *)
Definition field_of (d : dict (dict mpcpy_var)) (key field : string) : option mpcpy_var :=
  dict_get key d ≫= dict_get field.

(** Between the two states nothing of the data of a model has been
    written but ['Value'] entries of its parameter data: the control
    data and the measurements are what they were, and so are the names
    of the parameters and every other entry of each. *)
Definition only_values_written : relation state :=
  fun st st' =>
    forall l,
      Model.control_data <$> models st' !! l = Model.control_data <$> models st !! l /\
      Model.measurements <$> models st' !! l = Model.measurements <$> models st !! l /\
      (fun x => dict_keys (Model.parameter_data x)) <$> models st' !! l
      = (fun x => dict_keys (Model.parameter_data x)) <$> models st !! l /\
      forall key field,
        field <> "Value" ->
        (fun x => field_of (Model.parameter_data x) key field) <$> models st' !! l
        = (fun x => field_of (Model.parameter_data x) key field) <$> models st !! l.

(** Between the two states nothing of the data of a model has been
    written but its control data and ['Simulated'] entries of its
    measurements: the parameter data are what they were, and so is every
    other entry of each measurement. *)
Definition only_results_written : relation state :=
  fun st st' =>
    forall l,
      Model.parameter_data <$> models st' !! l = Model.parameter_data <$> models st !! l /\
      forall key field,
        field <> "Simulated" ->
        (fun x => field_of (Model.measurements x) key field) <$> models st' !! l
        = (fun x => field_of (Model.measurements x) key field) <$> models st !! l.

Section Series.

Context {X : Collaborators}.

(** The series that the result [res] of a solve holds for [key]: its
    trajectory of [mpc_model.key] against its time stamps, counted from
    the start of the horizon, in the unit of the variable, or [unit1]
    when it has none. *)
Definition series_of (units : dict string) (res : opt_result) (setup : sim_setup)
    (key : string) : option mpcpy_var :=
  data ← dict_get ("mpc_model." +:+ key) (res_get res);
  time ← dict_get "time" (res_get res);
  Some (Timeseries key (map (Qplus (start_time_utc setup)) time) data
          (default unit1
             (_get_unit_class_from_fmu_variable_units ("mpc_model." +:+ key) units))).

End Series.


(** The package objects are what they were. *)
Definition same_packages : relation state :=
  fun st st' => packages st' = packages st.

(** Every model has the [other_inputs] it had. *)
Definition same_other_inputs : relation state :=
  fun st st' =>
    forall l, Model.other_inputs <$> models st' !! l = Model.other_inputs <$> models st !! l.

(** ** The cost of the derivative-free search *)



(** ** When the solver raises *)

Section SolverErrors.

Context {X : Collaborators}.

(** How a run of [_solve] on [self] can end: before the solver is
    called; with the solver called and raising [e], which is then the
    outcome; or after the solver has returned. *)
Definition solve_ended (self : loc) (s s' : state) (o : outcome unit) : Prop :=
  (exists sets, trace s' = trace s ++ sets /\ Forall is_set sets) \/
  (exists sets options s0 e,
     trace s' = trace s ++ sets ++ [EvOptimize options] /\
     opt_problem_optimize s0 self options = Raise e /\ o = Raise e) \/
  (exists evs res, trace s' = trace s ++ evs ++ [EvSolved res]).

(** If the last thing the collaborators have seen between [st] and [st']
    is the call of the solver, the solver has raised and [o] is the
    exception it raised. *)
Definition raised_by_the_solver (st st' : state) (o : outcome unit) : Prop :=
  forall evs options,
    trace st' = trace st ++ evs ->
    last evs = Some (EvOptimize options) ->
    exists s0 self e, opt_problem_optimize s0 self options = Raise e /\ o = Raise e.

End SolverErrors.

(** ** Further example states *)

Module Examples.

Import Demo.

(** A dictionary of the caller's own that changes ['n_e']. *)
Definition own_n_e : dict pyval := [("n_e", PyInt 2)].
Definition st_own_n_e : state := run (new_dict own_n_e) st1.
Definition own_n_e_ref : loc := fresh (dom (dicts st1)).

(** A dictionary of the caller's own that sets no automatic key. *)
Definition own_ipopt : dict pyval := [("IPOPT_options", PyDict [("max_iter", PyInt 2)])].
Definition st_own_ipopt : state := run (new_dict own_ipopt) st1.
Definition own_ipopt_ref : loc := fresh (dom (dicts st1)).

(** After a solve, the problem type is set anew. *)
Definition st_reconfigured : state :=
  run (reconfigure (SetProblemType EnergyCostMin)) st_optimized.

(** The model as the construction has left it. *)
Definition model1 : Model.t := default model (models st1 !! 0%nat).

(** The [.mo] file has been removed after the construction. *)
Definition st_no_file : state := set_fs ∅ st1.
Definition st_failed_problem_type : state :=
  run (Optimization_set_problem_type EnergyCostMin) st_no_file.
Definition st_failed_package_type : state :=
  run (Optimization_set_package_type JModelica) st_no_file.

(** A package that is about to start the [.mop] file of an energy cost
    minimization. *)
Definition st_before_initalize : state :=
  run (let* self := new_package JModelica in
       set_package self (Package.set_Model (Some 0%nat)) ;;
       set_package self (Package.set_objective (Some "mpc_model.q_flow*pi_e")) ;;
       set_package self (Package.set_extra_inputs (Some [("pi_e", EmptyList)])))
    (set_optimization (Optim.Mk 0%nat constraints "q_flow" (Some EnergyCostMin) None None None)
       st0).
Definition st_after_initalize : state :=
  run (JModelica__initalize_mop 0%nat) st_before_initalize.


(** [st1] after the seed simulation and the solve, before and after the
    results are read. *)
Definition st_solved : state :=
  run (JModelica__simulate_initial package ;; JModelica__solve package) st1.
Definition st_extracted : state := run (JModelica__get_control_results package) st_solved.


(** An energy cost minimization with a price. *)
Definition package_c : loc :=
  match Optim._package_type (optimization st_cost_min) with
  | Some l => l
  | None => 0%nat
  end.
Definition model_c : Model.t := default model (models st_cost_min !! 0%nat).
Definition price : mpcpy_var := Timeseries "pi_e" [0; 43200; 86400]%Q [1; 2; 1]%Q "1".
Definition st_cost_solved : state :=
  run (JModelica__energycostmin package_c (KwDict [("pi_e", price)])) st_cost_min.



(** A package whose input object has two inputs and three columns. *)
Definition st_inputs : state :=
  run (set_package package
         (Package.set__input_object
            (Some (["q_flow"; "T_out"], [[0; 1]%Q; [10; 11]%Q; [20; 21]%Q])))) st1.
Definition package_inputs : Package.t :=
  default (Package.new JModelica) (packages st_inputs !! package).
Definition external_data_ref : loc := fresh (dom (objects st_inputs)).

(** The package and the model of [st_solved]. *)
Definition package_solved : Package.t :=
  default (Package.new JModelica) (packages st_solved !! package).
Definition model_solved : Model.t := default model (models st_solved !! 0%nat).
Definition setup_solved : sim_setup :=
  default (MkSimSetup 0 0 0 (OwnNames []) [] 0 0 0) (Package.sim package_solved).


(** Collaborators whose solver raises. *)
Definition failing : Collaborators := {|
  py_str := render;
  compile_fmu := fun class_name _ _ _ => Ok (class_name +:+ ".fmu");
  transfer_optimization_problem := fun _ _ _ _ => Ok default_options;
  opt_problem_optimize := fun _ _ _ => Raise (ExternalError "Restoration_Failed");
  _simulate_fmu := fun _ _ => Ok (seed, [("ncp", PyInt 2)]);
  _create_input_object_from_input_mpcpy_ts_list := fun _ _ => Ok None;
  _add_simtime_column := fun d _ _ =>
    match d with Series index values => (index, values) | _ => ([], []) end;
  _get_fmu_variable_units := fun _ _ => [("mpc_model.T_db", "K")];
  _get_unit_class_from_fmu_variable_units := fun name units => dict_get name units |}.

(** [optimize] on [st1] with these. *)
Definition st_solver_failed : state :=
  run (Optimization_optimize (X := failing) 0 86400 []) st1.
Definition failed_events : list event :=
  drop (length (trace st1)) (trace st_solver_failed).
Definition failed_options : dict pyval :=
  match last failed_events with
  | Some (EvOptimize options) => options
  | _ => []
  end.

End Examples.

(** * Reasoning about computations *)

Lemma bind_inv {A B} (m : M A) (f : A -> M B) (st st' : state) (o : outcome B) :
  bind m f st = (st', o) ->
  (exists s x, m st = (s, Ok x) /\ f x s = (st', o)) \/
  (exists e, m st = (st', Raise e) /\ o = Raise e).
Proof.
  unfold bind. destruct (m st) as [s [x | e]]; intros H.
  - left. eauto.
  - right. inversion H; subst. eauto.
Qed.

Lemma bind_ok_inv {A B} (m : M A) (f : A -> M B) (st st' : state) (y : B) :
  bind m f st = (st', Ok y) ->
  exists s x, m st = (s, Ok x) /\ f x s = (st', Ok y).
Proof.
  intros H. apply bind_inv in H as [H | (e & _ & H)]; [assumption | discriminate].
Qed.

Lemma bind_ok {A B} (m : M A) (f : A -> M B) (st s : state) (x : A) :
  m st = (s, Ok x) -> bind m f st = f x s.
Proof. unfold bind. intros ->. reflexivity. Qed.

Lemma bind_raise {A B} (m : M A) (f : A -> M B) (st s : state) (e : exn) :
  m st = (s, Raise e) -> bind m f st = (s, Raise e).
Proof. unfold bind. intros ->. reflexivity. Qed.

Section Preserves.

Context (R : relation state) `{!PreOrder R}.

Lemma preserves_ret {A} (a : A) : preserves R (ret a).
Proof. intros st st' o H. inversion H. reflexivity. Qed.

Lemma preserves_raise {A} (e : exn) : preserves R (@raise A e).
Proof. intros st st' o H. inversion H. reflexivity. Qed.

Lemma preserves_lift {A} (x : outcome A) : preserves R (lift x).
Proof. intros st st' o H. inversion H. reflexivity. Qed.

Lemma preserves_get : preserves R get.
Proof. intros st st' o H. inversion H. reflexivity. Qed.

Lemma preserves_or_raise {A} (x : option A) (e : exn) : preserves R (or_raise x e).
Proof. destruct x; [apply preserves_ret | apply preserves_raise]. Qed.

Lemma preserves_bind {A B} (m : M A) (f : A -> M B) :
  preserves R m -> (forall x, preserves R (f x)) -> preserves R (bind m f).
Proof.
  intros Hm Hf st st' o H.
  apply bind_inv in H as [(s & x & H1 & H2) | (e & H1 & _)].
  - transitivity s; [eapply Hm | eapply Hf]; eassumption.
  - eapply Hm; eassumption.
Qed.

Lemma preserves_modify (f : state -> state) :
  (forall st, R st (f st)) -> preserves R (modify f).
Proof. intros Hf st st' o H. inversion H. apply Hf. Qed.

Lemma preserves_for_each {A} (l : list A) (body : A -> M unit) :
  (forall x, preserves R (body x)) -> preserves R (for_each l body).
Proof.
  intros Hb. induction l as [| x l IH]; simpl.
  - apply preserves_ret.
  - apply preserves_bind; [apply Hb | intros _; exact IH].
Qed.

End Preserves.

(** ** What the accessors do *)

Lemma get_package_ok (self : loc) (p : Package.t) (st : state) :
  packages st !! self = Some p -> get_package self st = (st, Ok p).
Proof. unfold get_package, bind, get, or_raise. intros ->. reflexivity. Qed.

Lemma get_package_inv (self : loc) (st st' : state) (p : Package.t) :
  get_package self st = (st', Ok p) -> st' = st /\ packages st !! self = Some p.
Proof.
  unfold get_package, bind, get, or_raise.
  destruct (packages st !! self); inversion 1; subst; auto.
Qed.

Lemma get_attr_ok {A} (self : loc) (proj : Package.t -> option A) (name : string)
    (p : Package.t) (v : A) (st : state) :
  packages st !! self = Some p -> proj p = Some v ->
  get_attr self proj name st = (st, Ok v).
Proof.
  intros Hp Hv. unfold get_attr. rewrite (bind_ok _ _ _ _ _ (get_package_ok _ _ _ Hp)).
  rewrite Hv. reflexivity.
Qed.

Lemma get_attr_inv {A} (self : loc) (proj : Package.t -> option A) (name : string)
    (st st' : state) (v : A) :
  get_attr self proj name st = (st', Ok v) ->
  st' = st /\ exists p, packages st !! self = Some p /\ proj p = Some v.
Proof.
  unfold get_attr. intros H. apply bind_ok_inv in H as (s & p & H1 & H2).
  apply get_package_inv in H1 as [-> Hp].
  destruct (proj p) eqn:E; inversion H2; subst. eauto.
Qed.

Lemma set_package_ok (self : loc) (f : Package.t -> Package.t) (p : Package.t)
    (st : state) :
  packages st !! self = Some p ->
  set_package self f st = (set_packages (<[self := f p]> (packages st)) st, Ok tt).
Proof.
  intros Hp. unfold set_package. rewrite (bind_ok _ _ _ _ _ (get_package_ok _ _ _ Hp)).
  reflexivity.
Qed.

Lemma set_package_inv (self : loc) (f : Package.t -> Package.t) (st st' : state) (u : unit) :
  set_package self f st = (st', Ok u) ->
  exists p, packages st !! self = Some p /\
            st' = set_packages (<[self := f p]> (packages st)) st.
Proof.
  unfold set_package. intros H. apply bind_ok_inv in H as (s & p & H1 & H2).
  apply get_package_inv in H1 as [-> Hp]. inversion H2; subst. eauto.
Qed.

Lemma get_model_ok (m : loc) (x : Model.t) (st : state) :
  models st !! m = Some x -> get_model m st = (st, Ok x).
Proof. unfold get_model, bind, get, or_raise. intros ->. reflexivity. Qed.

Lemma get_model_inv (m : loc) (st st' : state) (x : Model.t) :
  get_model m st = (st', Ok x) -> st' = st /\ models st !! m = Some x.
Proof.
  unfold get_model, bind, get, or_raise.
  destruct (models st !! m); inversion 1; subst; auto.
Qed.

Lemma set_model_ok (m : loc) (f : Model.t -> Model.t) (x : Model.t) (st : state) :
  models st !! m = Some x ->
  set_model m f st = (set_models (<[m := f x]> (models st)) st, Ok tt).
Proof.
  intros Hx. unfold set_model. rewrite (bind_ok _ _ _ _ _ (get_model_ok _ _ _ Hx)).
  reflexivity.
Qed.

Lemma set_model_inv (m : loc) (f : Model.t -> Model.t) (st st' : state) (u : unit) :
  set_model m f st = (st', Ok u) ->
  exists x, models st !! m = Some x /\ st' = set_models (<[m := f x]> (models st)) st.
Proof.
  unfold set_model. intros H. apply bind_ok_inv in H as (s & x & H1 & H2).
  apply get_model_inv in H1 as [-> Hx]. inversion H2. eauto.
Qed.


Lemma get_dict_ok (l : loc) (d : dict pyval) (st : state) :
  dicts st !! l = Some d -> get_dict l st = (st, Ok d).
Proof. unfold get_dict, bind, get, or_raise. intros ->. reflexivity. Qed.

Lemma get_dict_inv (l : loc) (st st' : state) (d : dict pyval) :
  get_dict l st = (st', Ok d) -> st' = st /\ dicts st !! l = Some d.
Proof.
  unfold get_dict, bind, get, or_raise.
  destruct (dicts st !! l); inversion 1; subst; auto.
Qed.

Lemma new_dict_eq (d : dict pyval) (st : state) :
  new_dict d st =
  (set_dicts (<[fresh (dom (dicts st)) := d]> (dicts st)) st, Ok (fresh (dom (dicts st)))).
Proof. reflexivity. Qed.

Lemma new_package_eq (c : package_kind) (st : state) :
  new_package c st =
  (set_packages (<[fresh (dom (packages st)) := Package.new c]> (packages st)) st,
   Ok (fresh (dom (packages st)))).
Proof. reflexivity. Qed.

Lemma fresh_lookup {V} (h : gmap loc V) : h !! fresh (dom h) = None.
Proof. apply not_elem_of_dom. apply is_fresh. Qed.

Lemma get_package_type_ok (package : loc) (st : state) :
  Optim._package_type (optimization st) = Some package ->
  get_package_type st = (st, Ok package).
Proof. unfold get_package_type, get_optimization, bind, get, ret, or_raise. intros ->. reflexivity. Qed.

Lemma get_package_type_inv (st st' : state) (package : loc) :
  get_package_type st = (st', Ok package) ->
  st' = st /\ Optim._package_type (optimization st) = Some package.
Proof.
  unfold get_package_type, get_optimization, bind, get, ret, or_raise.
  destruct (Optim._package_type (optimization st)); inversion 1; subst; auto.
Qed.

Lemma class_of_ok (self : loc) (p : Package.t) (st : state) :
  packages st !! self = Some p -> class_of self st = (st, Ok (Package.cls p)).
Proof.
  intros Hp. unfold class_of. rewrite (bind_ok _ _ _ _ _ (get_package_ok _ _ _ Hp)).
  reflexivity.
Qed.

Lemma class_of_inv (self : loc) (st st' : state) (c : package_kind) :
  class_of self st = (st', Ok c) ->
  st' = st /\ exists p, packages st !! self = Some p /\ Package.cls p = c.
Proof.
  unfold class_of. intros H. apply bind_ok_inv in H as (s & p & H1 & H2).
  apply get_package_inv in H1 as [-> Hp]. inversion H2; subst. eauto.
Qed.

(** A computation that only reads the state. *)
Lemma preserves_of_pure {A} (R : relation state) `{!Reflexive R} (m : M A) :
  preserves eq m -> preserves R m.
Proof. intros Hm st st' o H. apply Hm in H. subst. reflexivity. Qed.

Ltac head_of t :=
  lazymatch t with
  | ?f _ => head_of f
  | _ => t
  end.

(** ** The loops that only read *)

Lemma check_auto_keys_pure (keys : list string) (d stored : dict pyval) :
  preserves eq (check_auto_keys keys d stored).
Proof.
  induction keys as [| key keys IH]; simpl; [apply preserves_ret; typeclasses eauto |].
  apply preserves_bind; [typeclasses eauto | | intros _; exact IH].
  destruct (is_auto_key key); [| apply preserves_ret; typeclasses eauto].
  apply preserves_bind; [typeclasses eauto | apply preserves_or_raise; typeclasses eauto |].
  intros new.
  apply preserves_bind; [typeclasses eauto | apply preserves_or_raise; typeclasses eauto |].
  intros old. destruct (py_ne new old);
    [apply preserves_raise | apply preserves_ret]; typeclasses eauto.
Qed.

Lemma param_field_pure (pd : dict (dict mpcpy_var)) (key field : string) :
  preserves eq (param_field pd key field).
Proof.
  unfold param_field.
  apply preserves_bind; [typeclasses eauto | apply preserves_or_raise; typeclasses eauto |].
  intros entry. apply preserves_or_raise; typeclasses eauto.
Qed.

Section PureLoops.

Context {X : Collaborators}.

Lemma free_parameters_pure (pd : dict (dict mpcpy_var)) (keys : list string) :
  preserves eq (free_parameters pd keys).
Proof.
  induction keys as [| key keys IH]; simpl; [apply preserves_ret; typeclasses eauto |].
  apply preserves_bind; [typeclasses eauto | apply param_field_pure |]. intros free.
  apply preserves_bind; [typeclasses eauto | apply preserves_lift; typeclasses eauto |].
  intros b.
  apply preserves_bind; [typeclasses eauto | exact IH |]. intros l.
  apply preserves_ret; typeclasses eauto.
Qed.

Lemma quad_pen_loop_pure (model : Model.t) (keys : list string) (acc : dict traj) :
  preserves eq (quad_pen_loop model keys acc).
Proof.
  revert acc. induction keys as [| key keys IH]; intros acc; simpl;
    [apply preserves_ret; typeclasses eauto |].
  apply preserves_bind; [typeclasses eauto | apply preserves_or_raise; typeclasses eauto |].
  intros entry.
  apply preserves_bind; [typeclasses eauto | apply preserves_or_raise; typeclasses eauto |].
  intros measured. apply IH.
Qed.

Lemma eliminated_loop_pure (columns : list (list Q)) (i : nat) (keys : list string)
    (acc : dict traj) :
  preserves eq (eliminated_loop columns i keys acc).
Proof.
  revert i acc. induction keys as [| key keys IH]; intros i acc; simpl;
    [apply preserves_ret; typeclasses eauto |].
  apply preserves_bind; [typeclasses eauto | apply preserves_or_raise; typeclasses eauto |].
  intros time.
  apply preserves_bind; [typeclasses eauto | apply preserves_or_raise; typeclasses eauto |].
  intros values. apply IH.
Qed.

Lemma write_free_parameters_preserves (R : relation state) `{!PreOrder R}
    (self : loc) (pd : dict (dict mpcpy_var)) (last : string) (I i : nat)
    (keys : list string) :
  (forall s, preserves R (mopfile_write self s)) ->
  preserves R (write_free_parameters self pd last I i keys).
Proof.
  intros Hw. revert i. induction keys as [| key keys IH]; intros i; simpl;
    [apply preserves_ret; typeclasses eauto |].
  apply preserves_bind; [typeclasses eauto | |].
  - unfold free_parameter_text.
    apply preserves_bind;
      [typeclasses eauto | apply preserves_of_pure, param_field_pure; typeclasses eauto |].
    intros v1.
    apply preserves_bind;
      [typeclasses eauto | apply preserves_of_pure, param_field_pure; typeclasses eauto |].
    intros v2.
    apply preserves_bind;
      [typeclasses eauto | apply preserves_of_pure, param_field_pure; typeclasses eauto |].
    intros v3. apply preserves_ret; typeclasses eauto.
  - intros text. apply preserves_bind; [typeclasses eauto | apply Hw | intros _; apply IH].
Qed.

End PureLoops.

(** One structural step on a [preserves] goal; [leaf] closes the goals
    about the single state updates it knows. *)
Ltac pres_step leaf :=
  cbv beta zeta;
  first
  [ leaf
  | lazymatch goal with
    | |- PreOrder _ => typeclasses eauto
    | |- Reflexive _ => typeclasses eauto
    | |- preserves _ (bind _ _) => apply preserves_bind; [.. | intros ?]
    | |- preserves _ (ret _) => apply preserves_ret
    | |- preserves _ (raise _) => apply preserves_raise
    | |- preserves _ (lift _) => apply preserves_lift
    | |- preserves _ get => apply preserves_get
    | |- preserves _ (or_raise _ _) => apply preserves_or_raise
    | |- preserves _ (for_each _ _) => apply preserves_for_each; [.. | intros ?]
    | |- preserves _ (check_auto_keys _ _ _) =>
        apply preserves_of_pure; [.. | apply check_auto_keys_pure]
    | |- preserves _ (param_field _ _ _) =>
        apply preserves_of_pure; [.. | apply param_field_pure]
    | |- preserves _ (free_parameters _ _) =>
        apply preserves_of_pure; [.. | apply free_parameters_pure]
    | |- preserves _ (quad_pen_loop _ _ _) =>
        apply preserves_of_pure; [.. | apply quad_pen_loop_pure]
    | |- preserves _ (eliminated_loop _ _ _ _) =>
        apply preserves_of_pure; [.. | apply eliminated_loop_pure]
    | |- preserves _ (write_free_parameters _ _ _ _ _ _) =>
        apply write_free_parameters_preserves; [.. | intros ?]
    | |- preserves _ (modify _) => fail
    | |- preserves _ (match ?x with _ => _ end) => destruct x
    | |- preserves _ ?m => let h := head_of m in progress unfold h
    end ].

Ltac pres side := repeat (pres_step side).


(** ** Reconfiguring leaves the optimization object alone *)

#[local] Instance same_optimization_preorder : PreOrder same_optimization.
Proof. split; unfold same_optimization; [intros st | intros a b c]; congruence. Qed.

Ltac same_optimization_side :=
  apply preserves_modify; intros; unfold same_optimization; reflexivity.

#[local] Instance same_dicts_preorder : PreOrder same_dicts.
Proof. split; unfold same_dicts; [intros st | intros a b c]; congruence. Qed.

Ltac same_dicts_side :=
  apply preserves_modify; intros; unfold same_dicts; reflexivity.

Section Reconfigure.

Context {X : Collaborators}.

Lemma construct_same_optimization (c : package_kind) :
  preserves same_optimization (construct c).
Proof. destruct c; pres same_optimization_side. Qed.

Lemma setup_same_dicts (self : loc) :
  preserves same_dicts (call__setup_jmodelica self).
Proof. pres same_dicts_side. Qed.

#[local] Instance keeps_classes_preorder : PreOrder keeps_classes.
Proof. split; unfold keeps_classes; [intros st | intros a b c]; auto. Qed.

Lemma set_package_keeps_classes (self : loc) (f : Package.t -> Package.t) :
  (forall p, Package.cls (f p) = Package.cls p) ->
  preserves keeps_classes (set_package self f).
Proof.
  intros Hf st st' o H l c Hl.
  unfold set_package in H. apply bind_inv in H as [(s & p & H1 & H2) | (e & H1 & _)].
  - apply get_package_inv in H1 as [-> Hp]. inversion H2; subst; simpl.
    destruct (decide (self = l)) as [-> | Hne].
    + rewrite lookup_insert_eq. rewrite Hp in Hl. simpl in *. rewrite Hf. exact Hl.
    + rewrite lookup_insert_ne by exact Hne. exact Hl.
  - unfold get_package, bind, get, or_raise in H1.
    destruct (packages st !! self); inversion H1; subst. exact Hl.
Qed.

Ltac keeps_classes_side :=
  first
  [ apply set_package_keeps_classes; intros; reflexivity
  | apply preserves_modify; intros; unfold keeps_classes; intros; assumption ].

Lemma setup_keeps_classes (self : loc) :
  preserves keeps_classes (call__setup_jmodelica self).
Proof. pres keeps_classes_side. Qed.

(** What a package that has been constructed looks like. *)
Lemma construct_ok (c : package_kind) (st st' : state) (self : loc) :
  construct c st = (st', Ok self) ->
  packages st !! self = None /\
  exists p prob l,
    packages st' !! self = Some p /\ Package.cls p = c /\
    Package.opt_problem p = Some prob /\ Package.opt_options p = Some l /\
    dicts st' !! l = Some (prob_defaults prob) /\ dicts st !! l = None.
Proof.
  intros H.
  assert (exists s1 s2,
    new_package c st = (s1, Ok self) /\
    call__setup_jmodelica self s1 = (s2, Ok tt) /\
    (let* defaults := optimize_options self in
     set_package self (Package.set_opt_options (Some defaults)) ;; ret self) s2
    = (st', Ok self)) as (s1 & s2 & H1 & H2 & H3).
  { destruct c; unfold construct, JModelica___init__, Python___init__ in H;
      apply bind_ok_inv in H as (s1 & self' & H1 & H);
      apply bind_ok_inv in H as (s2 & [] & H2 & H);
      assert (self' = self) as ->
        by (apply bind_ok_inv in H as (? & ? & _ & H);
            apply bind_ok_inv in H as (? & ? & _ & H); inversion H; reflexivity);
      exists s1, s2; repeat split; assumption. }
  rewrite new_package_eq in H1. inversion H1; subst s1 self. clear H1.
  set (self := fresh (dom (packages st))) in *.
  pose proof (setup_same_dicts _ _ _ _ H2) as Hd. unfold same_dicts in Hd. simpl in Hd.
  pose proof (setup_keeps_classes _ _ _ _ H2 self c) as Hc. simpl in Hc.
  rewrite lookup_insert_eq in Hc. specialize (Hc eq_refl).
  apply bind_ok_inv in H3 as (s3 & l & H3 & H4).
  unfold optimize_options in H3. apply bind_ok_inv in H3 as (s & prob & H3 & H5).
  apply get_attr_inv in H3 as (-> & p2 & Hp2 & Hprob).
  rewrite new_dict_eq in H5. inversion H5; subst s3 l. clear H5.
  apply bind_ok_inv in H4 as (s4 & [] & H4 & H5). inversion H5; subst s4. clear H5.
  apply set_package_inv in H4 as (p3 & Hp3 & ->). simpl in Hp3.
  rewrite Hp2 in Hp3. inversion Hp3; subst p3. rewrite Hp2 in Hc. simpl in Hc.
  split; [apply fresh_lookup |].
  exists (Package.set_opt_options (Some (fresh (dom (dicts s2)))) p2), prob,
    (fresh (dom (dicts s2))).
  simpl. rewrite !lookup_insert_eq. repeat split; try congruence.
  rewrite <- Hd. apply fresh_lookup.
Qed.

End Reconfigure.

#[local] Instance same_configuration_preorder : PreOrder same_configuration.
Proof.
  split; unfold same_configuration.
  - intros st. tauto.
  - intros a b c (H1 & H2 & H3 & H4 & H5) (G1 & G2 & G3 & G4 & G5).
    repeat split; congruence.
Qed.

Ltac same_configuration_side :=
  apply preserves_modify; intros; unfold same_configuration; repeat split; reflexivity.

(** ** Writing the optimization stage *)

Section Writer.

Context {X : Collaborators}.

Lemma mopfile_write_writing st self path m names inputs content s :
  writing st self path m names inputs content ->
  exists st',
    mopfile_write self s st = (st', Ok tt) /\
    writing st' self path m names inputs (content ++ [s]) /\
    optimization st' = optimization st /\ models st' = models st.
Proof.
  intros (p & x & Hp & Hf & HM & Ho & Hi & Hn & Hx & Hin & Hfs).
  eexists. split; [| split; [| split]].
  - unfold mopfile_write. erewrite bind_ok by (eapply get_attr_ok; eassumption).
    erewrite bind_ok by reflexivity. unfold modify. rewrite Hfs. simpl. reflexivity.
  - exists p, x. simpl. rewrite lookup_insert_eq. repeat split; assumption.
  - reflexivity.
  - reflexivity.
Qed.

Lemma write_lines_writing lines : forall st self path m names inputs content,
  writing st self path m names inputs content ->
  exists st',
    for_each lines (mopfile_write self) st = (st', Ok tt) /\
    writing st' self path m names inputs (content ++ lines) /\
    optimization st' = optimization st.
Proof.
  induction lines as [| s lines IH]; intros st self path m names inputs content H; simpl.
  - exists st. rewrite app_nil_r. auto.
  - destruct (mopfile_write_writing _ _ _ _ _ _ _ s H) as (s1 & E1 & H1 & O1 & _).
    destruct (IH _ _ _ _ _ _ _ H1) as (s2 & E2 & H2 & O2).
    exists s2. rewrite (bind_ok _ _ _ _ _ E1). rewrite <- app_assoc in H2.
    repeat split; [exact E2 | exact H2 | congruence].
Qed.
















End Writer.

(** ** Before the solver returns *)

#[local] Instance same_model_data_preorder : PreOrder same_model_data.
Proof.
  split; unfold same_model_data.
  - intros st l. reflexivity.
  - intros a b c H1 H2 l. rewrite H2. apply H1.
Qed.

#[local] Instance quiet_preorder : PreOrder quiet.
Proof.
  split.
  - intros st. split; [reflexivity |]. exists []. rewrite app_nil_r. split; [reflexivity | constructor].
  - intros a b c [H1 (e1 & T1 & F1)] [H2 (e2 & T2 & F2)]. split; [etransitivity; eassumption |].
    exists (e1 ++ e2). rewrite T2, T1, app_assoc. split; [reflexivity |].
    apply Forall_app. split; assumption.
Qed.





Section Solve.

Context {X : Collaborators}.





End Solve.

(** ** The shape of a collocation solve *)

#[local] Instance rel_and_preorder (R1 R2 : relation state)
    `{!PreOrder R1} `{!PreOrder R2} : PreOrder (rel_and R1 R2).
Proof.
  split.
  - intros st. split; reflexivity.
  - intros a b c [H1 H2] [G1 G2]. split; etransitivity; eassumption.
Qed.

Lemma preserves_rel_and {A} (R1 R2 : relation state) (m : M A) :
  preserves R1 m -> preserves R2 m -> preserves (rel_and R1 R2) m.
Proof. intros H1 H2 st st' o H. split; [eapply H1 | eapply H2]; eassumption. Qed.

#[local] Instance same_trace_preorder : PreOrder same_trace.
Proof. split; unfold same_trace; [intros st | intros a b c]; congruence. Qed.

Lemma events_preorder (P : event -> Prop) :
  PreOrder (fun st st' => exists evs, trace st' = trace st ++ evs /\ Forall P evs).
Proof.
  split.
  - intros st. exists []. rewrite app_nil_r. split; [reflexivity | constructor].
  - intros a b c (e1 & T1 & F1) (e2 & T2 & F2).
    exists (e1 ++ e2). rewrite T2, T1, app_assoc. split; [reflexivity |].
    apply Forall_app. split; assumption.
Qed.

#[local] Instance solver_not_called_preorder : PreOrder solver_not_called.
Proof. apply events_preorder. Qed.

#[local] Instance only_sets_preorder : PreOrder only_sets.
Proof. apply events_preorder. Qed.

#[local] Instance only_solved_preorder : PreOrder only_solved.
Proof. apply events_preorder. Qed.

#[local] Instance objects_grow_preorder : PreOrder objects_grow.
Proof. split; unfold objects_grow; [intros st | intros a b c]; auto. Qed.

#[local] Instance same_horizon_preorder : PreOrder same_horizon.
Proof.
  split; unfold same_horizon.
  - intros st l. reflexivity.
  - intros a b c H1 H2 l. rewrite H2. apply H1.
Qed.

#[local] Instance keeps_attrs_preorder (self : loc) : PreOrder (keeps_attrs self).
Proof. split; unfold keeps_attrs; [intros st | intros a b c]; congruence. Qed.

#[local] Instance calm_preorder (self : loc) : PreOrder (calm self).
Proof. unfold calm. typeclasses eauto. Qed.

#[local] Instance steady_preorder (self : loc) : PreOrder (steady self).
Proof. unfold steady. typeclasses eauto. Qed.

(** *** Single updates *)

Ltac same_trace_leaf :=
  apply preserves_modify; intros; unfold same_trace; reflexivity.

Lemma set_model_same_horizon (m : loc) (f : Model.t -> Model.t) :
  (forall x, Model.elapsed_seconds (f x) = Model.elapsed_seconds x) ->
  preserves same_horizon (set_model m f).
Proof.
  intros Hf st st' o H. unfold set_model in H.
  apply bind_inv in H as [(s & x & H1 & H2) | (e & H1 & _)].
  - apply get_model_inv in H1 as [-> Hx]. inversion H2; subst.
    intros l. simpl. destruct (decide (m = l)) as [-> | Hne].
    + rewrite lookup_insert_eq, Hx. simpl. rewrite Hf. reflexivity.
    + rewrite lookup_insert_ne by exact Hne. reflexivity.
  - unfold get_model, bind, get, or_raise in H1.
    destruct (models st !! m); inversion H1; subst. reflexivity.
Qed.

Ltac same_horizon_leaf :=
  first
  [ apply set_model_same_horizon; intros; reflexivity
  | apply preserves_modify; intros; unfold same_horizon; intros; reflexivity ].

Lemma set_package_keeps_attrs (self self' : loc) (f : Package.t -> Package.t) :
  (forall p, solve_attrs (f p) = solve_attrs p) ->
  preserves (keeps_attrs self) (set_package self' f).
Proof.
  intros Hf st st' o H. unfold keeps_attrs.
  unfold set_package in H. apply bind_inv in H as [(s & p' & H1 & H2) | (e & H1 & _)].
  - apply get_package_inv in H1 as [-> Hp']. inversion H2; subst; simpl.
    destruct (decide (self' = self)) as [-> | Hne].
    + rewrite lookup_insert_eq, Hp'. simpl. rewrite Hf. reflexivity.
    + rewrite lookup_insert_ne by exact Hne. reflexivity.
  - unfold get_package, bind, get, or_raise in H1.
    destruct (packages st !! self'); inversion H1; subst. reflexivity.
Qed.

Ltac keeps_attrs_leaf :=
  first
  [ apply set_package_keeps_attrs; intros; reflexivity
  | apply preserves_modify; intros; unfold keeps_attrs; reflexivity ].

Lemma new_object_grows (o : object) : preserves objects_grow (new_object o).
Proof.
  intros st st' r H. inversion H; subst. intros id o' Hid. simpl.
  rewrite lookup_insert_ne; [exact Hid |].
  intros <-. rewrite fresh_lookup in Hid. discriminate.
Qed.

Ltac objects_grow_leaf :=
  first
  [ apply new_object_grows
  | apply preserves_modify; intros; unfold objects_grow; intros; assumption ].

Lemma emit_only (P : event -> Prop) (e : event) :
  P e ->
  preserves (fun st st' => exists evs, trace st' = trace st ++ evs /\ Forall P evs) (emit e).
Proof.
  intros He st st' o H. inversion H; subst.
  exists [e]. simpl. split; [reflexivity |]. constructor; [exact He | constructor].
Qed.

Lemma modify_only (P : event -> Prop) (f : state -> state) :
  (forall st, trace (f st) = trace st) ->
  preserves (fun st st' => exists evs, trace st' = trace st ++ evs /\ Forall P evs) (modify f).
Proof.
  intros Hf st st' o H. inversion H; subst.
  exists []. rewrite app_nil_r. split; [apply Hf | constructor].
Qed.

Ltac only_sets_leaf :=
  first
  [ apply (emit_only is_set); eexists _, _; reflexivity
  | apply (modify_only is_set); intros; reflexivity ].


Ltac solver_not_called_leaf :=
  first
  [ apply (emit_only not_optimize); intros ?; discriminate
  | apply (modify_only not_optimize); intros; reflexivity ].

(** [calm] and [steady], component by component. *)
Ltac calm_pres :=
  unfold calm;
  apply preserves_rel_and; [pres same_trace_leaf |];
  apply preserves_rel_and; [pres same_horizon_leaf |];
  apply preserves_rel_and; [pres keeps_attrs_leaf | pres objects_grow_leaf].

(** One step of a run of [m ;; k]: [m] returned and [k] runs on, or [m]
    raised. Both times the relation of [HQ] now reaches the state [m]
    ended in; [Hm] is what [m] did. *)
Ltac xstep tac H HQ Hm :=
  let s := fresh "s" in
  let x := fresh "x" in
  let e := fresh "e" in
  let Hp := fresh "Hp" in
  let Hq := fresh "Hq" in
  apply bind_inv in H as [(s & x & Hm & H) | (e & Hm & H)];
  match type of HQ with
  | ?R _ _ =>
      match type of Hm with
      | ?m _ = _ =>
          assert (Hp : preserves R m) by tac;
          pose proof (Hp _ _ _ Hm) as Hq; clear Hp;
          pose proof (transitivity HQ Hq) as Hp; clear HQ Hq; rename Hp into HQ
      end
  end.

Ltac steady_pres :=
  unfold steady;
  apply preserves_rel_and; [unfold only_sets; pres only_sets_leaf |];
  apply preserves_rel_and; [pres same_horizon_leaf |];
  apply preserves_rel_and; [pres keeps_attrs_leaf |];
  apply preserves_rel_and; [pres objects_grow_leaf | pres same_dicts_side].

#[local] Instance still_preorder : PreOrder still.
Proof. unfold still. typeclasses eauto. Qed.

Ltac still_pres :=
  unfold still;
  apply preserves_rel_and; [pres same_trace_leaf |];
  apply preserves_rel_and; [pres same_horizon_leaf | pres objects_grow_leaf].

Section Shape.

Context {X : Collaborators}.

Lemma create_external_data_calm (self : loc) :
  preserves (calm self) (JModelica__create_external_data self).
Proof. calm_pres. Qed.

Lemma parameter_loop_steady (self : loc) (pd : dict (dict mpcpy_var)) :
  preserves (steady self)
    (for_each (dict_keys pd) (fun key =>
       let* v := param_field pd key "Value" in
       opt_problem_set self key (get_base_data v))).
Proof. steady_pres. Qed.

Lemma calm_not_called (self : loc) (a b : state) : calm self a b -> solver_not_called a b.
Proof.
  intros [Ht _]. exists []. rewrite app_nil_r. split; [exact Ht | constructor].
Qed.




Lemma dict_get_set_eq {V} (k : string) (v : V) (d : dict V) :
  dict_get k (dict_set k v d) = Some v.
Proof.
  induction d as [| [k' v'] d IH]; simpl.
  - rewrite String.eqb_refl. reflexivity.
  - destruct (String.eqb k' k) eqn:E; simpl.
    + rewrite String.eqb_refl. reflexivity.
    + rewrite E. exact IH.
Qed.

Lemma dict_get_set_ne {V} (k k' : string) (v : V) (d : dict V) :
  k <> k' -> dict_get k' (dict_set k v d) = dict_get k' d.
Proof.
  intros Hne. induction d as [| [k0 v0] d IH]; simpl.
  - destruct (String.eqb k k') eqn:E; [apply String.eqb_eq in E; contradiction | reflexivity].
  - destruct (String.eqb k0 k) eqn:E; simpl.
    + apply String.eqb_eq in E. subst k0.
      destruct (String.eqb k k') eqn:E'; [apply String.eqb_eq in E'; contradiction | reflexivity].
    + destruct (String.eqb k0 k'); [reflexivity | exact IH].
Qed.

Lemma or_raise_inv {A} (x : option A) (e : exn) (s s' : state) (a : A) :
  or_raise x e s = (s', Ok a) -> s' = s /\ x = Some a.
Proof. destruct x; inversion 1; subst; auto. Qed.

Lemma keeps_attrs_at (self : loc) (a b : state) (p p' : Package.t) :
  keeps_attrs self a b -> packages a !! self = Some p -> packages b !! self = Some p' ->
  solve_attrs p' = solve_attrs p.
Proof.
  unfold keeps_attrs. intros H Hp Hp'. rewrite Hp, Hp' in H. simpl in H. congruence.
Qed.




(** *** The seed simulation *)

Lemma get_inv (s s' x : state) : get s = (s', Ok x) -> s' = s /\ x = s.
Proof. inversion 1; subst; auto. Qed.

Lemma lift_inv {A} (r : outcome A) (s s' : state) (a : A) :
  lift r s = (s', Ok a) -> s' = s /\ r = Ok a.
Proof. inversion 1; subst; auto. Qed.

Lemma get_optimization_inv (s s' : state) (x : Optim.t) :
  get_optimization s = (s', Ok x) -> s' = s /\ x = optimization s.
Proof. inversion 1; subst; auto. Qed.

Lemma new_object_inv (ob : object) (s s' : state) (l : loc) :
  new_object ob s = (s', Ok l) ->
  l = fresh (dom (objects s)) /\ s' = set_objects (<[l := ob]> (objects s)) s.
Proof. inversion 1; subst; auto. Qed.

Lemma simulate_fmu_shape (self : loc) (s s' : state) (o : outcome unit) :
  FMU__simulate_fmu self s = (s', o) ->
  (trace s' = trace s ++ [EvSimulate self] /\ same_horizon s s' /\ objects_grow s s') /\
  forall u, o = Ok u ->
    exists p r rid,
      packages s !! self = Some p /\
      _simulate_fmu (set_trace (trace s ++ [EvSimulate self]) s) self = Ok r /\
      packages s' !! self
      = Some (Package.set__sim_opts (Some (snd r)) (Package.set__res (Some rid) p)) /\
      objects s' !! rid = Some (ObjSimRes (fst r)).
Proof.
  unfold FMU__simulate_fmu. intros H.
  apply bind_inv in H as [(sE & u0 & Hm & H) | (e & Hm & _)]; [| inversion Hm].
  inversion Hm as [[EsE Eu]]. clear Hm Eu u0.
  assert (Hfail : forall t, still sE t ->
            trace t = trace s ++ [EvSimulate self] /\ same_horizon s t /\ objects_grow s t).
  { intros t (Ht & Hh & Hg). subst sE. split; [exact Ht | split; [exact Hh | exact Hg]]. }
  assert (HQ : still sE sE) by reflexivity.
  xstep still_pres H HQ Hm; [| inversion Hm].
  apply get_inv in Hm as [-> ->].
  xstep still_pres H HQ Hm; [| split; [subst o; exact (Hfail _ HQ) | intros ? ?; subst; discriminate]].
  apply lift_inv in Hm as [-> Hr].
  xstep still_pres H HQ Hm; [| split; [subst o; exact (Hfail _ HQ) | intros ? ?; subst; discriminate]].
  apply new_object_inv in Hm as [Hrid Es1].
  xstep still_pres H HQ Hm; [| split; [subst o; exact (Hfail _ HQ) | intros ? ?; subst; discriminate]].
  apply set_package_inv in Hm as (p1 & Hp1 & Es2).
  match type of H with
  | ?m _ = _ =>
      assert (Hp : preserves still m) by still_pres;
      pose proof (transitivity HQ (Hp _ _ _ H)) as HQ'; clear Hp
  end.
  split; [exact (Hfail _ HQ') |]. intros u ->.
  apply set_package_inv in H as (p2 & Hp2 & ->).
  subst s1 s0 sE. cbn [packages objects set_packages set_objects set_trace] in *.
  rewrite lookup_insert_eq in Hp2. inversion Hp2; subst p2.
  exists p1, x, x0. rewrite lookup_insert_eq.
  repeat (match goal with |- _ /\ _ => split end);
    [exact Hp1 | exact Hr | reflexivity | apply lookup_insert_eq].
Qed.

Lemma simulate_initial_shape (self : loc) (s s' : state) (o : outcome unit) :
  JModelica__simulate_initial self s = (s', o) ->
  solver_not_called s s' /\
  forall u, o = Ok u ->
    exists p m x s_sim ps setup r rid p',
      packages s !! self = Some p /\ Package.Model p = Some m /\
      models s !! m = Some x /\
      packages s_sim !! self = Some ps /\ Package.sim ps = Some setup /\
      elapsed_seconds setup = Model.elapsed_seconds x /\
      _simulate_fmu s_sim self = Ok r /\
      trace s' = trace s ++ [EvSimulate self] /\
      packages s' !! self = Some p' /\
      Package.Model p' = Some m /\ Package.res_init p' = Some rid /\
      Package._sim_opts p' = Some (snd r) /\
      objects s' !! rid = Some (ObjSimRes (fst r)) /\
      same_horizon s s' /\ objects_grow s s'.
Proof.
  unfold JModelica__simulate_initial. intros H.
  assert (HQ : calm self s s) by reflexivity.
  assert (Hfail : forall t, calm self s t -> solver_not_called s t)
    by (intros t; apply calm_not_called).
  xstep calm_pres H HQ Hm; [| split; [subst o; exact (Hfail _ HQ) | intros ? ?; subst; discriminate]].
  apply get_optimization_inv in Hm as [-> _].
  xstep calm_pres H HQ Hm; [| split; [subst o; exact (Hfail _ HQ) | intros ? ?; subst; discriminate]].
  apply get_attr_inv in Hm as (-> & p & Hp & HM).
  xstep calm_pres H HQ Hm; [| split; [subst o; exact (Hfail _ HQ) | intros ? ?; subst; discriminate]].
  apply get_model_inv in Hm as [-> Hx].
  do 3 (xstep calm_pres H HQ Hm;
        [clear Hm | split; [subst o; exact (Hfail _ HQ) | intros ? ?; subst; discriminate]]).
  pose proof HQ as HQa.
  xstep calm_pres H HQ Hm; [| split; [subst o; exact (Hfail _ HQ) | intros ? ?; subst; discriminate]].
  apply set_package_inv in Hm as (pa & Hpa & Esa).
  pose proof (keeps_attrs_at _ _ _ _ _ (proj1 (proj2 (proj2 HQa))) Hp Hpa) as Ea.
  destruct HQ as (Ht & Hh & _ & Hg). clear HQa Hfail.
  (* the simulation *)
  apply bind_inv in H as [(sf & u1 & Hm & H) | (e & Hm & ->)].
  2: { apply simulate_fmu_shape in Hm as ((Tf & _) & _).
       split; [| intros; discriminate].
       exists [EvSimulate self]. rewrite Tf, Ht.
       split; [reflexivity | constructor; [intros ?; discriminate | constructor]]. }
  apply simulate_fmu_shape in Hm as ((Tf & Hhf & Hgf) & Hok).
  destruct (Hok _ eq_refl) as (pf & r & rid & Hpf & Hr & Hpf' & Hobj). clear Hok.
  assert (Hfail : forall t, still sf t -> solver_not_called s t).
  { intros t (Ht' & _). exists [EvSimulate self]. rewrite Ht', Tf, Ht.
    split; [reflexivity | constructor; [intros ?; discriminate | constructor]]. }
  assert (HQ : still sf sf) by reflexivity.
  (* the seed is kept *)
  xstep still_pres H HQ Hm; [| split; [subst o; exact (Hfail _ HQ) | intros ? ?; subst; discriminate]].
  apply get_attr_inv in Hm as (-> & pr & Hpr & Hres).
  match type of H with
  | ?m _ = _ =>
      assert (Hpres : preserves still m) by still_pres;
      pose proof (transitivity HQ (Hpres _ _ _ H)) as HQ'; clear Hpres
  end.
  split; [exact (Hfail _ HQ') |]. intros u ->.
  apply set_package_inv in H as (pz & Hpz & ->).
  rewrite Hpf' in Hpr, Hpz. inversion Hpr; inversion Hpz; subst pr pz.
  cbn in Hres. inversion Hres; subst x6.
  unfold same_trace, same_horizon, objects_grow in *.
  subst s3. cbn [packages models objects trace set_packages] in *.
  rewrite lookup_insert_eq in Hpf. inversion Hpf; subst pf.
  unfold solve_attrs in Ea. injection Ea as EM _ _ _.
  exists p, x0, x1.
  exists (set_trace (trace s2 ++ [EvSimulate self])
            (set_packages (<[self := Package.set_sim
               (Some (MkSimSetup x0 x0 x0 x4
                  (map (fun key => ("mpc_model." +:+ key, (x0, key)))
                       (dict_keys (Model.measurements x1)))
                  (Model.start_time_utc x1) (Model.final_time_utc x1)
                  (Model.elapsed_seconds x1))) pa]> (packages s2)) s2)).
  do 2 eexists. exists r, rid. eexists.
  repeat (match goal with |- _ /\ _ => split end).
  - exact Hp.
  - exact HM.
  - exact Hx.
  - cbn [packages set_packages set_trace]. apply lookup_insert_eq.
  - reflexivity.
  - reflexivity.
  - exact Hr.
  - rewrite Tf, Ht. reflexivity.
  - apply lookup_insert_eq.
  - cbn. rewrite EM. exact HM.
  - reflexivity.
  - reflexivity.
  - exact Hobj.
  - intros l. rewrite (Hhf l). apply Hh.
  - intros id ob Hid. apply Hgf, Hg, Hid.
Qed.

(** *** The seed simulation, the solve and the extraction *)


End Shape.

(** * The claims *)

Section Claims.

Context {X : Collaborators}.

(** C10. [set_problem_type] and [set_package_type] leave the
    optimization object's [Model] reference, [objective_variable] and
    [constraint_data] (and its [solver_package] and [algorithm]) as they
    were, whether the new package could be built or its construction
    raised: only [_problem_type] and [_package_type] may change. *)
Theorem C10_reconfigure_keeps_model_objective_constraints (st : state) :
  (forall problem_type,
     same_configuration st (fst (Optimization_set_problem_type problem_type st))) /\
  (forall package_type,
     same_configuration st (fst (Optimization_set_package_type package_type st))).
Proof.
  split.
  - intros problem_type.
    destruct (Optimization_set_problem_type problem_type st) as [st' o] eqn:E.
    revert E. generalize st st' o. change (preserves same_configuration (Optimization_set_problem_type problem_type)).
    pres same_configuration_side.
  - intros package_type.
    destruct (Optimization_set_package_type package_type st) as [st' o] eqn:E.
    revert E. generalize st st' o. change (preserves same_configuration (Optimization_set_package_type package_type)).
    pres same_configuration_side.
Qed.

(** C2. After any option override through [set_optimization_options],
    a [set_problem_type(kind)] that returns has replaced the problem type
    by [kind] and the package by a newly built one of the same class, and
    [get_optimization_options] then returns a new dictionary object that
    holds exactly the default option set of the new package's problem:
    none of the dictionaries that existed before, overridden or not. *)
Theorem C2_set_problem_type_resets_options
    (st st1 st2 : state) (opt_options : loc) (problem_type : problem_kind) :
  Optimization_set_optimization_options opt_options st = (st1, Ok tt) ->
  Optimization_set_problem_type problem_type st1 = (st2, Ok tt) ->
  exists old p_old new p_new prob l,
    Optim._package_type (optimization st1) = Some old /\
    packages st1 !! old = Some p_old /\
    Optim._problem_type (optimization st2) = Some problem_type /\
    Optim._package_type (optimization st2) = Some new /\
    packages st1 !! new = None /\
    packages st2 !! new = Some p_new /\
    Package.cls p_new = Package.cls p_old /\
    Package.opt_problem p_new = Some prob /\
    Optimization_get_optimization_options st2 = (st2, Ok l) /\
    dicts st2 !! l = Some (prob_defaults prob) /\
    dicts st1 !! l = None.
Proof.
  intros _ H. unfold Optimization_set_problem_type in H.
  apply bind_ok_inv in H as (sa & [] & Ha & H).
  inversion Ha; subst sa; clear Ha.
  apply bind_ok_inv in H as (s & old & Hold & H).
  apply get_package_type_inv in Hold as [-> Hold]. simpl in Hold.
  apply bind_ok_inv in H as (s & c & Hc & H).
  apply class_of_inv in Hc as (-> & p_old & Hp_old & <-). simpl in Hp_old.
  apply bind_ok_inv in H as (sb & new & Hnew & H).
  inversion H; subst st2; clear H.
  pose proof (construct_same_optimization _ _ _ _ Hnew) as Ho.
  unfold same_optimization in Ho. simpl in Ho.
  apply construct_ok in Hnew as (Hfresh & p_new & prob & l & Hp & Hcls & Hprob & Hopts & Hd & Hl).
  simpl in Hfresh, Hl.
  exists old, p_old, new, p_new, prob, l. simpl.
  repeat split; try assumption.
  - rewrite Ho. reflexivity.
  - unfold Optimization_get_optimization_options.
    erewrite bind_ok by (apply get_package_type_ok; reflexivity).
    unfold call__get_optimization_options.
    erewrite bind_ok by (apply class_of_ok; simpl; exact Hp).
    destruct (Package.cls p_new);
      [unfold JModelica__get_optimization_options
      | unfold Python__get_optimization_options];
      apply get_attr_ok with (p := p_new); assumption.
Qed.

(** C5 (amended). When the keyword argument the problem type reads is
    absent ([price_data] for [EnergyCostMin], [measurement_variable_list]
    for [_ParameterEstimate]), or when on the [JModelica] package
    [price_data] has no ['pi_e'] entry, [optimize] raises [KeyError] for
    that key and asks nothing of the simulator or the solver. *)
Theorem C5_missing_signal_raises_before_any_solve
    (st : state) (start_time final_time : Q) (kwargs : dict kwarg)
    (problem_type : problem_kind) (package : loc) (p : Package.t) (x : Model.t)
    (key : string) :
  Optim._problem_type (optimization st) = Some problem_type ->
  Optim._package_type (optimization st) = Some package ->
  packages st !! package = Some p ->
  models st !! Optim.Model (optimization st) = Some x ->
  missing_signal problem_type (Package.cls p) kwargs = Some key ->
  exists st',
    Optimization_optimize start_time final_time kwargs st = (st', Raise (KeyError key)) /\
    trace st' = trace st.
Proof.
  intros Hpt Hpk Hp Hx Hmiss.
  unfold Optimization_optimize.
  erewrite bind_ok by reflexivity.
  unfold Model__set_time_interval.
  erewrite bind_ok by (apply set_model_ok; exact Hx).
  match goal with |- context [call__optimize _ ?s] => set (sa := s) end.
  assert (Hpt' : Optim._problem_type (optimization sa) = Some problem_type) by exact Hpt.
  assert (Hpk' : Optim._package_type (optimization sa) = Some package) by exact Hpk.
  assert (Hp' : packages sa !! package = Some p) by exact Hp.
  assert (Htr : trace sa = trace st) by reflexivity.
  clearbody sa. exists sa. split; [| exact Htr].
  unfold call__optimize.
  erewrite bind_ok by reflexivity. rewrite Hpt'.
  erewrite bind_ok by reflexivity.
  unfold missing_signal in Hmiss.
  destruct problem_type; [discriminate | |].
  - unfold EnergyCostMin__optimize.
    destruct (dict_get "price_data" kwargs) as [[d | l] |] eqn:Ek; [| discriminate |].
    + erewrite bind_ok by reflexivity.
      erewrite bind_ok by (apply get_package_type_ok; exact Hpk').
      unfold call__energycostmin.
      erewrite bind_ok by (apply class_of_ok; exact Hp').
      destruct (Package.cls p); [| discriminate].
      unfold JModelica__energycostmin, kwarg_getitem.
      unfold dict_has in Hmiss.
      destruct (dict_get "pi_e" d); [discriminate |].
      inversion Hmiss; subst key. reflexivity.
    + inversion Hmiss; subst key. reflexivity.
  - unfold _ParameterEstimate__optimize.
    erewrite bind_ok by (apply get_package_type_ok; exact Hpk').
    destruct (dict_get "measurement_variable_list" kwargs); [discriminate |].
    inversion Hmiss; subst key. reflexivity.
Qed.





(** C4. On the code, the energy-cost-minimization and the
    parameter-estimation methods of the [Python] package return normally
    and leave the state as it was: they raise nothing. *)
Theorem C4_python_stubs_return_silently (self : loc) (arg : kwarg) (st : state) :
  Python__energycostmin self arg st = (st, Ok tt) /\
  Python__parameterestimate self arg st = (st, Ok tt).
Proof. split; reflexivity. Qed.

End Claims.

(** * Claims settled by running the code *)

(** C1. The dictionary [get_optimization_options] returns is the stored
    dictionary itself. After [opt_options['n_e'] = 2] on it, where the
    package's own value is 50, [set_optimization_options(opt_options)]
    compares the dictionary with itself, raises nothing, and the store
    holds 2. *)
Theorem C1_shared_dictionary_passes_the_check :
  Optimization_get_optimization_options Demo.st1 = (Demo.st1, Ok Demo.opt_options) /\
  (dicts Demo.st1 !! Demo.opt_options) ≫= dict_get "n_e" = Some (PyInt 50) /\
  let s2 := fst (dict_setitem Demo.opt_options "n_e" (PyInt 2) Demo.st1) in
  let r3 := Optimization_set_optimization_options Demo.opt_options s2 in
  snd r3 = Ok tt /\
  Optimization_get_optimization_options (fst r3) = (fst r3, Ok Demo.opt_options) /\
  (dicts (fst r3) !! Demo.opt_options) ≫= dict_get "n_e" = Some (PyInt 2).
Proof. vm_compute. repeat split. Qed.

Lemma C2_witness :
  exists old p_old new p_new prob l,
    Optim._package_type (optimization Demo.st_options_set) = Some old /\
    packages Demo.st_options_set !! old = Some p_old /\
    Optim._problem_type (optimization Demo.st_cost_min) = Some EnergyCostMin /\
    Optim._package_type (optimization Demo.st_cost_min) = Some new /\
    packages Demo.st_options_set !! new = None /\
    packages Demo.st_cost_min !! new = Some p_new /\
    Package.cls p_new = Package.cls p_old /\
    Package.opt_problem p_new = Some prob /\
    Optimization_get_optimization_options Demo.st_cost_min = (Demo.st_cost_min, Ok l) /\
    dicts Demo.st_cost_min !! l = Some (prob_defaults prob) /\
    dicts Demo.st_options_set !! l = None.
Proof.
  apply (C2_set_problem_type_resets_options (X := Demo.world) Demo.st_override Demo.st_options_set
           Demo.st_cost_min Demo.opt_options EnergyCostMin);
    vm_compute; reflexivity.
Defined.




(** C5 (as stated, refuted). With an empty measurement list, and with a
    price series without samples, [optimize] raises nothing: it
    simulates, calls the solver and returns. *)
Lemma C5_empty_signal_is_solved :
  (let r := Optimization_optimize (X := Demo.world) 0 86400
              [("measurement_variable_list", KwList [])] Demo.st_estimate in
   snd r = Ok tt /\
   exists self options res,
     trace (fst r) =
     trace Demo.st_estimate ++
     [EvSimulate self; EvProblemSet "start_time" (Num 0);
      EvProblemSet "final_time" (Num 86400); EvOptimize options; EvSolved res]) /\
  (let r := Optimization_optimize (X := Demo.world) 0 86400
              [("price_data", KwDict Demo.no_prices)] Demo.st_cost_min in
   snd r = Ok tt /\
   exists self options res,
     trace (fst r) =
     trace Demo.st_cost_min ++
     [EvSimulate self; EvProblemSet "start_time" (Num 0);
      EvProblemSet "final_time" (Num 86400); EvOptimize options; EvSolved res]).
Proof.
  split; vm_compute; (split; [reflexivity | do 3 eexists; reflexivity]).
Qed.

Lemma C5_witness :
  exists st',
    Optimization_optimize (X := Demo.world) 0 86400 [] Demo.st_cost_min
    = (st', Raise (KeyError "price_data")) /\
    trace st' = trace Demo.st_cost_min.
Proof.
  eapply (C5_missing_signal_raises_before_any_solve (X := Demo.world)
            Demo.st_cost_min 0 86400 [] EnergyCostMin 1%nat);
    vm_compute; reflexivity.
Defined.



(** On the example the solver is called, and it returns. *)
Lemma example_solver_is_called :
  exists options res,
    In (EvOptimize options) (trace Demo.st_energymin) /\
    In (EvSolved res) (trace Demo.st_energymin).
Proof.
  vm_compute. do 2 eexists.
  split; repeat (first [left; reflexivity | right]).
Qed.



(** * Further properties of the module *)

#[local] Instance stays_unsolved_preorder : PreOrder stays_unsolved.
Proof. split; unfold stays_unsolved; [intros st | intros a b c]; auto. Qed.

Lemma set_package_stays_unsolved (self : loc) (f : Package.t -> Package.t) :
  (forall p, Package.res_opt (f p) = Package.res_opt p) ->
  preserves stays_unsolved (set_package self f).
Proof.
  intros Hf st st' o H l Hl.
  unfold set_package in H. apply bind_inv in H as [(s & p & H1 & H2) | (e & H1 & _)].
  - apply get_package_inv in H1 as [-> Hp]. inversion H2; subst; simpl.
    destruct (decide (self = l)) as [-> | Hne].
    + rewrite lookup_insert_eq. rewrite Hp in Hl. simpl in *. rewrite Hf. exact Hl.
    + rewrite lookup_insert_ne by exact Hne. exact Hl.
  - unfold get_package, bind, get, or_raise in H1.
    destruct (packages st !! self); inversion H1; subst. exact Hl.
Qed.

Ltac stays_unsolved_leaf :=
  first
  [ apply set_package_stays_unsolved; intros; reflexivity
  | apply preserves_modify; intros; unfold stays_unsolved; intros; assumption ].

Section Options.

Context {X : Collaborators}.

(** ** The option dictionary *)

Lemma dict_get_in {V} (k : string) (d : dict V) (v : V) :
  dict_get k d = Some v -> In k (dict_keys d).
Proof.
  induction d as [| [k' v'] d IH]; simpl; [discriminate |].
  destruct (String.eqb k' k) eqn:E.
  - apply String.eqb_eq in E. auto.
  - auto.
Qed.

Lemma dict_keys_get {V} (k : string) (d : dict V) :
  In k (dict_keys d) -> exists v, dict_get k d = Some v.
Proof.
  induction d as [| [k' v'] d IH]; simpl; [tauto |].
  intros [-> | H].
  - rewrite String.eqb_refl. eauto.
  - destruct (String.eqb k' k); eauto.
Qed.

(** The loop raises [KeyError] as soon as one of the keys it visits is
    set automatically and has another value than in the store. *)
Lemma check_auto_keys_changed (keys : list string) (d stored : dict pyval)
    (key : string) (new old : pyval) (s : state) :
  In key keys -> is_auto_key key = true ->
  dict_get key d = Some new -> dict_get key stored = Some old -> py_ne new old = true ->
  (forall k, In k keys -> exists v, dict_get k d = Some v) ->
  exists msg, check_auto_keys keys d stored s = (s, Raise (KeyError msg)).
Proof.
  intros Hin Ha Hn Ho Hne. induction keys as [| k keys IH]; intros Hd; [destruct Hin |].
  simpl. destruct (is_auto_key k) eqn:Ek.
  - destruct (Hd k (or_introl eq_refl)) as (v & Hv).
    unfold bind at 1. unfold bind at 1. rewrite Hv. simpl.
    destruct (dict_get k stored) as [v' |] eqn:Hv'; simpl; [| eauto].
    unfold bind at 1. simpl.
    destruct (py_ne v v') eqn:E; simpl; [eauto |].
    destruct Hin as [-> | Hin]; [congruence |].
    apply IH; [exact Hin | intros k' Hk'; apply Hd; right; exact Hk'].
  - unfold bind at 1. simpl.
    destruct Hin as [-> | Hin]; [congruence |].
    apply IH; [exact Hin | intros k' Hk'; apply Hd; right; exact Hk'].
Qed.

(** The loop passes when every key it visits that is set automatically
    has the value it has in the store. *)
Lemma check_auto_keys_same (keys : list string) (d stored : dict pyval) (s : state) :
  (forall k, In k keys -> is_auto_key k = true ->
     exists v v', dict_get k d = Some v /\ dict_get k stored = Some v' /\ py_ne v v' = false) ->
  check_auto_keys keys d stored s = (s, Ok tt).
Proof.
  induction keys as [| k keys IH]; intros H; [reflexivity |].
  simpl. destruct (is_auto_key k) eqn:Ek.
  - destruct (H k (or_introl eq_refl) Ek) as (v & v' & Hv & Hv' & E).
    unfold bind at 1. unfold bind at 1. rewrite Hv. simpl.
    unfold bind at 1. rewrite Hv'. simpl. rewrite E. simpl.
    apply IH. intros k' Hk'. apply H. right. exact Hk'.
  - unfold bind at 1. simpl. apply IH. intros k' Hk'. apply H. right. exact Hk'.
Qed.

(** Both classes run the same statements. *)
Lemma call__set_optimization_options_eq (self opt_options : loc) (p : Package.t) (st : state) :
  packages st !! self = Some p ->
  call__set_optimization_options self opt_options st
  = JModelica__set_optimization_options self opt_options false st.
Proof.
  intros Hp. unfold call__set_optimization_options.
  rewrite (bind_ok _ _ _ _ _ (class_of_ok _ _ _ Hp)).
  destruct (Package.cls p); reflexivity.
Qed.

(** X1. [set_optimization_options] with a dictionary of the caller's own
    in which a key that is set automatically (['external_data'],
    ['init_traj'], ['nominal_traj'], ['n_e']) has another value than in
    the package's dictionary raises [KeyError], on either package, and
    changes nothing. *)
Theorem X1_changed_auto_key_is_refused
    (st : state) (package : loc) (p : Package.t) (opt_options stored_ref : loc)
    (d stored : dict pyval) (key : string) (new old : pyval) :
  Optim._package_type (optimization st) = Some package ->
  packages st !! package = Some p ->
  Package.opt_options p = Some stored_ref ->
  dicts st !! opt_options = Some d ->
  dicts st !! stored_ref = Some stored ->
  is_auto_key key = true ->
  dict_get key d = Some new -> dict_get key stored = Some old -> py_ne new old = true ->
  exists msg,
    Optimization_set_optimization_options opt_options st = (st, Raise (KeyError msg)).
Proof.
  intros Hpkg Hp Hopts Hd Hstored Ha Hn Ho Hne.
  destruct (check_auto_keys_changed (dict_keys d) d stored key new old st
              (dict_get_in _ _ _ Hn) Ha Hn Ho Hne (fun k => dict_keys_get k d))
    as (msg & Hc).
  exists msg. unfold Optimization_set_optimization_options.
  rewrite (bind_ok _ _ _ _ _ (get_package_type_ok _ _ Hpkg)).
  rewrite (call__set_optimization_options_eq _ _ _ _ Hp).
  unfold JModelica__set_optimization_options.
  apply bind_raise.
  rewrite (bind_ok _ _ _ _ _ (get_dict_ok _ _ _ Hd)).
  rewrite (bind_ok _ _ _ _ _ (get_attr_ok _ _ _ _ _ _ Hp Hopts)).
  rewrite (bind_ok _ _ _ _ _ (get_dict_ok _ _ _ Hstored)).
  exact Hc.
Qed.

(** X2. When every automatically set key of the caller's dictionary has
    the value it has in the package's dictionary,
    [set_optimization_options] returns and the package holds the
    caller's dictionary object itself: [get_optimization_options]
    returns that very object, and nothing else has changed. *)
Theorem X2_accepted_options_are_the_callers_object
    (st : state) (package : loc) (p : Package.t) (opt_options stored_ref : loc)
    (d stored : dict pyval) :
  Optim._package_type (optimization st) = Some package ->
  packages st !! package = Some p ->
  Package.opt_options p = Some stored_ref ->
  dicts st !! opt_options = Some d ->
  dicts st !! stored_ref = Some stored ->
  (forall k, In k (dict_keys d) -> is_auto_key k = true ->
     exists v v', dict_get k d = Some v /\ dict_get k stored = Some v' /\ py_ne v v' = false) ->
  let st' :=
    set_packages (<[package := Package.set_opt_options (Some opt_options) p]> (packages st)) st in
  Optimization_set_optimization_options opt_options st = (st', Ok tt) /\
  Optimization_get_optimization_options st' = (st', Ok opt_options).
Proof.
  intros Hpkg Hp Hopts Hd Hstored Hsame st'. split.
  - unfold Optimization_set_optimization_options.
    rewrite (bind_ok _ _ _ _ _ (get_package_type_ok _ _ Hpkg)).
    rewrite (call__set_optimization_options_eq _ _ _ _ Hp).
    unfold JModelica__set_optimization_options.
    erewrite bind_ok.
    2: { rewrite (bind_ok _ _ _ _ _ (get_dict_ok _ _ _ Hd)).
         rewrite (bind_ok _ _ _ _ _ (get_attr_ok _ _ _ _ _ _ Hp Hopts)).
         rewrite (bind_ok _ _ _ _ _ (get_dict_ok _ _ _ Hstored)).
         apply check_auto_keys_same. exact Hsame. }
    apply set_package_ok. exact Hp.
  - assert (Hp' : packages st' !! package
                  = Some (Package.set_opt_options (Some opt_options) p))
      by (subst st'; simpl; apply lookup_insert_eq).
    unfold Optimization_get_optimization_options.
    rewrite (bind_ok _ _ _ _ _ (get_package_type_ok package st' Hpkg)).
    unfold call__get_optimization_options.
    rewrite (bind_ok _ _ _ _ _ (class_of_ok _ _ _ Hp')).
    destruct p as [[] ?]; simpl;
      [unfold JModelica__get_optimization_options
      | unfold Python__get_optimization_options];
      eapply get_attr_ok; [exact Hp' | reflexivity | exact Hp' | reflexivity].
Qed.

End Options.

Section Orchestrator.

Context {X : Collaborators}.

(** ** Constructing and reconfiguring *)

(** A package that has just been constructed has no result. *)
Lemma construct_unsolved (c : package_kind) (st st' : state) (self : loc) :
  construct c st = (st', Ok self) ->
  exists p, packages st' !! self = Some p /\ Package.res_opt p = None.
Proof.
  intros H.
  assert (Hrest : stays_unsolved
            (set_packages (<[self := Package.new c]> (packages st)) st) st').
  { destruct c; unfold construct, JModelica___init__, Python___init__ in H;
      apply bind_ok_inv in H as (s1 & self' & H1 & H);
      assert (self' = self) as ->
        by (apply bind_ok_inv in H as (? & ? & _ & H);
            apply bind_ok_inv in H as (? & ? & _ & H);
            apply bind_ok_inv in H as (? & ? & _ & H); inversion H; reflexivity);
      rewrite new_package_eq in H1; inversion H1; subst s1;
      match type of H with
      | ?m _ = _ =>
          assert (Hp : preserves stays_unsolved m) by pres stays_unsolved_leaf;
          exact (Hp _ _ _ H)
      end. }
  specialize (Hrest self). simpl in Hrest. rewrite lookup_insert_eq in Hrest.
  specialize (Hrest eq_refl).
  destruct (packages st' !! self) as [p |]; simpl in Hrest; [| discriminate].
  exists p. split; [reflexivity | congruence].
Qed.

(** Asking a package without a result for its statistics. *)
Lemma statistics_unsolved (st : state) (package : loc) (p : Package.t) :
  Optim._package_type (optimization st) = Some package ->
  packages st !! package = Some p ->
  Package.res_opt p = None ->
  Optimization_get_optimization_statistics st = (st, Raise (AttributeError "res_opt")).
Proof.
  intros Hpkg Hp Hres. unfold Optimization_get_optimization_statistics.
  rewrite (bind_ok _ _ _ _ _ (get_package_type_ok _ _ Hpkg)).
  unfold call__get_optimization_statistics.
  rewrite (bind_ok _ _ _ _ _ (class_of_ok _ _ _ Hp)).
  assert (Hg : get_attr package Package.res_opt "res_opt" st
               = (st, Raise (AttributeError "res_opt"))).
  { unfold get_attr. rewrite (bind_ok _ _ _ _ _ (get_package_ok _ _ _ Hp)).
    rewrite Hres. reflexivity. }
  destruct (Package.cls p);
    [unfold JModelica__get_optimization_statistics
    | unfold Python__get_optimization_statistics];
    apply bind_raise; exact Hg.
Qed.

(** The steps of the constructor. *)
Lemma init_inv (Model : loc) (problem_type : problem_kind) (package_type : package_kind)
    (objective_variable : string) (kwargs : init_kwargs) (st st' : state) :
  Optimization___init__ Model problem_type package_type objective_variable kwargs st
  = (st', Ok tt) ->
  exists sc package,
    construct package_type
      (set_optimization
         (Optim.Mk Model (default [] (kw_constraint_data kwargs)) objective_variable
            (Some problem_type) None None None) st)
    = (sc, Ok package) /\
    st' = set_optimization
            (Optim.Mk Model (default [] (kw_constraint_data kwargs)) objective_variable
               (Some problem_type) (Some package) (kw_opt_package kwargs)
               (kw_algorithm kwargs)) sc.
Proof.
  unfold Optimization___init__. intros H.
  apply bind_ok_inv in H as (s & [] & H1 & H). inversion H1; subst s; clear H1.
  apply bind_ok_inv in H as (s & [] & H1 & H). inversion H1; subst s; clear H1.
  apply bind_ok_inv in H as (sc & package & Hc & H).
  exists sc, package. split; [exact Hc |].
  pose proof (construct_same_optimization _ _ _ _ Hc) as Ho.
  unfold same_optimization in Ho. simpl in Ho.
  apply bind_ok_inv in H as (s & [] & H1 & H). inversion H1; subst s; clear H1.
  apply bind_ok_inv in H as (s & [] & H1 & H).
  destruct kwargs as [cd [sp |] [al |]]; simpl in *;
    inversion H1; subst s; inversion H; subst st';
    unfold set_optimization_attr, set_optimization; simpl; rewrite Ho; reflexivity.
Qed.

(** The steps of a reconfiguration that returns. *)
Lemma reconfigure_inv (r : reconfiguration) (st st' : state) :
  reconfigure r st = (st', Ok tt) ->
  exists s0 sc c package,
    packages s0 = packages st /\
    models s0 = models st /\
    Optim.Model (optimization s0) = Optim.Model (optimization st) /\
    construct c s0 = (sc, Ok package) /\
    st' = set_optimization (Optim.set__package_type (Some package) (optimization sc)) sc.
Proof.
  destruct r as [problem_type | package_type]; simpl; intros H.
  - unfold Optimization_set_problem_type in H.
    apply bind_ok_inv in H as (s0 & [] & H1 & H). inversion H1; subst s0; clear H1.
    apply bind_ok_inv in H as (s & old & Hold & H).
    apply get_package_type_inv in Hold as [-> _].
    apply bind_ok_inv in H as (s & c & Hc & H).
    apply class_of_inv in Hc as (-> & _).
    apply bind_ok_inv in H as (sc & package & Hc & H).
    inversion H; subst st'. exists (set_optimization (Optim.set__problem_type (Some problem_type) (optimization st)) st), sc, c, package. repeat split; [exact Hc].
  - unfold Optimization_set_package_type in H.
    apply bind_ok_inv in H as (sc & package & Hc & H).
    inversion H; subst st'. exists st, sc, package_type, package. repeat split; [exact Hc].
Qed.

(** X3. Right after the construction of the optimization object, asking
    for the statistics of the solver raises [AttributeError]: no solve
    has assigned [res_opt] yet. *)
Theorem X3_no_statistics_before_a_solve
    (Model : loc) (problem_type : problem_kind) (package_type : package_kind)
    (objective_variable : string) (kwargs : init_kwargs) (st st' : state) :
  Optimization___init__ Model problem_type package_type objective_variable kwargs st
  = (st', Ok tt) ->
  Optimization_get_optimization_statistics st' = (st', Raise (AttributeError "res_opt")).
Proof.
  intros H. apply init_inv in H as (sc & package & Hc & ->).
  apply construct_unsolved in Hc as (p & Hp & Hres).
  eapply statistics_unsolved; [reflexivity | exact Hp | exact Hres].
Qed.

(** X4. After [set_problem_type] or [set_package_type] has returned,
    the statistics of an earlier solve are gone: asking for them raises
    [AttributeError] until the next solve. *)
Theorem X4_reconfiguration_discards_the_statistics
    (r : reconfiguration) (st st' : state) :
  reconfigure r st = (st', Ok tt) ->
  Optimization_get_optimization_statistics st' = (st', Raise (AttributeError "res_opt")).
Proof.
  intros H. apply reconfigure_inv in H as (s0 & sc & c & package & _ & _ & _ & Hc & ->).
  apply construct_unsolved in Hc as (p & Hp & Hres).
  eapply statistics_unsolved; [reflexivity | exact Hp | exact Hres].
Qed.

(** X5. The constructor keeps what it is given: the model, the
    objective variable, the constraint data (no constraint when the
    keyword is absent), the problem type, and the solver package name and
    algorithm when given. The package it installs is a new object of the
    requested class, whose option dictionary holds the defaults of the
    transferred problem. *)
Theorem X5_constructor_keeps_its_arguments
    (Model : loc) (problem_type : problem_kind) (package_type : package_kind)
    (objective_variable : string) (kwargs : init_kwargs) (st st' : state) :
  Optimization___init__ Model problem_type package_type objective_variable kwargs st
  = (st', Ok tt) ->
  exists package p prob l,
    optimization st'
    = Optim.Mk Model (default [] (kw_constraint_data kwargs)) objective_variable
        (Some problem_type) (Some package) (kw_opt_package kwargs) (kw_algorithm kwargs) /\
    packages st !! package = None /\
    packages st' !! package = Some p /\
    Package.cls p = package_type /\
    Package.opt_problem p = Some prob /\
    Package.opt_options p = Some l /\
    dicts st' !! l = Some (prob_defaults prob).
Proof.
  intros H. apply init_inv in H as (sc & package & Hc & ->).
  apply construct_ok in Hc as (Hfresh & p & prob & l & Hp & Hcls & Hprob & Hopts & Hd & _).
  exists package, p, prob, l. simpl in *.
  repeat (match goal with |- _ /\ _ => split end); try assumption. reflexivity.
Qed.

(** X6. When [set_problem_type] raises, the optimization object is left
    with the new problem type and the package it had, which was built
    for the old problem type. *)
Theorem X6_failed_set_problem_type_keeps_the_old_package
    (problem_type : problem_kind) (st st' : state) (e : exn) :
  Optimization_set_problem_type problem_type st = (st', Raise e) ->
  Optim._problem_type (optimization st') = Some problem_type /\
  Optim._package_type (optimization st') = Optim._package_type (optimization st).
Proof.
  unfold Optimization_set_problem_type. intros H.
  apply bind_inv in H as [(s0 & [] & H1 & H) | (e' & H1 & _)]; [| inversion H1].
  inversion H1; subst s0; clear H1.
  assert (Hgoal : forall s : state,
            optimization s
            = Optim.set__problem_type (Some problem_type) (optimization st) ->
            Optim._problem_type (optimization s) = Some problem_type /\
            Optim._package_type (optimization s) = Optim._package_type (optimization st))
    by (intros s ->; split; reflexivity).
  apply bind_inv in H as [(s & old & Hold & H) | (e' & H1 & _)].
  2: { apply Hgoal.
       assert (Hp : preserves same_optimization get_package_type)
         by pres same_optimization_side.
       apply Hp in H1. exact H1. }
  apply get_package_type_inv in Hold as [-> _].
  apply bind_inv in H as [(s & c & Hc & H) | (e' & H1 & _)].
  2: { apply Hgoal.
       assert (Hp : preserves same_optimization (class_of old))
         by pres same_optimization_side.
       apply Hp in H1. exact H1. }
  apply class_of_inv in Hc as (-> & _).
  apply bind_inv in H as [(sc & package & Hc & H) | (e' & H1 & _)]; [inversion H |].
  apply Hgoal. apply construct_same_optimization in H1. exact H1.
Qed.

(** X7. When [set_package_type] raises, the optimization object is what
    it was: the package it had stays installed. *)
Theorem X7_failed_set_package_type_changes_nothing
    (package_type : package_kind) (st st' : state) (e : exn) :
  Optimization_set_package_type package_type st = (st', Raise e) ->
  optimization st' = optimization st.
Proof.
  unfold Optimization_set_package_type. intros H.
  apply bind_inv in H as [(sc & package & Hc & H) | (e' & H1 & _)]; [inversion H |].
  apply construct_same_optimization in H1. exact H1.
Qed.

End Orchestrator.

#[local] Instance same_input_names_preorder : PreOrder same_input_names.
Proof.
  split; unfold same_input_names.
  - intros st l. reflexivity.
  - intros a b c H1 H2 l. rewrite H2. apply H1.
Qed.

#[local] Instance same_extra_inputs_preorder (self : loc) : PreOrder (same_extra_inputs self).
Proof. split; unfold same_extra_inputs; [intros st | intros a b c]; congruence. Qed.

Lemma set_model_same_input_names (m : loc) (f : Model.t -> Model.t) :
  (forall x, Model.input_names (f x) = Model.input_names x) ->
  preserves same_input_names (set_model m f).
Proof.
  intros Hf st st' o H. unfold set_model in H.
  apply bind_inv in H as [(s & x & H1 & H2) | (e & H1 & _)].
  - apply get_model_inv in H1 as [-> Hx]. inversion H2; subst.
    intros l. simpl. destruct (decide (m = l)) as [-> | Hne].
    + rewrite lookup_insert_eq, Hx. simpl. rewrite Hf. reflexivity.
    + rewrite lookup_insert_ne by exact Hne. reflexivity.
  - unfold get_model, bind, get, or_raise in H1.
    destruct (models st !! m); inversion H1; subst. intros l. reflexivity.
Qed.

Ltac same_input_names_leaf :=
  first
  [ apply set_model_same_input_names; intros; reflexivity
  | apply preserves_modify; intros; unfold same_input_names; intros; reflexivity ].

Lemma set_package_same_extra_inputs (self self' : loc) (f : Package.t -> Package.t) :
  (forall p, Package.extra_inputs (f p) = Package.extra_inputs p) ->
  preserves (same_extra_inputs self) (set_package self' f).
Proof.
  intros Hf st st' o H. unfold same_extra_inputs.
  unfold set_package in H. apply bind_inv in H as [(s & p' & H1 & H2) | (e & H1 & _)].
  - apply get_package_inv in H1 as [-> Hp']. inversion H2; subst; simpl.
    destruct (decide (self' = self)) as [-> | Hne].
    + rewrite lookup_insert_eq, Hp'. simpl. rewrite Hf. reflexivity.
    + rewrite lookup_insert_ne by exact Hne. reflexivity.
  - unfold get_package, bind, get, or_raise in H1.
    destruct (packages st !! self'); inversion H1; subst. reflexivity.
Qed.

Ltac same_extra_inputs_leaf :=
  first
  [ apply set_package_same_extra_inputs; intros; reflexivity
  | apply preserves_modify; intros; unfold same_extra_inputs; reflexivity ].

Ltac names_kept_pres :=
  apply preserves_rel_and; [pres same_input_names_leaf | pres same_extra_inputs_leaf].

Section MopFile.

Context {X : Collaborators}.

(** ** Starting the [.mop] file *)

(** X8. [_initalize_mop] copies the [.mo] file up to the first line
    that holds the end of the package, which it does not copy, and
    nothing after it; of the lines before, it leaves out those that hold
    [within ;], [annotation (uses] or [(version=] followed by a double
    quote. Without such an end
    line the whole file is copied with the same omissions. *)
Theorem X8_copy_stops_at_the_end_of_the_package (stop : string) (pre : list string) :
  Forall (fun l => contains stop l = false) pre ->
  copy_mo stop pre = List.filter kept_line pre /\
  forall line post,
    contains stop line = true ->
    copy_mo stop (pre ++ line :: post) = List.filter kept_line pre.
Proof.
  induction 1 as [| l pre Hl _ [IH1 IH2]]; simpl.
  - split; [reflexivity |]. intros line post ->. reflexivity.
  - rewrite Hl. fold (kept_line l). split.
    + destruct (kept_line l); [f_equal |]; exact IH1.
    + intros line post Hs. destruct (kept_line l); [f_equal |]; apply IH2; exact Hs.
Qed.

(** X9. When the [.mo] file of the model cannot be opened,
    [_initalize_mop] raises [IOError] before it has assigned anything or
    created the [.mop] file. *)
Theorem X9_missing_mo_file_raises_before_any_write
    (self : loc) (st : state) (p : Package.t) (m : loc) (x : Model.t) :
  packages st !! self = Some p ->
  Package.Model p = Some m ->
  models st !! m = Some x ->
  fs st !! Model.mopath x = None ->
  JModelica__initalize_mop self st = (st, Raise (IOError (Model.mopath x))).
Proof.
  intros Hp HM Hx Hfs. unfold JModelica__initalize_mop.
  rewrite (bind_ok _ _ _ _ _ (get_attr_ok _ _ _ _ _ _ Hp HM)).
  rewrite (bind_ok _ _ _ _ _ (get_model_ok _ _ _ Hx)).
  apply bind_raise. unfold read_file, bind, get, or_raise. rewrite Hfs. reflexivity.
Qed.

(** The loop over the extra inputs appends each of them to the input
    names of the model. *)
Lemma extra_inputs_loop (self m : loc) (extra : dict input_val) :
  forall (st st' : state) (x : Model.t),
    models st !! m = Some x ->
    for_each extra (fun '(key, v) =>
      append_name self (ModelInputNames m) Package.set__init_input_names key ;;
      other_inputs_setitem self key v ;;
      mopfile_write self ("    input Real " +:+ key +:+ ";" +:+ nl)) st = (st', Ok tt) ->
    exists x', models st' !! m = Some x' /\
               Model.input_names x' = Model.input_names x ++ dict_keys extra.
Proof.
  induction extra as [| [key v] extra IH]; intros st st' x Hx H; simpl in H.
  - inversion H; subst. exists x. rewrite app_nil_r. auto.
  - apply bind_ok_inv in H as (s1 & [] & Hbody & H).
    apply bind_ok_inv in Hbody as (sa & [] & Ha & Hbody).
    unfold append_name in Ha. apply set_model_inv in Ha as (x0 & Hx0 & ->).
    rewrite Hx in Hx0. inversion Hx0; subst x0.
    match type of Hbody with
    | ?k _ = _ =>
        assert (Hp : preserves same_input_names k) by pres same_input_names_leaf;
        pose proof (Hp _ _ _ Hbody m) as Hs; clear Hp
    end.
    simpl in Hs. rewrite lookup_insert_eq in Hs. simpl in Hs.
    destruct (models s1 !! m) as [x1 |] eqn:Hx1; [| discriminate].
    simpl in Hs. injection Hs as Hs.
    destruct (IH _ _ _ Hx1 H) as (x' & Hx' & Hn).
    exists x'. split; [exact Hx' |]. rewrite Hn, Hs, <- app_assoc. reflexivity.
Qed.

(** What [_initalize_mop] does to the input names of the model. *)
Lemma initalize_mop_appends
    (self : loc) (st st' : state) (p : Package.t) (m : loc) (x : Model.t)
    (extra : dict input_val) :
  packages st !! self = Some p ->
  Package.Model p = Some m ->
  Package.extra_inputs p = Some extra ->
  models st !! m = Some x ->
  JModelica__initalize_mop self st = (st', Ok tt) ->
  exists x',
    models st' !! m = Some x' /\
    Model.input_names x' = Model.input_names x ++ dict_keys extra.
Proof.
  intros Hp HM He Hx H. unfold JModelica__initalize_mop in H.
  assert (HQ : rel_and same_input_names (same_extra_inputs self) st st) by reflexivity.
  xstep names_kept_pres H HQ Hm; [| discriminate].
  apply get_attr_inv in Hm as (-> & p0 & Hp0 & HM0).
  rewrite Hp in Hp0. injection Hp0 as <-. rewrite HM in HM0. injection HM0 as <-.
  xstep names_kept_pres H HQ Hm; [| discriminate].
  apply get_model_inv in Hm as [-> Hx0]. rewrite Hx in Hx0. injection Hx0 as <-.
  xstep names_kept_pres H HQ Hm; [clear Hm | discriminate].
  cbv zeta in H.
  do 11 (xstep names_kept_pres H HQ Hm; [clear Hm | discriminate]).
  xstep names_kept_pres H HQ Hm; [| discriminate].
  apply get_attr_inv in Hm as (-> & p1 & Hp1 & He1).
  destruct HQ as [Hn Hx1]. unfold same_extra_inputs in Hx1.
  rewrite Hp, Hp1 in Hx1. simpl in Hx1. rewrite He, He1 in Hx1. inversion Hx1; subst.
  pose proof (Hn m) as Hm. rewrite Hx in Hm.
  match type of Hm with
  | _ <$> models ?s !! m = _ => destruct (models s !! m) as [xa |] eqn:Hxa; [| discriminate]
  end.
  simpl in Hm. injection Hm as Hm.
  apply bind_ok_inv in H as (sl & [] & Hloop & H).
  destruct (extra_inputs_loop _ _ _ _ _ _ Hxa Hloop) as (xl & Hxl & Hnl).
  match type of H with
  | ?k _ = _ =>
      assert (Hp' : preserves same_input_names k) by pres same_input_names_leaf;
      pose proof (Hp' _ _ _ H m) as Hs; clear Hp'
  end.
  rewrite Hxl in Hs.
  destruct (models st' !! m) as [x' |]; [| discriminate].
  simpl in Hs. injection Hs as Hs.
  exists x'. split; [reflexivity | congruence].
Qed.

(** X10. [_init_input_names] is the list object [Model.input_names]
    itself, so the extra inputs that [_initalize_mop] appends to it (such
    as ['pi_e'] for an energy cost minimization) are appended to the
    input names of the model: after a call that returns, the model's
    list is the one it had followed by the extra inputs. *)
Theorem X10_extra_inputs_are_appended_to_the_models_input_names
    (self : loc) (st st' : state) (p : Package.t) (m : loc) (x : Model.t)
    (extra : dict input_val) :
  packages st !! self = Some p ->
  Package.Model p = Some m ->
  Package.extra_inputs p = Some extra ->
  models st !! m = Some x ->
  JModelica__initalize_mop self st = (st', Ok tt) ->
  exists x',
    models st' !! m = Some x' /\
    Model.input_names x' = Model.input_names x ++ dict_keys extra.
Proof. apply initalize_mop_appends. Qed.

(** ** The parameter estimation stage *)





End MopFile.

(** ** Reading the results *)

#[local] Instance only_values_written_preorder : PreOrder only_values_written.
Proof.
  split; unfold only_values_written.
  - intros st l. repeat split; reflexivity.
  - intros a b c H1 H2 l.
    destruct (H1 l) as (A1 & A2 & A3 & A4). destruct (H2 l) as (B1 & B2 & B3 & B4).
    repeat split; [congruence | congruence | congruence |].
    intros key field Hf. rewrite (B4 key field Hf). apply A4. exact Hf.
Qed.

#[local] Instance only_results_written_preorder : PreOrder only_results_written.
Proof.
  split; unfold only_results_written.
  - intros st l. repeat split; reflexivity.
  - intros a b c H1 H2 l.
    destruct (H1 l) as (A1 & A2). destruct (H2 l) as (B1 & B2).
    split; [congruence |].
    intros key field Hf. rewrite (B2 key field Hf). apply A2. exact Hf.
Qed.

Lemma dict_get_set_same {V} (k k' : string) (v : V) (d : dict V) :
  dict_get k' (dict_set k v d) = if String.eqb k k' then Some v else dict_get k' d.
Proof.
  destruct (String.eqb_spec k k') as [<- | Hne].
  - apply dict_get_set_eq.
  - apply dict_get_set_ne. exact Hne.
Qed.

(** Writing one field of an entry that is there leaves the other fields
    of every entry as they were. *)
Lemma field_of_set (d : dict (dict mpcpy_var)) (key key' field slot : string)
    (entry : dict mpcpy_var) (v : mpcpy_var) :
  dict_get key d = Some entry ->
  field <> slot ->
  field_of (dict_set key (dict_set slot v entry) d) key' field = field_of d key' field.
Proof.
  intros He Hf. unfold field_of. rewrite dict_get_set_same.
  destruct (String.eqb_spec key key') as [<- | Hne]; [| reflexivity].
  rewrite He. simpl. apply dict_get_set_ne. congruence.
Qed.

Lemma dict_keys_set_present {V} (k : string) (v v0 : V) (d : dict V) :
  dict_get k d = Some v0 -> dict_keys (dict_set k v d) = dict_keys d.
Proof.
  revert v0. induction d as [| [k' v'] d IH]; intros v0; simpl; [discriminate |].
  destruct (String.eqb_spec k' k) as [-> | Hne]; simpl.
  - reflexivity.
  - intros H. f_equal. eapply IH. exact H.
Qed.


Lemma only_results_written_insert (st : state) (m : loc) (x x' : Model.t) :
  models st !! m = Some x ->
  Model.parameter_data x' = Model.parameter_data x ->
  (forall key field, field <> "Simulated" ->
     field_of (Model.measurements x') key field
     = field_of (Model.measurements x) key field) ->
  only_results_written st (set_models (<[m := x']> (models st)) st).
Proof.
  intros Hx H1 H2 l. simpl. destruct (decide (m = l)) as [<- | Hne].
  - rewrite lookup_insert_eq, Hx. simpl. rewrite H1.
    split; [reflexivity |]. intros key field Hf. rewrite (H2 key field Hf). reflexivity.
  - rewrite lookup_insert_ne by exact Hne. repeat split; reflexivity.
Qed.

Section Results.

Context {X : Collaborators}.



Lemma set_model_only_results (m : loc) (f : Model.t -> Model.t) :
  (forall x, Model.parameter_data (f x) = Model.parameter_data x) ->
  (forall x, Model.measurements (f x) = Model.measurements x) ->
  preserves only_results_written (set_model m f).
Proof.
  intros Hp Hm st st' o H. unfold set_model in H.
  apply bind_inv in H as [(sq & x & H1 & H2) | (ex & H1 & _)].
  - apply get_model_inv in H1 as [-> Hx]. inversion H2; subst st'.
    eapply only_results_written_insert; [exact Hx | apply Hp |].
    intros key field _. rewrite Hm. reflexivity.
  - assert (Hpure : preserves eq (get_model m)) by pres fail.
    apply Hpure in H1. subst. reflexivity.
Qed.

(** One round of the loop of [_get_control_results] over the
    measurements. *)
Lemma measurement_result_round (self m : loc) (units : dict string) (key : string) :
  preserves only_results_written
    (let* ts := result_series self units key in
     let* x := get_model m in
     let* entry := or_raise (dict_get key (Model.measurements x)) (KeyError key) in
     set_model m
       (Model.set_measurements
          (dict_set key (dict_set "Simulated" ts entry) (Model.measurements x)))).
Proof.
  intros st st' o H.
  assert (HQ : st = st) by reflexivity.
  xstep ltac:(pres fail) H HQ Hf; [clear Hf | subst; reflexivity].
  xstep ltac:(pres fail) H HQ Hx; [| subst; reflexivity].
  apply get_model_inv in Hx as [-> Hx].
  xstep ltac:(pres fail) H HQ He; [| subst; reflexivity].
  apply or_raise_inv in He as [-> He].
  subst. unfold set_model in H.
  apply bind_inv in H as [(sq & xc & H1 & H2) | (ex & H1 & _)].
  - apply get_model_inv in H1 as [-> Hxc]. inversion H2; subst st'.
    rewrite Hx in Hxc. injection Hxc as Hxc. subst xc.
    eapply only_results_written_insert; [exact Hx | reflexivity |].
    intros key' field Hf. simpl. apply field_of_set; assumption.
  - assert (Hp : preserves eq (get_model m)) by pres fail.
    apply Hp in H1. subst. reflexivity.
Qed.

(** X13. Whatever its outcome, [_get_control_results] writes nothing of
    any model but its control data and ['Simulated'] entries of its
    measurements: the parameter data and every other entry of a
    measurement (such as ['Measured']) are what they were. *)
Theorem X13_control_results_write_controls_and_simulated_only
    (self : loc) (st st' : state) (o : outcome unit) :
  JModelica__get_control_results self st = (st', o) ->
  only_results_written st st'.
Proof.
  revert st st' o.
  change (preserves only_results_written (JModelica__get_control_results self)).
  unfold JModelica__get_control_results.
  pres ltac:(first [ apply measurement_result_round
                   | apply set_model_only_results; intros; reflexivity ]).
Qed.

End Results.

Section ResultMapping.

Context {X : Collaborators}.

Lemma result_series_inv (self : loc) (units : dict string) (key : string)
    (p : Package.t) (res : opt_result) (setup : sim_setup) (s s' : state) (ts : mpcpy_var) :
  packages s !! self = Some p ->
  Package.res_opt p = Some res ->
  Package.sim p = Some setup ->
  result_series self units key s = (s', Ok ts) ->
  s' = s /\ series_of units res setup key = Some ts.
Proof.
  intros Hp Hres Hsim H. unfold result_series in H.
  rewrite (bind_ok _ _ _ _ _ (get_attr_ok _ _ _ _ _ _ Hp Hres)) in H.
  apply bind_ok_inv in H as (s1 & data & Hd & H). apply or_raise_inv in Hd as [-> Hd].
  apply bind_ok_inv in H as (s1 & time & Ht & H). apply or_raise_inv in Ht as [-> Ht].
  rewrite (bind_ok _ _ _ _ _ (get_attr_ok _ _ _ _ _ _ Hp Hsim)) in H.
  inversion H; subst. split; [reflexivity |].
  unfold series_of. rewrite Hd, Ht. reflexivity.
Qed.

(** The loop over the control variables. *)
Lemma control_results_loop (self m : loc) (units : dict string)
    (p : Package.t) (res : opt_result) (setup : sim_setup) (keys : list string) :
  Package.res_opt p = Some res ->
  Package.sim p = Some setup ->
  forall (s s' : state) (x : Model.t),
    packages s !! self = Some p ->
    models s !! m = Some x ->
    (forall key, In key keys -> dict_has key (Model.control_data x) = true) ->
    for_each keys (fun key =>
      let* ts := result_series self units key in
      set_model m
        (fun x => Model.set_control_data (dict_set key ts (Model.control_data x)) x)) s
    = (s', Ok tt) ->
    packages s' = packages s /\
    exists x',
      models s' !! m = Some x' /\
      Model.measurements x' = Model.measurements x /\
      dict_keys (Model.control_data x') = dict_keys (Model.control_data x) /\
      (forall key, In key keys ->
         exists ts, series_of units res setup key = Some ts /\
                    dict_get key (Model.control_data x') = Some ts) /\
      (forall key, ~ In key keys ->
         dict_get key (Model.control_data x') = dict_get key (Model.control_data x)).
Proof.
  intros Hres Hsim. induction keys as [| key keys IH]; intros s s' x Hp Hx Hin H.
  - inversion H; subst. split; [reflexivity |]. exists x.
    repeat split; try assumption; try reflexivity. intros key [].
  - simpl in H. apply bind_ok_inv in H as (s1 & [] & Hbody & H).
    apply bind_ok_inv in Hbody as (s0 & ts & Hts & Hset).
    apply (result_series_inv _ _ _ _ _ _ _ _ _ Hp Hres Hsim) in Hts as [-> Hts].
    apply set_model_inv in Hset as (x0 & Hx0 & ->).
    rewrite Hx in Hx0. injection Hx0 as <-.
    assert (Hhas : exists v0, dict_get key (Model.control_data x) = Some v0).
    { specialize (Hin key (or_introl eq_refl)). unfold dict_has in Hin.
      destruct (dict_get key (Model.control_data x)); [eauto | discriminate]. }
    destruct Hhas as (v0 & Hv0).
    set (x1 := Model.set_control_data (dict_set key ts (Model.control_data x)) x) in *.
    set (s1 := set_models (<[m := x1]> (models s)) s) in *.
    assert (Hp1 : packages s1 !! self = Some p) by exact Hp.
    assert (Hx1 : models s1 !! m = Some x1) by apply lookup_insert_eq.
    assert (Hin1 : forall k, In k keys -> dict_has k (Model.control_data x1) = true).
    { intros k Hk. simpl. unfold dict_has. rewrite dict_get_set_same.
      destruct (String.eqb key k); [reflexivity |]. apply Hin. right. exact Hk. }
    destruct (IH s1 s' x1 Hp1 Hx1 Hin1 H) as (Hpk & x' & Hx' & Hm' & Hk' & Hi' & Ho').
    split; [exact Hpk |]. exists x'. subst x1. simpl in *.
    split; [exact Hx' |]. split; [exact Hm' |].
    split; [rewrite Hk'; eapply dict_keys_set_present; exact Hv0 |].
    split.
    + intros k Hk. destruct (in_dec String.string_dec k keys) as [Hr | Hr].
      * apply Hi'. exact Hr.
      * destruct Hk as [<- | Hk]; [| contradiction].
        exists ts. split; [exact Hts |]. rewrite (Ho' _ Hr). apply dict_get_set_eq.
    + intros k Hk. rewrite Ho' by (intros Hr; apply Hk; right; exact Hr).
      apply dict_get_set_ne. intros ->. apply Hk. left. reflexivity.
Qed.

(** The loop over the measurements. *)
Lemma measurement_results_loop (self m : loc) (units : dict string)
    (p : Package.t) (res : opt_result) (setup : sim_setup) (keys : list string) :
  Package.res_opt p = Some res ->
  Package.sim p = Some setup ->
  forall (s s' : state) (x : Model.t),
    packages s !! self = Some p ->
    models s !! m = Some x ->
    for_each keys (fun key =>
      let* ts := result_series self units key in
      let* x := get_model m in
      let* entry := or_raise (dict_get key (Model.measurements x)) (KeyError key) in
      set_model m
        (Model.set_measurements
           (dict_set key (dict_set "Simulated" ts entry) (Model.measurements x)))) s
    = (s', Ok tt) ->
    exists x',
      models s' !! m = Some x' /\
      Model.control_data x' = Model.control_data x /\
      dict_keys (Model.measurements x') = dict_keys (Model.measurements x) /\
      (forall key, In key keys ->
         exists ts, series_of units res setup key = Some ts /\
                    field_of (Model.measurements x') key "Simulated" = Some ts) /\
      (forall key, ~ In key keys ->
         dict_get key (Model.measurements x') = dict_get key (Model.measurements x)).
Proof.
  intros Hres Hsim. induction keys as [| key keys IH]; intros s s' x Hp Hx H.
  - inversion H; subst. exists x.
    repeat split; try assumption; try reflexivity. intros key [].
  - simpl in H. apply bind_ok_inv in H as (s1 & [] & Hbody & H).
    apply bind_ok_inv in Hbody as (s0 & ts & Hts & Hbody).
    apply (result_series_inv _ _ _ _ _ _ _ _ _ Hp Hres Hsim) in Hts as [-> Hts].
    apply bind_ok_inv in Hbody as (s0 & x0 & Hx0 & Hbody).
    apply get_model_inv in Hx0 as [-> Hx0]. rewrite Hx in Hx0. injection Hx0 as <-.
    apply bind_ok_inv in Hbody as (s0 & entry & He & Hset).
    apply or_raise_inv in He as [-> He].
    apply set_model_inv in Hset as (x0 & Hx0 & ->).
    rewrite Hx in Hx0. injection Hx0 as <-.
    set (x1 := Model.set_measurements
                 (dict_set key (dict_set "Simulated" ts entry) (Model.measurements x)) x) in *.
    set (s1 := set_models (<[m := x1]> (models s)) s) in *.
    assert (Hp1 : packages s1 !! self = Some p) by exact Hp.
    assert (Hx1 : models s1 !! m = Some x1) by apply lookup_insert_eq.
    destruct (IH s1 s' x1 Hp1 Hx1 H) as (x' & Hx' & Hc' & Hk' & Hi' & Ho').
    exists x'. subst x1. simpl in *.
    split; [exact Hx' |]. split; [exact Hc' |].
    split; [rewrite Hk'; eapply dict_keys_set_present; exact He |].
    split.
    + intros k Hk. destruct (in_dec String.string_dec k keys) as [Hr | Hr].
      * apply Hi'. exact Hr.
      * destruct Hk as [<- | Hk]; [| contradiction].
        exists ts. split; [exact Hts |]. unfold field_of. rewrite (Ho' _ Hr).
        rewrite dict_get_set_eq. simpl. apply dict_get_set_eq.
    + intros k Hk. rewrite Ho' by (intros Hr; apply Hk; right; exact Hr).
      apply dict_get_set_ne. intros ->. apply Hk. left. reflexivity.
Qed.

(** X19. After [_get_control_results] has returned, every control
    variable of the model holds the series that the result of the solve
    has for it, and every measurement holds that series under
    ['Simulated']: the values of [mpc_model.key] against the time stamps
    of the result counted from the start of the horizon, in the unit of
    the variable, or [unit1] when it has none. No control variable or
    measurement is added or removed. *)
Theorem X19_results_are_the_solved_series
    (self : loc) (st st' : state) (p : Package.t) (m : loc) (x : Model.t)
    (res : opt_result) (setup : sim_setup) :
  Optim.Model (optimization st) = m ->
  packages st !! self = Some p ->
  Package.Model p = Some m ->
  Package.res_opt p = Some res ->
  Package.sim p = Some setup ->
  models st !! m = Some x ->
  JModelica__get_control_results self st = (st', Ok tt) ->
  let units := _get_fmu_variable_units st self in
  exists x',
    models st' !! m = Some x' /\
    dict_keys (Model.control_data x') = dict_keys (Model.control_data x) /\
    dict_keys (Model.measurements x') = dict_keys (Model.measurements x) /\
    (forall key, In key (dict_keys (Model.control_data x)) ->
       exists ts, series_of units res setup key = Some ts /\
                  dict_get key (Model.control_data x') = Some ts) /\
    (forall key, In key (dict_keys (Model.measurements x)) ->
       exists ts, series_of units res setup key = Some ts /\
                  field_of (Model.measurements x') key "Simulated" = Some ts).
Proof.
  intros HO Hp HM Hres Hsim Hx H units. unfold JModelica__get_control_results in H.
  apply bind_ok_inv in H as (s & Optimization & Hs & H).
  apply get_optimization_inv in Hs as [-> ->].
  apply bind_ok_inv in H as (s & s0 & Hs & H). apply get_inv in Hs as [-> ->].
  cbv zeta in H. fold units in H. rewrite HO in H.
  rewrite (bind_ok _ _ _ _ _ (get_attr_ok _ _ _ _ _ _ Hp HM)) in H.
  rewrite (bind_ok _ _ _ _ _ (get_model_ok _ _ _ Hx)) in H.
  apply bind_ok_inv in H as (s1 & [] & Hloop1 & H).
  apply (control_results_loop _ _ _ _ _ _ _ Hres Hsim _ _ _ Hp Hx) in Hloop1
    as (Hpk & x1 & Hx1 & Hm1 & Hk1 & Hi1 & _).
  2: { intros key Hk. apply dict_keys_get in Hk as (v & Hv). unfold dict_has.
       rewrite Hv. reflexivity. }
  rewrite (bind_ok _ _ _ _ _ (get_model_ok _ _ _ Hx1)) in H.
  assert (Hp1 : packages s1 !! self = Some p) by (rewrite Hpk; exact Hp).
  apply (measurement_results_loop _ _ _ _ _ _ _ Hres Hsim _ _ _ Hp1 Hx1) in H
    as (x2 & Hx2 & Hc2 & Hk2 & Hi2 & _).
  exists x2. split; [exact Hx2 |].
  split; [congruence |]. split; [congruence |]. split.
  - intros key Hk. destruct (Hi1 key Hk) as (ts & Hts & Hd).
    exists ts. split; [exact Hts |]. rewrite Hc2. exact Hd.
  - intros key Hk. apply Hi2. rewrite Hm1. exact Hk.
Qed.



End ResultMapping.

(** ** The statistics of a solve *)

#[local] Instance same_packages_preorder : PreOrder same_packages.
Proof. split; unfold same_packages; [intros st | intros a b c]; congruence. Qed.

Ltac same_packages_leaf :=
  apply preserves_modify; intros; unfold same_packages; reflexivity.

Section Statistics.

Context {X : Collaborators}.

(** A solve that returns has stored the result of the solver. *)
Lemma solve_returns_result (self : loc) (s s' : state) :
  JModelica__solve self s = (s', Ok tt) ->
  exists s0 options res p',
    opt_problem_optimize s0 self options = Ok res /\
    packages s' !! self = Some p' /\ Package.res_opt p' = Some res.
Proof.
  unfold JModelica__solve. intros H.
  do 22 (apply bind_ok_inv in H as (? & ? & _ & H)).
  apply bind_ok_inv in H as (sa & s0 & Hg & H). apply get_inv in Hg as [-> ->].
  apply bind_ok_inv in H as (sb & res & Hl & H). apply lift_inv in Hl as [-> Hl].
  apply bind_ok_inv in H as (sc & [] & Hs & H). apply set_package_inv in Hs as (p & Hp & ->).
  inversion H; subst s'.
  eexists _, _, res, _. split; [exact Hl |]. simpl. rewrite lookup_insert_eq.
  split; reflexivity.
Qed.

(** The seed simulation, the solve and the reading of the results. *)
Lemma entry_returns_result (self : loc) (ext : M unit) (s s' : state) :
  preserves same_packages ext ->
  (JModelica__simulate_initial self ;; JModelica__solve self ;; ext) s = (s', Ok tt) ->
  exists s0 options res p',
    opt_problem_optimize s0 self options = Ok res /\
    packages s' !! self = Some p' /\ Package.res_opt p' = Some res.
Proof.
  intros Hext H.
  apply bind_ok_inv in H as (s1 & [] & _ & H).
  apply bind_ok_inv in H as (s2 & [] & Hsolve & H).
  apply solve_returns_result in Hsolve as (s0 & options & res & p' & Hr & Hp & Hres).
  apply Hext in H. unfold same_packages in H.
  exists s0, options, res, p'. rewrite H. auto.
Qed.

Lemma control_results_same_packages (self : loc) :
  preserves same_packages (JModelica__get_control_results self).
Proof. pres same_packages_leaf. Qed.

Lemma parameter_results_same_packages (self : loc) :
  preserves same_packages (JModelica__get_parameter_results self).
Proof. pres same_packages_leaf. Qed.

(** X14. After [optimize] has returned on a [JModelica] package,
    whatever the problem type, [get_optimization_statistics] returns the
    statistics of the result that the solver returned in that call. *)
Theorem X14_statistics_are_those_of_the_solve
    (start_time final_time : Q) (kwargs : dict kwarg) (st st' : state)
    (package : loc) (p : Package.t) :
  Optim._package_type (optimization st) = Some package ->
  packages st !! package = Some p ->
  Package.cls p = JModelica ->
  Optimization_optimize start_time final_time kwargs st = (st', Ok tt) ->
  exists s0 options res,
    opt_problem_optimize s0 package options = Ok res /\
    Optimization_get_optimization_statistics st' = (st', Ok (res_statistics res)).
Proof.
  intros Hpkg Hp Hcls H.
  assert (Ho : optimization st' = optimization st).
  { assert (Hpres : preserves same_optimization
                      (Optimization_optimize start_time final_time kwargs))
      by pres same_optimization_side.
    exact (Hpres _ _ _ H). }
  assert (Hres : exists s0 options res p',
             opt_problem_optimize s0 package options = Ok res /\
             packages st' !! package = Some p' /\ Package.res_opt p' = Some res).
  { unfold Optimization_optimize in H.
    apply bind_ok_inv in H as (s & self & Hs & H).
    apply get_optimization_inv in Hs as [-> ->].
    apply bind_ok_inv in H as (s1 & [] & Ht & H).
    unfold Model__set_time_interval in Ht. apply set_model_inv in Ht as (x & _ & ->).
    unfold call__optimize in H.
    apply bind_ok_inv in H as (s & self & Hs & H).
    apply get_optimization_inv in Hs as [-> ->].
    apply bind_ok_inv in H as (s & problem_type & Hpt & H).
    apply or_raise_inv in Hpt as [-> _].
    destruct problem_type.
    - unfold EnergyMin__optimize in H.
      apply bind_ok_inv in H as (s2 & package' & Hg & H).
      apply get_package_type_inv in Hg as [-> Hg]. simpl in Hg.
      rewrite Hpkg in Hg. injection Hg as <-.
      unfold call__energymin in H.
      apply bind_ok_inv in H as (s2 & c & Hc & H).
      apply class_of_inv in Hc as (-> & p2 & Hp2 & <-). simpl in Hp2.
      rewrite Hp in Hp2. injection Hp2 as <-. rewrite Hcls in H.
      unfold JModelica__energymin in H.
      eapply entry_returns_result; [apply control_results_same_packages | exact H].
    - unfold EnergyCostMin__optimize in H.
      apply bind_ok_inv in H as (s2 & price & Hpr & H).
      apply or_raise_inv in Hpr as [-> _].
      apply bind_ok_inv in H as (s2 & package' & Hg & H).
      apply get_package_type_inv in Hg as [-> Hg]. simpl in Hg.
      rewrite Hpkg in Hg. injection Hg as <-.
      unfold call__energycostmin in H.
      apply bind_ok_inv in H as (s2 & c & Hc & H).
      apply class_of_inv in Hc as (-> & p2 & Hp2 & <-). simpl in Hp2.
      rewrite Hp in Hp2. injection Hp2 as <-. rewrite Hcls in H.
      unfold JModelica__energycostmin in H.
      apply bind_ok_inv in H as (s3 & pi_e & _ & H).
      apply bind_ok_inv in H as (s4 & [] & _ & H).
      eapply entry_returns_result; [apply control_results_same_packages | exact H].
    - unfold _ParameterEstimate__optimize in H.
      apply bind_ok_inv in H as (s2 & package' & Hg & H).
      apply get_package_type_inv in Hg as [-> Hg]. simpl in Hg.
      rewrite Hpkg in Hg. injection Hg as <-.
      apply bind_ok_inv in H as (s2 & mvl & Hmvl & H).
      apply or_raise_inv in Hmvl as [-> _].
      unfold call__parameterestimate in H.
      apply bind_ok_inv in H as (s2 & c & Hc & H).
      apply class_of_inv in Hc as (-> & p2 & Hp2 & <-). simpl in Hp2.
      rewrite Hp in Hp2. injection Hp2 as <-. rewrite Hcls in H.
      unfold JModelica__parameterestimate in H.
      apply bind_ok_inv in H as (s3 & [] & _ & H).
      eapply entry_returns_result; [apply parameter_results_same_packages | exact H]. }
  destruct Hres as (s0 & options & res & p' & Hr & Hp' & Hres).
  exists s0, options, res. split; [exact Hr |].
  unfold Optimization_get_optimization_statistics.
  rewrite (bind_ok _ _ _ _ _ (get_package_type_ok package st' ltac:(rewrite Ho; exact Hpkg))).
  unfold call__get_optimization_statistics.
  rewrite (bind_ok _ _ _ _ _ (class_of_ok _ _ _ Hp')).
  destruct (Package.cls p');
    [unfold JModelica__get_optimization_statistics
    | unfold Python__get_optimization_statistics];
    rewrite (bind_ok _ _ _ _ _ (get_attr_ok _ _ _ _ _ _ Hp' Hres)); reflexivity.
Qed.

End Statistics.

(** ** The price of an energy cost minimization *)

#[local] Instance same_other_inputs_preorder : PreOrder same_other_inputs.
Proof.
  split; unfold same_other_inputs.
  - intros st l. reflexivity.
  - intros a b c H1 H2 l. rewrite H2. apply H1.
Qed.

Lemma set_model_same_other_inputs (m : loc) (f : Model.t -> Model.t) :
  (forall x, Model.other_inputs (f x) = Model.other_inputs x) ->
  preserves same_other_inputs (set_model m f).
Proof.
  intros Hf st st' o H. unfold set_model in H.
  apply bind_inv in H as [(sq & x & H1 & H2) | (ex & H1 & _)].
  - apply get_model_inv in H1 as [-> Hx]. inversion H2; subst.
    intros l. simpl. destruct (decide (m = l)) as [-> | Hne].
    + rewrite lookup_insert_eq, Hx. simpl. rewrite Hf. reflexivity.
    + rewrite lookup_insert_ne by exact Hne. reflexivity.
  - unfold get_model, bind, get, or_raise in H1.
    destruct (models st !! m); inversion H1; subst. intros l. reflexivity.
Qed.

Ltac same_other_inputs_leaf :=
  first
  [ apply set_model_same_other_inputs; intros; reflexivity
  | apply preserves_modify; intros; unfold same_other_inputs; intros; reflexivity ].

Section Price.

Context {X : Collaborators}.

(** X15. An energy cost minimization on the [JModelica] package writes
    the price series into the [other_inputs] dictionary of the model,
    under ['pi_e'], before anything else, and nothing that follows
    touches that dictionary: whatever the outcome of the call, the model
    holds the price afterwards and its other entries are what they
    were. *)
Theorem X15_price_is_left_in_the_models_other_inputs
    (self : loc) (d : dict mpcpy_var) (v : mpcpy_var) (st st' : state) (o : outcome unit)
    (p : Package.t) (m : loc) (x : Model.t) :
  packages st !! self = Some p ->
  Package.other_inputs p = Some m ->
  models st !! m = Some x ->
  dict_get "pi_e" d = Some v ->
  JModelica__energycostmin self (KwDict d) st = (st', o) ->
  exists x',
    models st' !! m = Some x' /\
    Model.other_inputs x' = dict_set "pi_e" (InputVar v) (Model.other_inputs x).
Proof.
  intros Hp Hm Hx Hd H. unfold JModelica__energycostmin in H.
  assert (E : other_inputs_setitem self "pi_e" (InputVar v) st
              = (set_models
                   (<[m := Model.set_other_inputs
                             (dict_set "pi_e" (InputVar v) (Model.other_inputs x)) x]>
                      (models st)) st, Ok tt)).
  { unfold other_inputs_setitem.
    rewrite (bind_ok _ _ _ _ _ (get_attr_ok _ _ _ _ _ _ Hp Hm)).
    exact (set_model_ok m
             (fun x => Model.set_other_inputs
                         (dict_set "pi_e" (InputVar v) (Model.other_inputs x)) x)
             x st Hx). }
  apply bind_inv in H as [(s0 & pi_e & H0 & H) | (ex & H0 & _)];
    simpl in H0; rewrite Hd in H0; inversion H0; subst s0 pi_e; clear H0.
  apply bind_inv in H as [(s1 & [] & H1 & H) | (ex & H1 & _)];
    rewrite E in H1; inversion H1; subst; clear H1.
  match type of H with
  | ?k _ = _ =>
      assert (Hpres : preserves same_other_inputs k) by pres same_other_inputs_leaf;
      pose proof (Hpres _ _ _ H m) as Hs; clear Hpres
  end.
  simpl in Hs. rewrite lookup_insert_eq in Hs. simpl in Hs.
  destruct (models st' !! m) as [x' |]; [| discriminate].
  simpl in Hs. injection Hs as Hs. exists x'. auto.
Qed.

End Price.

(** ** The cost of the derivative-free search *)

Section CostBounds.

#[local] Open Scope Q_scope.




Context {X : Collaborators}.







End CostBounds.

(** ** The external data of a solve *)

Lemma dict_set_absent {V} (k : string) (v : V) (d : dict V) :
  dict_get k d = None -> dict_set k v d = d ++ [(k, v)].
Proof.
  induction d as [| [k' v'] d IH]; simpl; [reflexivity |].
  destruct (String.eqb k' k); [discriminate |]. intros H. rewrite (IH H). reflexivity.
Qed.

Lemma dict_get_app_absent {V} (k k' : string) (v : V) (d : dict V) :
  k <> k' -> dict_get k d = None -> dict_get k (d ++ [(k', v)]) = None.
Proof.
  intros Hne. induction d as [| [k0 v0] d IH]; simpl.
  - destruct (String.eqb_spec k' k); [congruence | reflexivity].
  - destruct (String.eqb k0 k); [discriminate | exact IH].
Qed.

Lemma nth_error_drop {A} (l : list A) (i : nat) : nth_error l i = head (drop i l).
Proof.
  revert i. induction l as [| a l IH]; intros [| i]; simpl; try reflexivity. apply IH.
Qed.

Lemma drop_head {A} (l : list A) (i : nat) (a : A) :
  head (drop i l) = Some a -> drop i l = a :: drop (S i) l.
Proof.
  revert i. induction l as [| b l IH]; intros [| i]; simpl; try discriminate.
  - intros [= ->]. reflexivity.
  - intros H. apply IH. exact H.
Qed.

Lemma new_object_eq (ob : object) (st : state) :
  new_object ob st
  = (set_objects (<[fresh (dom (objects st)) := ob]> (objects st)) st,
     Ok (fresh (dom (objects st)))).
Proof. reflexivity. Qed.

Section ExternalData.

Context {X : Collaborators}.

(** The loop pairs each name with the time column and the next column. *)
Lemma eliminated_loop_pairs (columns : list (list Q)) (time : list Q) (names : list string) :
  head columns = Some time ->
  NoDup names ->
  forall (i : nat) (acc : dict traj) (s : state),
    (forall k, In k names -> dict_get k acc = None) ->
    length names <= length (drop i columns) ->
    eliminated_loop columns i names acc s
    = (s, Ok (acc ++ zip names (map (pair time) (drop i columns)))).
Proof.
  intros Htime. induction 1 as [| key names Hkey Hnd IH]; intros i acc s Hacc Hlen.
  - simpl. rewrite app_nil_r. reflexivity.
  - assert (E0 : nth_error columns 0 = Some time)
      by (rewrite nth_error_drop; exact Htime).
    destruct (drop i columns) as [| c rest] eqn:Ed; [simpl in Hlen; lia |].
    assert (E1 : nth_error columns i = Some c)
      by (rewrite nth_error_drop, Ed; reflexivity).
    pose proof (drop_head columns i c ltac:(rewrite Ed; reflexivity)) as Ed'.
    rewrite Ed in Ed'. injection Ed' as Ed'.
    cbn [eliminated_loop]. rewrite E0, E1. unfold bind at 1. cbn [or_raise ret].
    unfold bind at 1. cbn [or_raise ret].
    rewrite dict_set_absent by (apply Hacc; left; reflexivity).
    rewrite IH.
    + rewrite <- Ed', <- app_assoc. reflexivity.
    + intros k Hk. apply dict_get_app_absent.
      * intros ->. apply Hkey. apply list_elem_of_In. exact Hk.
      * apply Hacc. right. exact Hk.
    + rewrite <- Ed'. simpl in Hlen. lia.
Qed.

(** X18. For a package without a list of measurement variables (a
    control problem) whose input object names [n] distinct inputs and
    has more than [n] columns, [_create_external_data] builds an
    [ExternalData] with no tracking term and an empty weight matrix, in
    which input [k] (counting from 0) is eliminated with the time column
    (column 0) and column [k + 1]; the new object becomes the
    [external_data] of the package, and nothing else changes. *)
Theorem X18_inputs_are_eliminated_with_their_columns
    (self : loc) (st : state) (p : Package.t) (names : list string)
    (columns : list (list Q)) (time : list Q) :
  packages st !! self = Some p ->
  Package.measurement_variable_list p = None ->
  Package._input_object p = Some (names, columns) ->
  NoDup names ->
  head columns = Some time ->
  length names < length columns ->
  let id := fresh (dom (objects st)) in
  JModelica__create_external_data self st
  = (set_packages (<[self := Package.set_external_data (Some id) p]> (packages st))
       (set_objects
          (<[id := ObjExternalData
                     (MkExternalData 0 [] (zip names (map (pair time) (tail columns))))]>
             (objects st)) st),
     Ok tt).
Proof.
  intros Hp Hm Hi Hnd Htime Hlen id. unfold JModelica__create_external_data.
  rewrite (bind_ok _ _ _ _ _ (get_package_ok _ _ _ Hp)).
  rewrite Hm, Hi. unfold bind at 1. simpl.
  assert (Hlen' : length names <= length (drop 1 columns))
    by (destruct columns as [| c0 cols]; [discriminate Htime |]; simpl in *; rewrite drop_0; lia).
  rewrite (bind_ok _ _ _ _ _
             (eliminated_loop_pairs columns time names Htime Hnd 1 [] st
                (fun _ _ => eq_refl) Hlen')).
  replace (drop 1 columns) with (tail columns)
    by (destruct columns as [| c0 cols]; [reflexivity | simpl; rewrite drop_0; reflexivity]).
  cbn [app length default].
  rewrite (bind_ok _ _ _ _ _ (new_object_eq _ st)).
  match goal with
  | |- set_package _ ?f ?s = _ => exact (set_package_ok self f p s Hp)
  end.
Qed.

End ExternalData.

(** ** When the solver raises *)

Ltac only_sets_pres := unfold only_sets; pres only_sets_leaf.

Lemma last_in {A} (l : list A) (x : A) : last l = Some x -> In x l.
Proof.
  induction l as [| a l IH]; [discriminate |].
  destruct l as [| b l]; simpl in *.
  - intros [= ->]. auto.
  - intros H. right. apply IH. exact H.
Qed.

Section SolverErrors.

Context {X : Collaborators}.

Lemma solve_ends (self : loc) (s s' : state) (o : outcome unit) :
  JModelica__solve self s = (s', o) -> solve_ended self s s' o.
Proof.
  intros H. unfold JModelica__solve in H.
  assert (HQ : only_sets s s) by reflexivity.
  do 19 (xstep only_sets_pres H HQ Hm; [clear Hm | left; subst; exact HQ]).
  xstep only_sets_pres H HQ Hm; [| left; subst; exact HQ].
  apply get_attr_inv in Hm as (-> & p & Hp & _).
  xstep only_sets_pres H HQ Hm; [| left; subst; exact HQ].
  apply get_dict_inv in Hm as [-> _].
  destruct HQ as (sets & Ht & Hf).
  apply bind_inv in H as [(sA & [] & Hm & H) | (eA & Hm & _)]; [| inversion Hm].
  inversion Hm; subst sA; clear Hm.
  apply bind_inv in H as [(sB & sG & Hm & H) | (eB & Hm & _)]; [| inversion Hm].
  apply get_inv in Hm as [-> ->].
  apply bind_inv in H as [(sC & res & Hm & H) | (eC & Hm & ->)].
  - apply lift_inv in Hm as [-> _].
    right. right.
    match type of H with
    | bind (set_package self ?f) _ ?sX = _ =>
        rewrite (bind_ok _ _ _ _ _ (set_package_ok self f p sX
                   ltac:(first [exact Hp | simpl; exact Hp]))) in H
    end.
    inversion H; subst. exists (sets ++ [EvOptimize x19]), res.
    simpl. rewrite Ht, <- !app_assoc. reflexivity.
  - inversion Hm as [[Hs He]]. right. left.
    exists sets. do 3 eexists.
    split; [simpl; rewrite Ht, <- app_assoc; reflexivity |].
    split; [exact He | reflexivity].
Qed.

Lemma not_called_raised (s s' : state) (o : outcome unit) :
  solver_not_called s s' -> raised_by_the_solver s s' o.
Proof.
  intros (pre & Ht & Hf) evs options Hevs Hlast.
  rewrite Ht in Hevs. apply app_inv_head in Hevs. subst evs.
  apply last_in, list_elem_of_In in Hlast.
  rewrite Forall_forall in Hf. destruct (Hf _ Hlast options). reflexivity.
Qed.

Lemma same_trace_raised (s s' : state) (o : outcome unit) :
  same_trace s s' -> raised_by_the_solver s s' o.
Proof.
  intros Ht. apply not_called_raised. exists []. rewrite app_nil_r.
  split; [exact Ht | constructor].
Qed.

Lemma raised_after (s s1 s' : state) (o : outcome unit) :
  same_trace s s1 -> raised_by_the_solver s1 s' o -> raised_by_the_solver s s' o.
Proof.
  unfold same_trace, raised_by_the_solver. intros Ht H evs options Hevs.
  apply H. rewrite Ht. exact Hevs.
Qed.

(** The seed simulation, the solve and the reading of the results. *)
Lemma entry_raised (self : loc) (ext : M unit) (s s' : state) (o : outcome unit) :
  preserves same_trace ext ->
  (JModelica__simulate_initial self ;; JModelica__solve self ;; ext) s = (s', o) ->
  raised_by_the_solver s s' o.
Proof.
  intros Hext H.
  apply bind_inv in H as [(s1 & [] & Hsim & H) | (e & Hsim & _)].
  2: { apply not_called_raised. apply simulate_initial_shape in Hsim as [Hnc _]. exact Hnc. }
  apply simulate_initial_shape in Hsim as [(pre & Tpre & Fpre) _].
  assert (Hrun : exists s2 o2,
             JModelica__solve self s1 = (s2, o2) /\ same_trace s2 s' /\
             (o2 = o \/ o2 = Ok tt)).
  { apply bind_inv in H as [(s2 & [] & Hsolve & H) | (e & Hsolve & ->)].
    - exists s2, (Ok tt). split; [exact Hsolve |]. split; [exact (Hext _ _ _ H) | auto].
    - exists s', (Raise e). split; [exact Hsolve |]. split; [reflexivity | auto]. }
  destruct Hrun as (s2 & o2 & Hsolve & Ht2 & Ho).
  unfold same_trace in Ht2.
  intros evs options Hevs Hlast. rewrite Ht2 in Hevs.
  apply solve_ends in Hsolve
    as [(sets & Ts & Fs) | [(sets & options' & s0 & e & Ts & Hr & ->) | (evs' & res & Ts)]];
    rewrite Ts, Tpre, <- app_assoc in Hevs; apply app_inv_head in Hevs; subst evs.
  - apply last_in, list_elem_of_In in Hlast.
    assert (Hall : Forall not_optimize (pre ++ sets)).
    { apply Forall_app. split; [exact Fpre |].
      eapply Forall_impl; [exact Fs |]. intros ev (name & value & ->) opts. discriminate. }
    rewrite Forall_forall in Hall. destruct (Hall _ Hlast options). reflexivity.
  - rewrite app_assoc, last_snoc in Hlast. injection Hlast as ->.
    exists s0, self, e. split; [exact Hr |].
    destruct Ho as [<- | Ho]; [reflexivity | discriminate].
  - rewrite app_assoc, last_snoc in Hlast. discriminate.
Qed.

(** X21. When a call of [optimize] ends with the solver called and not
    returned, that is when the last thing the collaborators have seen in
    it is the call of the solver, then the solver has raised, and
    [optimize] raises the very exception that the solver raised. *)
Theorem X21_an_exception_of_the_solver_reaches_the_caller
    (start_time final_time : Q) (kwargs : dict kwarg) (st st' : state) (o : outcome unit)
    (evs : list event) (options : dict pyval) :
  Optimization_optimize start_time final_time kwargs st = (st', o) ->
  trace st' = trace st ++ evs ->
  last evs = Some (EvOptimize options) ->
  exists s0 self e, opt_problem_optimize s0 self options = Raise e /\ o = Raise e.
Proof.
  intros H. revert evs options.
  change (raised_by_the_solver st st' o).
  assert (HQ : same_trace st st) by reflexivity.
  unfold Optimization_optimize in H.
  do 2 (xstep ltac:(pres same_trace_leaf) H HQ Hm;
        [clear Hm | subst; apply same_trace_raised; exact HQ]).
  unfold call__optimize in H.
  do 2 (xstep ltac:(pres same_trace_leaf) H HQ Hm;
        [clear Hm | subst; apply same_trace_raised; exact HQ]).
  match type of H with (match ?pt with _ => _ end) _ = _ => destruct pt end.
  - unfold EnergyMin__optimize in H.
    xstep ltac:(pres same_trace_leaf) H HQ Hm;
      [clear Hm | subst; apply same_trace_raised; exact HQ].
    unfold call__energymin in H.
    xstep ltac:(pres same_trace_leaf) H HQ Hm;
      [clear Hm | subst; apply same_trace_raised; exact HQ].
    match type of H with (match ?c with _ => _ end) _ = _ => destruct c end.
    + unfold JModelica__energymin in H.
      eapply raised_after; [exact HQ |].
      eapply entry_raised; [| exact H]. pres same_trace_leaf.
    + apply same_trace_raised. etransitivity; [exact HQ |].
      match type of H with
      | ?k _ = _ =>
          assert (Hp : preserves same_trace k) by pres same_trace_leaf; exact (Hp _ _ _ H)
      end.
  - unfold EnergyCostMin__optimize in H.
    do 2 (xstep ltac:(pres same_trace_leaf) H HQ Hm;
          [clear Hm | subst; apply same_trace_raised; exact HQ]).
    unfold call__energycostmin in H.
    xstep ltac:(pres same_trace_leaf) H HQ Hm;
      [clear Hm | subst; apply same_trace_raised; exact HQ].
    match type of H with (match ?c with _ => _ end) _ = _ => destruct c end.
    + unfold JModelica__energycostmin in H.
      do 2 (xstep ltac:(pres same_trace_leaf) H HQ Hm;
            [clear Hm | subst; apply same_trace_raised; exact HQ]).
      eapply raised_after; [exact HQ |].
      eapply entry_raised; [| exact H]. pres same_trace_leaf.
    + apply same_trace_raised. etransitivity; [exact HQ |].
      match type of H with
      | ?k _ = _ =>
          assert (Hp : preserves same_trace k) by pres same_trace_leaf; exact (Hp _ _ _ H)
      end.
  - unfold _ParameterEstimate__optimize in H.
    do 2 (xstep ltac:(pres same_trace_leaf) H HQ Hm;
          [clear Hm | subst; apply same_trace_raised; exact HQ]).
    unfold call__parameterestimate in H.
    xstep ltac:(pres same_trace_leaf) H HQ Hm;
      [clear Hm | subst; apply same_trace_raised; exact HQ].
    match type of H with (match ?c with _ => _ end) _ = _ => destruct c end.
    + unfold JModelica__parameterestimate in H.
      xstep ltac:(pres same_trace_leaf) H HQ Hm;
        [clear Hm | subst; apply same_trace_raised; exact HQ].
      eapply raised_after; [exact HQ |].
      eapply entry_raised; [| exact H]. pres same_trace_leaf.
    + apply same_trace_raised. etransitivity; [exact HQ |].
      match type of H with
      | ?k _ = _ =>
          assert (Hp : preserves same_trace k) by pres same_trace_leaf; exact (Hp _ _ _ H)
      end.
Qed.

End SolverErrors.

(** ** The input names of the model across a construction *)

#[local] Instance input_names_kept_preorder (self : loc) : PreOrder (input_names_kept self).
Proof.
  split; unfold input_names_kept.
  - intros st H. split; [exact H | reflexivity].
  - intros a b c H1 H2 Ha. destruct (H1 Ha) as [Hb E1]. destruct (H2 Hb) as [Hc E2].
    split; [exact Hc | etransitivity; eassumption].
Qed.

Lemma set_package_input_names_kept (self self' : loc) (f : Package.t -> Package.t) :
  (forall p, Package.opt_input_names (f p) = Package.opt_input_names p) ->
  preserves (input_names_kept self) (set_package self' f).
Proof.
  intros Hf st st' o H (p & l & Hp & Hl).
  unfold set_package in H. apply bind_inv in H as [(sq & p' & H1 & H2) | (ex & H1 & _)].
  - apply get_package_inv in H1 as [-> Hp']. inversion H2; subst st'.
    split; [| intros k; reflexivity].
    destruct (decide (self' = self)) as [-> | Hne].
    + exists (f p'), l. simpl. rewrite lookup_insert_eq. split; [reflexivity |].
      rewrite Hf. congruence.
    + exists p, l. simpl. rewrite lookup_insert_ne by exact Hne. auto.
  - assert (Hpure : preserves eq (get_package self')) by pres fail.
    apply Hpure in H1. subst. split; [exists p, l; auto | reflexivity].
Qed.

Lemma set_model_input_names_kept (self m : loc) (f : Model.t -> Model.t) :
  (forall x, Model.input_names (f x) = Model.input_names x) ->
  preserves (input_names_kept self) (set_model m f).
Proof.
  intros Hf st st' o H Hown. split.
  - assert (Hp : preserves same_packages (set_model m f)) by pres same_packages_leaf.
    apply Hp in H. unfold same_packages in H.
    destruct Hown as (p & l & Hp' & Hl). exists p, l. rewrite H. auto.
  - exact (set_model_same_input_names m f Hf _ _ _ H).
Qed.

Lemma modify_input_names_kept (self : loc) (f : state -> state) :
  (forall st, packages (f st) = packages st) ->
  (forall st, models (f st) = models st) ->
  preserves (input_names_kept self) (modify f).
Proof.
  intros Hp Hm st st' o H (p & l & Hp' & Hl). inversion H; subst.
  split; [exists p, l; rewrite Hp; auto |]. intros k. rewrite Hm. reflexivity.
Qed.

Section InputNames.

Context {X : Collaborators}.

(** Appending to [opt_input_names] when it is a list of the package's
    own. *)
Lemma append_own_kept (self : loc) (key : string) (k : M unit) :
  preserves (input_names_kept self) k ->
  preserves (input_names_kept self)
    (let* o := get_attr self Package.opt_input_names "opt_input_names" in
     append_name self o Package.set_opt_input_names key ;; k).
Proof.
  intros Hk st st' o H Hown.
  destruct Hown as (p & l & Hp & Hl).
  rewrite (bind_ok _ _ _ _ _ (get_attr_ok _ _ _ _ _ _ Hp Hl)) in H.
  unfold append_name in H.
  rewrite (bind_ok _ _ _ _ _ (set_package_ok _ _ _ _ Hp)) in H.
  apply Hk in H.
  destruct H as [Hown' Hs].
  - eexists _, _. simpl. rewrite lookup_insert_eq. split; reflexivity.
  - split; [exact Hown' |]. intros j. rewrite (Hs j). reflexivity.
Qed.

Lemma append_own_kept_last (self : loc) (key : string) :
  preserves (input_names_kept self)
    (let* o := get_attr self Package.opt_input_names "opt_input_names" in
     append_name self o Package.set_opt_input_names key).
Proof.
  intros st st' o H Hown.
  destruct Hown as (p & l & Hp & Hl).
  rewrite (bind_ok _ _ _ _ _ (get_attr_ok _ _ _ _ _ _ Hp Hl)) in H.
  unfold append_name in H. rewrite (set_package_ok _ _ _ _ Hp) in H.
  inversion H; subst. split; [| intros j; reflexivity].
  eexists _, _. simpl. rewrite lookup_insert_eq. split; reflexivity.
Qed.

End InputNames.

Ltac input_names_kept_leaf :=
  first
  [ apply append_own_kept_last
  | apply append_own_kept
  | apply set_package_input_names_kept; intros; reflexivity
  | apply set_model_input_names_kept; intros; reflexivity
  | apply modify_input_names_kept; intros; reflexivity ].

Section InputNamesAcross.

Context {X : Collaborators}.

(** Writing the optimization stage leaves the input names of the models
    alone. *)
Lemma write_control_mop_same_input_names (self : loc) :
  preserves same_input_names (JModelica__write_control_mop self).
Proof.
  intros st st' o H. unfold JModelica__write_control_mop in H.
  assert (HQ : same_input_names st st) by reflexivity.
  do 3 (xstep ltac:(pres same_input_names_leaf) H HQ Hm; [clear Hm | subst; exact HQ]).
  cbv zeta in H.
  do 5 (xstep ltac:(pres same_input_names_leaf) H HQ Hm; [clear Hm | subst; exact HQ]).
  xstep ltac:(pres same_input_names_leaf) H HQ Hm; [| subst; exact HQ].
  apply set_package_inv in Hm as (p & Hp & Es).
  match type of H with
  | ?k _ = _ =>
      assert (Hk : preserves (input_names_kept self) k) by pres input_names_kept_leaf;
      apply Hk in H
  end.
  destruct H as [_ Hs].
  - subst. eexists _, _. simpl. rewrite lookup_insert_eq. split; reflexivity.
  - etransitivity; eassumption.
Qed.

End InputNamesAcross.

Section AcrossConstruction.

Context {X : Collaborators}.

Ltac after_set_package H p' Hp' :=
  let s' := fresh "s" in
  let Hs := fresh "Hs" in
  apply bind_ok_inv in H as (s' & [] & Hs & H);
  apply set_package_inv in Hs as (p' & Hp' & ->);
  cbn [packages models optimization set_packages] in Hp', H.

(** What setting up a package does to the input names of the model. *)
Lemma setup_appends (self : loc) (st st' : state) (problem_type : problem_kind)
    (p : Package.t) (x : Model.t) :
  Optim._problem_type (optimization st) = Some problem_type ->
  packages st !! self = Some p ->
  models st !! Optim.Model (optimization st) = Some x ->
  call__setup_jmodelica self st = (st', Ok tt) ->
  exists x',
    models st' !! Optim.Model (optimization st) = Some x' /\
    Model.input_names x' = Model.input_names x ++ extra_input_names problem_type.
Proof.
  intros Hpt Hp Hx H. unfold call__setup_jmodelica in H.
  apply bind_ok_inv in H as (s & O & Hs & H). apply get_optimization_inv in Hs as [-> ->].
  rewrite Hpt in H. unfold bind at 1 in H. cbn [or_raise ret] in H.
  destruct problem_type;
    [unfold EnergyMin__setup_jmodelica in H
    | unfold EnergyCostMin__setup_jmodelica in H
    | unfold _ParameterEstimate__setup_jmodelica in H];
    apply bind_ok_inv in H as (s & O & Hs & H); apply get_optimization_inv in Hs as [-> ->].
  all: after_set_package H p1 Hp1; rewrite Hp in Hp1; injection Hp1 as <-.
  all: after_set_package H p2 Hp2; rewrite lookup_insert_eq in Hp2; injection Hp2 as <-.
  all: after_set_package H p3 Hp3; rewrite lookup_insert_eq in Hp3; injection Hp3 as <-.
  2: after_set_package H p4 Hp4; rewrite lookup_insert_eq in Hp4; injection Hp4 as <-.
  all: apply bind_ok_inv in H as (s5 & [] & Hinit & H);
    unfold call__initalize_mop in Hinit;
    apply bind_ok_inv in Hinit as (s & c & Hc & Hinit);
    apply class_of_inv in Hc as (-> & pc & Hpc & <-);
    cbn [packages set_packages] in Hpc; rewrite lookup_insert_eq in Hpc;
    injection Hpc as <-; cbn in Hinit;
    destruct (Package.cls p); [| inversion Hinit];
    (eapply initalize_mop_appends in Hinit as (x5 & Hx5 & Hn5);
     [| cbn [packages set_packages]; apply lookup_insert_eq
      | reflexivity | reflexivity | exact Hx]);
    match type of H with
    | ?k _ = _ =>
        assert (Hk : preserves same_input_names k)
          by pres ltac:(first [ apply write_control_mop_same_input_names
                              | same_input_names_leaf ]);
        pose proof (Hk _ _ _ H (Optim.Model (optimization st))) as Hs; clear Hk
    end;
    rewrite Hx5 in Hs;
    destruct (models st' !! Optim.Model (optimization st)) as [x' |]; [| discriminate];
    cbn in Hs; injection Hs as Hs; exists x'; (split; [reflexivity |]);
    rewrite Hs, Hn5; try reflexivity; apply app_nil_r.
Qed.

(** The same across the constructor of a package. *)
Lemma construct_appends (c : package_kind) (st st' : state) (self : loc)
    (problem_type : problem_kind) (x : Model.t) :
  Optim._problem_type (optimization st) = Some problem_type ->
  models st !! Optim.Model (optimization st) = Some x ->
  construct c st = (st', Ok self) ->
  exists x',
    models st' !! Optim.Model (optimization st) = Some x' /\
    Model.input_names x' = Model.input_names x ++ extra_input_names problem_type.
Proof.
  intros Hpt Hx H.
  destruct c; unfold construct, JModelica___init__, Python___init__ in H;
    apply bind_ok_inv in H as (s1 & self' & H1 & H);
    rewrite new_package_eq in H1; inversion H1; subst s1 self'; clear H1;
    apply bind_ok_inv in H as (s2 & [] & Hsetup & H);
    (eapply setup_appends in Hsetup as (x2 & Hx2 & Hn2);
     [| exact Hpt | cbn [packages set_packages]; apply lookup_insert_eq | exact Hx]);
    cbn [optimization set_packages] in Hx2;
    match type of H with
    | ?k _ = _ =>
        assert (Hk : preserves same_input_names k) by pres same_input_names_leaf;
        pose proof (Hk _ _ _ H (Optim.Model (optimization st))) as Hs; clear Hk
    end;
    rewrite Hx2 in Hs;
    destruct (models st' !! Optim.Model (optimization st)) as [x' |]; [| discriminate | | discriminate];
    cbn in Hs; injection Hs as Hs; exists x'; (split; [reflexivity | congruence]).
Qed.

(** X22. A reconfiguration that returns appends the extra inputs of the
    problem type to the [input_names] of the model itself: nothing for
    [EnergyMin] and [_ParameterEstimate], one more ['pi_e'] for
    [EnergyCostMin], on top of the names the model had, those of earlier
    constructions included. *)
Theorem X22_reconfiguration_appends_the_extra_inputs_to_the_model
    (r : reconfiguration) (st st' : state) (problem_type : problem_kind) (x : Model.t) :
  reconfigure r st = (st', Ok tt) ->
  Optim._problem_type (optimization st') = Some problem_type ->
  models st !! Optim.Model (optimization st) = Some x ->
  exists x',
    models st' !! Optim.Model (optimization st') = Some x' /\
    Model.input_names x' = Model.input_names x ++ extra_input_names problem_type.
Proof.
  intros H Hpt Hx.
  assert (Hr : exists s0 sc c package,
             models s0 = models st /\
             Optim.Model (optimization s0) = Optim.Model (optimization st) /\
             construct c s0 = (sc, Ok package) /\
             st' = set_optimization
                     (Optim.set__package_type (Some package) (optimization sc)) sc).
  { destruct r as [pt | package_type]; simpl in H.
    - unfold Optimization_set_problem_type in H.
      apply bind_ok_inv in H as (s0 & [] & H1 & H). inversion H1; subst s0; clear H1.
      apply bind_ok_inv in H as (s & old & Hold & H).
      apply get_package_type_inv in Hold as [-> _].
      apply bind_ok_inv in H as (s & c & Hc & H).
      apply class_of_inv in Hc as (-> & _).
      apply bind_ok_inv in H as (sc & package & Hc & H).
      inversion H; subst st'.
      eexists _, sc, c, package.
      repeat (match goal with |- _ /\ _ => split end); [| | exact Hc | reflexivity];
        reflexivity.
    - unfold Optimization_set_package_type in H.
      apply bind_ok_inv in H as (sc & package & Hc & H).
      inversion H; subst st'. exists st, sc, package_type, package.
      repeat (match goal with |- _ /\ _ => split end); [| | exact Hc | reflexivity];
        reflexivity. }
  destruct Hr as (s0 & sc & c & package & Hm & HM & Hc & ->).
  pose proof (construct_same_optimization _ _ _ _ Hc) as Ho.
  unfold same_optimization in Ho.
  cbn [optimization set_optimization models Optim.Model Optim.set__package_type
       Optim._problem_type] in Hpt |- *.
  destruct (optimization sc) as [M0 cd ov pt0 pk0 a b] eqn:Eo.
  cbn in Hpt |- *.
  assert (EM : Optim.Model (optimization s0) = M0) by (rewrite <- Ho; reflexivity).
  assert (Ept : Optim._problem_type (optimization s0) = Some problem_type)
    by (rewrite <- Ho; exact Hpt).
  eapply construct_appends in Hc as (x' & Hx' & Hn'); [| exact Ept |].
  - exists x'. rewrite EM in Hx'. split; [exact Hx' | exact Hn'].
  - rewrite Hm, HM. exact Hx.
Qed.

End AcrossConstruction.

(** ** The properties on the examples *)

Lemma X1_witness :
  exists msg,
    Optimization_set_optimization_options Examples.own_n_e_ref
      Examples.st_own_n_e
    = (Examples.st_own_n_e, Raise (KeyError msg)).
Proof.
  eapply (X1_changed_auto_key_is_refused Examples.st_own_n_e
            Demo.package _ Examples.own_n_e_ref _ _ _ "n_e" (PyInt 2) (PyInt 50));
    vm_compute; reflexivity.
Defined.

Lemma X2_witness :
  let st' :=
    set_packages
      (<[Demo.package := Package.set_opt_options (Some Examples.own_ipopt_ref)
                           (default (Package.new JModelica)
                              (packages Examples.st_own_ipopt !! Demo.package))]>
         (packages Examples.st_own_ipopt)) Examples.st_own_ipopt in
  Optimization_set_optimization_options Examples.own_ipopt_ref
    Examples.st_own_ipopt = (st', Ok tt) /\
  Optimization_get_optimization_options st'
  = (st', Ok Examples.own_ipopt_ref).
Proof.
  eapply (X2_accepted_options_are_the_callers_object
            Examples.st_own_ipopt Demo.package _ Examples.own_ipopt_ref _
            Examples.own_ipopt _);
    try (vm_compute; reflexivity).
  intros k Hk Ha. vm_compute in Hk. destruct Hk as [<- | []].
  vm_compute in Ha. discriminate Ha.
Defined.

Lemma X3_witness :
  Optimization_get_optimization_statistics Demo.st1
  = (Demo.st1, Raise (AttributeError "res_opt")).
Proof.
  apply (X3_no_statistics_before_a_solve (X := Demo.world) 0%nat EnergyMin JModelica
           "q_flow" (MkInitKwargs (Some Demo.constraints) None None) Demo.st0 Demo.st1).
  vm_compute; reflexivity.
Defined.

Lemma X4_witness :
  Optimization_get_optimization_statistics Demo.st_optimized
  = (Demo.st_optimized, Ok (PyStr "Solve_Succeeded")) /\
  Optimization_get_optimization_statistics Examples.st_reconfigured
  = (Examples.st_reconfigured, Raise (AttributeError "res_opt")).
Proof.
  split; [vm_compute; reflexivity |].
  apply (X4_reconfiguration_discards_the_statistics (X := Demo.world)
           (SetProblemType EnergyCostMin) Demo.st_optimized Examples.st_reconfigured).
  vm_compute; reflexivity.
Defined.

Lemma X5_witness :
  exists package p prob l,
    optimization Demo.st1
    = Optim.Mk 0%nat Demo.constraints "q_flow" (Some EnergyMin) (Some package) None None /\
    packages Demo.st0 !! package = None /\
    packages Demo.st1 !! package = Some p /\
    Package.cls p = JModelica /\
    Package.opt_problem p = Some prob /\
    Package.opt_options p = Some l /\
    dicts Demo.st1 !! l = Some (prob_defaults prob).
Proof.
  apply (X5_constructor_keeps_its_arguments (X := Demo.world) 0%nat EnergyMin JModelica
           "q_flow" (MkInitKwargs (Some Demo.constraints) None None) Demo.st0 Demo.st1).
  vm_compute; reflexivity.
Defined.

Lemma X6_witness :
  Optim._problem_type (optimization Examples.st_failed_problem_type) = Some EnergyCostMin /\
  Optim._package_type (optimization Examples.st_failed_problem_type)
  = Optim._package_type (optimization Examples.st_no_file).
Proof.
  apply (X6_failed_set_problem_type_keeps_the_old_package (X := Demo.world)
           EnergyCostMin Examples.st_no_file Examples.st_failed_problem_type
           (IOError "Simple.mo")).
  vm_compute; reflexivity.
Defined.

Lemma X7_witness :
  optimization Examples.st_failed_package_type = optimization Examples.st_no_file.
Proof.
  apply (X7_failed_set_package_type_changes_nothing (X := Demo.world)
           JModelica Examples.st_no_file Examples.st_failed_package_type
           (IOError "Simple.mo")).
  vm_compute; reflexivity.
Defined.

Lemma X8_witness :
  copy_mo "end Simple" (firstn 5 Demo.mo_file) = List.filter kept_line (firstn 5 Demo.mo_file) /\
  forall line post,
    contains "end Simple" line = true ->
    copy_mo "end Simple" (firstn 5 Demo.mo_file ++ line :: post)
    = List.filter kept_line (firstn 5 Demo.mo_file).
Proof.
  apply (X8_copy_stops_at_the_end_of_the_package "end Simple" (firstn 5 Demo.mo_file)).
  vm_compute. repeat constructor.
Defined.

Lemma X9_witness :
  JModelica__initalize_mop (X := Demo.world) Demo.package Examples.st_no_file
  = (Examples.st_no_file, Raise (IOError (Model.mopath Examples.model1))).
Proof.
  eapply (X9_missing_mo_file_raises_before_any_write (X := Demo.world)
            Demo.package Examples.st_no_file _ 0%nat Examples.model1);
    vm_compute; reflexivity.
Defined.

Lemma X10_witness :
  exists x',
    models Examples.st_after_initalize !! 0%nat = Some x' /\
    Model.input_names x' = Model.input_names Demo.model ++ dict_keys [("pi_e", EmptyList)].
Proof.
  eapply (X10_extra_inputs_are_appended_to_the_models_input_names (X := Demo.world)
            0%nat Examples.st_before_initalize Examples.st_after_initalize _ 0%nat
            Demo.model [("pi_e", EmptyList)]);
    vm_compute; reflexivity.
Defined.



Lemma X13_witness :
  JModelica__get_control_results (X := Demo.world) Demo.package Examples.st_solved
  = (Examples.st_extracted, Ok tt) /\
  only_results_written Examples.st_solved Examples.st_extracted.
Proof.
  assert (H : JModelica__get_control_results (X := Demo.world) Demo.package
                Examples.st_solved = (Examples.st_extracted, Ok tt))
    by (vm_compute; reflexivity).
  split; [exact H |].
  exact (X13_control_results_write_controls_and_simulated_only (X := Demo.world) _ _ _ _ H).
Defined.

Lemma X14_witness :
  exists s0 options res,
    opt_problem_optimize (Collaborators := Demo.world) s0 Demo.package options = Ok res /\
    Optimization_get_optimization_statistics Demo.st_optimized
    = (Demo.st_optimized, Ok (res_statistics res)).
Proof.
  eapply (X14_statistics_are_those_of_the_solve (X := Demo.world)
            0 86400 [] Demo.st1 Demo.st_optimized Demo.package _);
    vm_compute; reflexivity.
Defined.

Lemma X15_witness :
  exists x',
    models Examples.st_cost_solved !! 0%nat = Some x' /\
    Model.other_inputs x'
    = dict_set "pi_e" (InputVar Examples.price) (Model.other_inputs Examples.model_c).
Proof.
  eapply (X15_price_is_left_in_the_models_other_inputs (X := Demo.world)
            Examples.package_c [("pi_e", Examples.price)] Examples.price
            Demo.st_cost_min Examples.st_cost_solved (Ok tt) _ 0%nat Examples.model_c);
    vm_compute; reflexivity.
Defined.



Lemma X18_witness :
  let id := Examples.external_data_ref in
  JModelica__create_external_data (X := Demo.world) Demo.package Examples.st_inputs
  = (set_packages
       (<[Demo.package := Package.set_external_data (Some id) Examples.package_inputs]>
          (packages Examples.st_inputs))
       (set_objects
          (<[id := ObjExternalData
                     (MkExternalData 0 []
                        [("q_flow", ([0; 1]%Q, [10; 11]%Q)); ("T_out", ([0; 1]%Q, [20; 21]%Q))])]>
             (objects Examples.st_inputs)) Examples.st_inputs),
     Ok tt).
Proof.
  apply (X18_inputs_are_eliminated_with_their_columns (X := Demo.world)
           Demo.package Examples.st_inputs
           Examples.package_inputs ["q_flow"; "T_out"] [[0; 1]%Q; [10; 11]%Q; [20; 21]%Q]
           [0; 1]%Q).
  - vm_compute; reflexivity.
  - vm_compute; reflexivity.
  - vm_compute; reflexivity.
  - apply (bool_decide_unpack _). vm_compute. reflexivity.
  - reflexivity.
  - simpl; lia.
Defined.

Lemma X19_witness :
  let units := _get_fmu_variable_units (Collaborators := Demo.world) Examples.st_solved
                 Demo.package in
  exists x',
    models Examples.st_extracted !! 0%nat = Some x' /\
    dict_keys (Model.control_data x') = dict_keys (Model.control_data Examples.model_solved) /\
    dict_keys (Model.measurements x') = dict_keys (Model.measurements Examples.model_solved) /\
    (forall key, In key (dict_keys (Model.control_data Examples.model_solved)) ->
       exists ts,
         series_of (X := Demo.world) units Demo.solved Examples.setup_solved key = Some ts /\
         dict_get key (Model.control_data x') = Some ts) /\
    (forall key, In key (dict_keys (Model.measurements Examples.model_solved)) ->
       exists ts,
         series_of (X := Demo.world) units Demo.solved Examples.setup_solved key = Some ts /\
         field_of (Model.measurements x') key "Simulated" = Some ts).
Proof.
  apply (X19_results_are_the_solved_series (X := Demo.world) Demo.package
           Examples.st_solved Examples.st_extracted Examples.package_solved 0%nat
           Examples.model_solved Demo.solved Examples.setup_solved);
    vm_compute; reflexivity.
Defined.


Lemma X21_witness :
  exists s0 self e,
    opt_problem_optimize (Collaborators := Examples.failing) s0 self Examples.failed_options
    = Raise e /\
    Raise (ExternalError "Restoration_Failed") = Raise (A := unit) e.
Proof.
  apply (X21_an_exception_of_the_solver_reaches_the_caller (X := Examples.failing)
           0 86400 [] Demo.st1 Examples.st_solver_failed
           (Raise (ExternalError "Restoration_Failed")) Examples.failed_events
           Examples.failed_options);
    vm_compute; reflexivity.
Defined.

Lemma X22_witness :
  exists x',
    models Demo.st_cost_min !! Optim.Model (optimization Demo.st_cost_min) = Some x' /\
    Model.input_names x' = Model.input_names Examples.model1 ++ extra_input_names EnergyCostMin.
Proof.
  apply (X22_reconfiguration_appends_the_extra_inputs_to_the_model (X := Demo.world)
           (SetProblemType EnergyCostMin) Demo.st_options_set Demo.st_cost_min
           EnergyCostMin Examples.model1);
    vm_compute; reflexivity.
Defined.
